(** * Rank fusion and feedback-driven configuration of the retrieval service

    A shallow embedding of [app/services/hybrid_search.py]
    ([HybridSearch.reciprocal_rank_fusion]) and of
    [app/services/rl_optimizer.py] ([RLConfig], [RLOptimizer]), with the
    properties the specification states about them; and of the code around
    them, [HybridSearch.hybrid_search], [app/services/feedback.py]
    ([FeedbackService]), [app/services/reranker.py] ([Reranker]),
    [app/services/llm_judge.py] ([LLMJudge]) and [app/services/rag.py]
    ([RAGService.process_query]), with properties read off the code.

    Conventions of the embedding.
    - Python [float] values are exact rationals ([Q]); the rounding of the
      binary64 operations is not modelled.  Statements about computed
      numbers allow for it ([Rounding]), and where a claim turns on it the
      arithmetic is run on binary64 itself ([Binary64]).  A decimal constant
      is written as the source writes it and stands for the float it
      denotes.  The one non-finite value ordinary inputs produce, the [nan]
      that [np.mean] returns on an empty list, is modelled ([npfloat]).
    - Python dictionaries with a fixed set of keys are records; a key that the
      code reads with [d.get(key, default)] is an [option] field.
    - A method of [RLConfig] or [RLOptimizer] is a computation in the monad
      [M]: it takes the object's state and returns an outcome (a value, or the
      exception raised) together with the state as the mutations made so far
      left it.
    - The values of the configuration and of the feedback entries have the
      types the code expects of them (a threshold is a number,
      [feedback_type] a string); what may be missing is a key.  The items of
      a document are any values ([pyval]): the index is built from a table
      whose empty cells are [nan], and slicing one raises [TypeError].
    - Opening and writing the configuration file succeed. *)

From Stdlib Require Import String QArith Qminmax Qabs ZArith List Bool Lia Lqa.
From Stdlib Require Import Permutation Sorted Ascii.
From Stdlib Require Floats.
Import ListNotations.

Open Scope Q_scope.

(* ================================================================== *)
(** ** Python values and control *)
(* ================================================================== *)

Module Py.

(** Exceptions the modelled code can raise.  [NonFinite] is not a Python
    exception: it marks a numpy division by zero, whose result ([inf] or
    [nan]) has no rational counterpart. *)
Inductive exn : Type :=
| KeyError (key : string)
| ZeroDivisionError
| TypeError
| NonFinite.

Inductive result (A : Type) : Type :=
| Ok (a : A)
| Raise (e : exn).
Arguments Ok {A} a.
Arguments Raise {A} e.

Definition rbind {A B} (r : result A) (k : A -> result B) : result B :=
  match r with
  | Ok a => k a
  | Raise e => Raise e
  end.

Definition is_ok {A} (r : result A) : bool :=
  match r with Ok _ => true | Raise _ => false end.

(** [a / b] on Python integers (true division). *)
Definition int_div (a b : Z) : result Q :=
  if (b =? 0)%Z then Raise ZeroDivisionError
  else Ok (inject_Z a / inject_Z b).

Definition Qltb (x y : Q) : bool := negb (Qle_bool y x).

(** [max(a, b)] and [min(a, b)]: the first argument is kept unless the
    second is strictly beyond it. *)
Definition max2 (a b : Q) : Q := if Qltb a b then b else a.
Definition min2 (a b : Q) : Q := if Qltb b a then b else a.

(** [l[i:]] and [l[:j]] for a possibly negative index. *)
Definition slice_from {A} (i : Z) (l : list A) : list A :=
  let n := Z.of_nat (length l) in
  if (i <? 0)%Z then skipn (Z.to_nat (Z.max 0 (n + i))) l
  else skipn (Z.to_nat i) l.

Definition slice_to {A} (j : Z) (l : list A) : list A :=
  let n := Z.of_nat (length l) in
  if (j <? 0)%Z then firstn (Z.to_nat (Z.max 0 (n + j))) l
  else firstn (Z.to_nat j) l.

(** [sorted(l, key=key, reverse=True)].  The sort is stable: items with
    equal keys keep their relative order, also under [reverse=True]. *)
Section Sorted.
Context {A : Type} (key : A -> Q).

Fixpoint insert_desc (x : A) (l : list A) : list A :=
  match l with
  | [] => [x]
  | y :: l' =>
      if Qltb (key x) (key y) then y :: insert_desc x l'
      else x :: y :: l'
  end.

Definition sorted_desc (l : list A) : list A :=
  fold_right insert_desc [] l.
End Sorted.

(** Dictionaries that are iterated: association lists in insertion order,
    with keys compared by [eqb]. *)
Section Dict.
Context {K V : Type} (eqb : K -> K -> bool).

Definition dict := list (K * V).

(** [key in d] and [d[key]], as an option. *)
Fixpoint dict_find (d : dict) (key : K) : option V :=
  match d with
  | [] => None
  | (k', v) :: d' => if eqb k' key then Some v else dict_find d' key
  end.

(** [d.get(key, default)] *)
Definition dict_get (d : dict) (key : K) (default : V) : V :=
  match dict_find d key with
  | Some v => v
  | None => default
  end.

(** [d[key] = v]: an existing key keeps its position, a new one goes
    last. *)
Fixpoint dict_set (d : dict) (key : K) (v : V) : dict :=
  match d with
  | [] => [(key, v)]
  | (k', v') :: d' =>
      if eqb k' key then (k', v) :: d'
      else (k', v') :: dict_set d' key v
  end.
End Dict.
Arguments dict : clear implicits.

(** numpy scalars: a finite value or [nan]. *)
Inductive npfloat : Type :=
| Fin (q : Q)
| NaN.

Definition Qsum (l : list Q) : Q := fold_left Qplus l 0.

(** [np.mean(l)]; [nan] on the empty list. *)
Definition np_mean (l : list Q) : npfloat :=
  match l with
  | [] => NaN
  | _ => Fin (Qsum l / inject_Z (Z.of_nat (length l)))
  end.

Definition np_sub (a b : npfloat) : npfloat :=
  match a, b with
  | Fin x, Fin y => Fin (x - y)
  | _, _ => NaN
  end.

Definition np_add (a b : npfloat) : npfloat :=
  match a, b with
  | Fin x, Fin y => Fin (x + y)
  | _, _ => NaN
  end.

Definition np_abs (a : npfloat) : npfloat :=
  match a with
  | Fin x => Fin (Qabs x)
  | NaN => NaN
  end.

(** [a > c]; every comparison with [nan] is false. *)
Definition np_gt (a : npfloat) (c : Q) : bool :=
  match a with
  | Fin x => Qltb c x
  | NaN => false
  end.

End Py.
Import Py.

Declare Scope m_scope.
Delimit Scope m_scope with M.
Declare Scope py_scope.
Delimit Scope py_scope with py.
Notation "x <- e ;; k" := (rbind e (fun x => k))
  (at level 61, e at next level, right associativity) : py_scope.

(* ================================================================== *)
(** ** hybrid_search.py *)
(* ================================================================== *)

Module HybridSearch.

Definition doc_id := Z.

(** One entry of a ranking: [(doc_id, score)]. *)
Definition ranked := (doc_id * Q)%type.

(** [rrf_scores] *)
Definition scores_dict := dict doc_id Q.

(** [for rank, (doc_id, _) in enumerate(results, rank): ...] *)
Fixpoint add_scores (k rank : Z) (results : list ranked)
    (rrf_scores : scores_dict) : result scores_dict :=
  match results with
  | [] => Ok rrf_scores
  | (doc, _) :: rest =>
      (c <- int_div 1 (k + rank) ;;
       add_scores k (rank + 1) rest
         (dict_set Z.eqb rrf_scores doc
            (dict_get Z.eqb rrf_scores doc 0 + c)))%py
  end.

Definition reciprocal_rank_fusion
    (semantic_results keyword_results : list ranked) (k : Z)
    : result (list (doc_id * Q)) :=
  (rrf_scores <- add_scores k 1 semantic_results [] ;;
   rrf_scores <- add_scores k 1 keyword_results rrf_scores ;;
   Ok (sorted_desc snd rrf_scores))%py.

End HybridSearch.

(* ================================================================== *)
(** ** rl_optimizer.py: data *)
(* ================================================================== *)

Module RL.

(** [datetime.now().isoformat()] *)
Definition time := nat.

Inductive metric : Type := relevance | factuality | completeness.

Definition metric_eqb (a b : metric) : bool :=
  match a, b with
  | relevance, relevance => true
  | factuality, factuality => true
  | completeness, completeness => true
  | _, _ => false
  end.

(** [config['web_search']] *)
Record WebSearch : Type := {
  confidence_threshold : option Q;
  judge_threshold : option Q;
  enabled : option bool
}.

(** [config['confidence_weights']] *)
Record ConfidenceWeights : Type := {
  retrieval_eval : option Q;
  answer_quality : option Q
}.

(** [config['reranking']] *)
Record Reranking : Type := {
  min_score_threshold : Q;
  top_k : Z
}.

(** One entry of [config['performance_history']]. *)
Record PerformanceEntry : Type := {
  timestamp : time;
  total_feedback : nat;
  positive_rate : Q;
  avg_confidence : npfloat;
  web_search_usage : Q
}.

(** The configuration dictionary.  Its top-level keys are always present:
    a loaded file is merged over the defaults. *)
Record Config : Type := {
  version : Z;
  last_updated : time;
  web_search : WebSearch;
  confidence_weights : ConfidenceWeights;
  judge_weights : dict metric Q;
  reranking : Reranking;
  learning_rate : Q;
  min_samples : Z;
  performance_history : list PerformanceEntry
}.

(** A top-level [key: value] pair, as in the argument of [update] and in the
    JSON file. *)
Inductive config_item : Type :=
| version_is (v : Z)
| last_updated_is (t : time)
| web_search_is (w : WebSearch)
| confidence_weights_is (w : ConfidenceWeights)
| judge_weights_is (w : dict metric Q)
| reranking_is (r : Reranking)
| learning_rate_is (q : Q)
| min_samples_is (n : Z)
| performance_history_is (h : list PerformanceEntry).

(** [c[key] = value] *)
Definition set_item (c : Config) (i : config_item) : Config :=
  match i with
  | version_is v =>
      Build_Config v (last_updated c) (web_search c) (confidence_weights c)
        (judge_weights c) (reranking c) (learning_rate c) (min_samples c)
        (performance_history c)
  | last_updated_is t =>
      Build_Config (version c) t (web_search c) (confidence_weights c)
        (judge_weights c) (reranking c) (learning_rate c) (min_samples c)
        (performance_history c)
  | web_search_is w =>
      Build_Config (version c) (last_updated c) w (confidence_weights c)
        (judge_weights c) (reranking c) (learning_rate c) (min_samples c)
        (performance_history c)
  | confidence_weights_is w =>
      Build_Config (version c) (last_updated c) (web_search c) w
        (judge_weights c) (reranking c) (learning_rate c) (min_samples c)
        (performance_history c)
  | judge_weights_is w =>
      Build_Config (version c) (last_updated c) (web_search c)
        (confidence_weights c) w (reranking c) (learning_rate c)
        (min_samples c) (performance_history c)
  | reranking_is r =>
      Build_Config (version c) (last_updated c) (web_search c)
        (confidence_weights c) (judge_weights c) r (learning_rate c)
        (min_samples c) (performance_history c)
  | learning_rate_is q =>
      Build_Config (version c) (last_updated c) (web_search c)
        (confidence_weights c) (judge_weights c) (reranking c) q
        (min_samples c) (performance_history c)
  | min_samples_is n =>
      Build_Config (version c) (last_updated c) (web_search c)
        (confidence_weights c) (judge_weights c) (reranking c)
        (learning_rate c) n (performance_history c)
  | performance_history_is h =>
      Build_Config (version c) (last_updated c) (web_search c)
        (confidence_weights c) (judge_weights c) (reranking c)
        (learning_rate c) (min_samples c) h
  end.

(** [c.update(items)] *)
Definition dict_update (c : Config) (items : list config_item) : Config :=
  fold_left set_item items c.

(** [c.items()], what [json.dump] writes. *)
Definition config_items (c : Config) : list config_item :=
  [ version_is (version c); last_updated_is (last_updated c);
    web_search_is (web_search c);
    confidence_weights_is (confidence_weights c);
    judge_weights_is (judge_weights c); reranking_is (reranking c);
    learning_rate_is (learning_rate c); min_samples_is (min_samples c);
    performance_history_is (performance_history c) ].

(** The file at [config_path]. *)
Inductive file : Type :=
| Unreadable                          (* [json.load] raises *)
| Json (items : list config_item).

(** A feedback entry, with the keys the optimizer reads. *)
Record Feedback : Type := {
  feedback_type : option string;
  web_search_triggered : option bool;
  confidence : option Q;
  judge_scores : option (dict metric Q)
}.

(** An [RLConfig] object and the part of the world it acts on. *)
Record State : Type := {
  default_config : Config;
  config : Config;
  disk : option file;        (* [None]: the file does not exist *)
  writes : nat;              (* completed [json.dump] calls *)
  clock : time
}.

(** The record an analysis returns when it changed a parameter (the
    [reason] and [impact] texts are left out). *)
Inductive adjustment : Type :=
| threshold_adjustment (old_value new_value : Q)
| confidence_weights_adjustment (old_value new_value : ConfidenceWeights)
| judge_weights_adjustment (old_value new_value : dict metric Q)
    (correlations : dict metric npfloat).

Definition parameter (a : adjustment) : string :=
  match a with
  | threshold_adjustment _ _ => "web_search.confidence_threshold"
  | confidence_weights_adjustment _ _ => "confidence_weights"
  | judge_weights_adjustment _ _ _ => "judge_weights"
  end.

(** What [update_from_feedback] returns. *)
Inductive run_result : Type :=
| insufficient_data (needed : Z) (current_samples : nat)
| adjustments (at_time : time) (changes : list adjustment).

Inductive trend_label : Type := improving | stable | declining.

(** What [get_performance_trend] returns. *)
Inductive trend_result : Type :=
| trend_insufficient_data
| trend_success (recent_positive_rate older_positive_rate : npfloat)
    (improvement : npfloat) (trend : trend_label) (total_data_points : nat).

(* ---------------------------------------------------------------- *)
(** *** The monad of methods *)

Definition M (A : Type) : Type := State -> result A * State.

Definition ret {A} (a : A) : M A := fun st => (Ok a, st).

Definition bind {A B} (m : M A) (k : A -> M B) : M B :=
  fun st =>
    match m st with
    | (Ok a, st') => k a st'
    | (Raise e, st') => (Raise e, st')
    end.

Definition lift {A} (r : result A) : M A := fun st => (r, st).

Definition gets {A} (f : State -> A) : M A := fun st => (Ok (f st), st).

Definition modify (f : State -> State) : M unit :=
  fun st => (Ok tt, f st).

Notation "x <- e ;; k" := (bind e (fun x => k))
  (at level 61, e at next level, right associativity) : m_scope.
Notation "e ;; k" := (bind e (fun _ => k))
  (at level 61, right associativity) : m_scope.

(** [o.get(key, default)] on an optional key. *)
Definition get_or {A} (o : option A) (default : A) : A :=
  match o with
  | Some a => a
  | None => default
  end.

Definition set_default_config (c : Config) (st : State) : State :=
  Build_State c (config st) (disk st) (writes st) (clock st).

Definition set_config (c : Config) (st : State) : State :=
  Build_State (default_config st) c (disk st) (writes st) (clock st).

(** [datetime.now()]: reads the clock, which moves on. *)
Definition datetime_now : M time :=
  fun st =>
    (Ok (clock st),
     Build_State (default_config st) (config st) (disk st) (writes st)
       (S (clock st))).

(** [with open(self.config_path, 'w') as f: json.dump(c, f)] *)
Definition json_dump (c : Config) : M unit :=
  modify (fun st =>
    Build_State (default_config st) (config st)
      (Some (Json (config_items c))) (S (writes st)) (clock st)).

(* ---------------------------------------------------------------- *)
(** *** class RLConfig *)

Definition default_config_at (now : time) : Config :=
  {| version := 1;
     last_updated := now;
     web_search :=
       {| confidence_threshold := Some 0.7;
          judge_threshold := Some 5;
          enabled := Some true |};
     confidence_weights :=
       {| retrieval_eval := Some 0.5; answer_quality := Some 0.5 |};
     judge_weights :=
       [(relevance, 0.4); (factuality, 0.4); (completeness, 0.2)];
     reranking := {| min_score_threshold := -12; top_k := 5 |};
     learning_rate := 0.1;
     min_samples := 5;
     performance_history := [] |}.

(** [_save_config(config)] mutates the dictionary it is given: the result
    is that same dictionary after the call, and the caller stores it back
    where the argument came from. *)
Definition _save_config (c : Config) : M Config :=
  (now <- datetime_now ;;
   let c := set_item c (last_updated_is now) in
   let c := set_item c (version_is (version c + 1)) in
   json_dump c ;;
   ret c)%M.

Definition _load_config : M Config :=
  (d <- gets disk ;;
   match d with
   | Some (Json loaded_config) =>
       dflt <- gets default_config ;;
       ret (dict_update dflt loaded_config)
   | Some Unreadable =>
       gets default_config
   | None =>
       dflt <- gets default_config ;;
       dflt <- _save_config dflt ;;
       modify (set_default_config dflt) ;;
       gets default_config
   end)%M.

(** [RLConfig.__init__].  The attribute [config] is assigned last but for
    the closing [print], which reads
    [self.config['web_search']['confidence_threshold']]: that raises when
    the file held a [web_search] without the key, after the object's state
    is complete. *)
Definition RLConfig_init : M unit :=
  (now <- datetime_now ;;
   modify (set_default_config (default_config_at now)) ;;
   c <- _load_config ;;
   modify (set_config c) ;;
   c <- gets config ;;
   match confidence_threshold (web_search c) with
   | Some _ => ret tt
   | None => lift (Raise (KeyError "confidence_threshold"))
   end)%M.

(** The world before the object is built: the file, if any, and the time.
    The two dictionaries are not assigned yet. *)
Definition before_init (d : option file) (now : time) : State :=
  {| default_config := default_config_at now;
     config := default_config_at now;
     disk := d;
     writes := 0;
     clock := now |}.

(** The object [RLConfig(config_path)] returns. *)
Definition started (d : option file) (now : time) : State :=
  snd (RLConfig_init (before_init d now)).

(** [RLConfig.update(updates)] *)
Definition update (updates : list config_item) : M unit :=
  (c <- gets config ;;
   modify (set_config (dict_update c updates)) ;;
   c <- gets config ;;
   c <- _save_config c ;;
   modify (set_config c))%M.

(* ---------------------------------------------------------------- *)
(** *** class RLOptimizer: the read-only methods *)

Definition should_trigger_web_search (st : State)
    (confidence judge_score : Q) : bool :=
  let conf_threshold :=
    get_or (confidence_threshold (web_search (config st))) 0.7 in
  let judge_threshold :=
    get_or (judge_threshold (web_search (config st))) 5 in
  Qltb confidence conf_threshold || Qltb judge_score judge_threshold.

Definition calculate_weighted_confidence (st : State)
    (retrieval_score answer_score : Q) : Q :=
  let weights := confidence_weights (config st) in
  let w_retrieval := get_or (retrieval_eval weights) 0.5 in
  let w_answer := get_or (answer_quality weights) 0.5 in
  let retrieval_norm := retrieval_score / 10 in
  let answer_norm := answer_score / 10 in
  let confidence := (w_retrieval * retrieval_norm) + (w_answer * answer_norm) in
  max2 0 (min2 1 confidence).

Definition calculate_weighted_judge_score (st : State)
    (judge_scores : dict metric Q) : Q :=
  let weights := judge_weights (config st) in
  let weighted_score :=
    dict_get metric_eqb weights relevance 0.4
      * dict_get metric_eqb judge_scores relevance 5
    + dict_get metric_eqb weights factuality 0.4
      * dict_get metric_eqb judge_scores factuality 5
    + dict_get metric_eqb weights completeness 0.2
      * dict_get metric_eqb judge_scores completeness 5 in
  max2 0 (min2 10 weighted_score).

Definition get_performance_trend (st : State) : trend_result :=
  let history := performance_history (config st) in
  let n := Z.of_nat (length history) in
  if (n <? 2)%Z then trend_insufficient_data
  else
    let recent :=
      if (5 <=? n)%Z then slice_from (-5) history
      else slice_from ((- n) / 2) history in
    let older :=
      if (10 <=? n)%Z then slice_to 5 history
      else slice_to (n / 2) history in
    let recent_positive_rate := np_mean (map positive_rate recent) in
    let older_positive_rate := np_mean (map positive_rate older) in
    let improvement := np_sub recent_positive_rate older_positive_rate in
    trend_success recent_positive_rate older_positive_rate improvement
      (if np_gt improvement 0.02 then improving
       else if np_gt improvement (-0.02) then stable
       else declining)
      (length history).

(* ---------------------------------------------------------------- *)
(** *** class RLOptimizer: learning from feedback *)

(** Truth value of [f.get('web_search_triggered')]. *)
Definition truthy (b : option bool) : bool :=
  match b with
  | Some true => true
  | _ => false
  end.

(** [f['feedback_type']] *)
Definition item_feedback_type (f : Feedback) : result string :=
  match feedback_type f with
  | Some t => Ok t
  | None => Raise (KeyError "feedback_type")
  end.

(** [sum(1 for f in l if f['feedback_type'] == 'positive')] *)
Fixpoint count_positive (l : list Feedback) : result Z :=
  match l with
  | [] => Ok 0%Z
  | f :: l' =>
      (t <- item_feedback_type f ;;
       n <- count_positive l' ;;
       Ok ((if String.eqb t "positive" then 1 else 0) + n)%Z)%py
  end.

Definition len {A} (l : list A) : Z := Z.of_nat (length l).

Definition with_confidence_threshold (w : WebSearch) (t : Q) : WebSearch :=
  {| confidence_threshold := Some t;
     judge_threshold := judge_threshold w;
     enabled := enabled w |}.

Definition _analyze_web_search_performance (feedback_data : list Feedback)
    : M (option adjustment) :=
  let web_feedback :=
    filter (fun f => truthy (web_search_triggered f)) feedback_data in
  let internal_feedback :=
    filter (fun f => negb (truthy (web_search_triggered f))) feedback_data in
  if ((len web_feedback <? 3) || (len internal_feedback <? 3))%Z then
    ret None
  else
    (web_positive <- lift (count_positive web_feedback) ;;
     web_positive_rate <- lift (int_div web_positive (len web_feedback)) ;;
     internal_positive <- lift (count_positive internal_feedback) ;;
     internal_positive_rate <-
       lift (int_div internal_positive (len internal_feedback)) ;;
     c <- gets config ;;
     let current_threshold :=
       get_or (confidence_threshold (web_search c)) 0.7 in
     let learning_rate := learning_rate c in
     if Qltb (internal_positive_rate + 0.15) web_positive_rate then
       let delta :=
         (web_positive_rate - internal_positive_rate) * learning_rate in
       let new_threshold := max2 0.5 (current_threshold - delta) in
       update
         [web_search_is
            (with_confidence_threshold (web_search c) new_threshold)] ;;
       ret (Some (threshold_adjustment current_threshold new_threshold))
     else if Qltb (web_positive_rate + 0.15) internal_positive_rate then
       let delta :=
         (internal_positive_rate - web_positive_rate) * learning_rate in
       let new_threshold := min2 0.9 (current_threshold + delta) in
       update
         [web_search_is
            (with_confidence_threshold (web_search c) new_threshold)] ;;
       ret (Some (threshold_adjustment current_threshold new_threshold))
     else ret None)%M.

Definition _analyze_confidence_calibration (feedback_data : list Feedback)
    : M (option adjustment) :=
  let high :=
    filter (fun f => Qle_bool 0.7 (get_or (confidence f) 0)) feedback_data in
  if (3 <=? len high)%Z then
    (high_positive <- lift (count_positive high) ;;
     high_conf_positive_rate <- lift (int_div high_positive (len high)) ;;
     if Qltb high_conf_positive_rate 0.6 then
       c <- gets config ;;
       let current_weights := confidence_weights c in
       let learning_rate := learning_rate c in
       let new_weights :=
         {| retrieval_eval :=
              Some (max2 0.3
                      (get_or (retrieval_eval current_weights) 0.5
                       - learning_rate));
            answer_quality :=
              Some (min2 0.7
                      (get_or (answer_quality current_weights) 0.5
                       + learning_rate)) |} in
       update [confidence_weights_is new_weights] ;;
       ret (Some (confidence_weights_adjustment current_weights new_weights))
     else ret None)%M
  else ret None.

Definition metrics : list metric := [relevance; factuality; completeness].

(** The inner loop of the correlation analysis for one metric: the lists
    [scores] and [feedback_values], kept as one list of pairs. *)
Fixpoint metric_samples (m : metric) (feedback_data : list Feedback)
    : result (list (Q * bool)) :=
  match feedback_data with
  | [] => Ok []
  | f :: rest =>
      let judge_scores := get_or (judge_scores f) [] in
      match dict_find metric_eqb judge_scores m with
      | Some score =>
          (t <- item_feedback_type f ;;
           samples <- metric_samples m rest ;;
           Ok ((score, String.eqb t "positive") :: samples))%py
      | None => metric_samples m rest
      end
  end.

(** The outer loop: fills [correlations]. *)
Fixpoint correlate (ms : list metric) (feedback_data : list Feedback)
    (correlations : dict metric npfloat) : result (dict metric npfloat) :=
  match ms with
  | [] => Ok correlations
  | m :: rest =>
      (samples <- metric_samples m feedback_data ;;
       if (10 <=? len samples)%Z then
         let positive_avg :=
           np_mean (map fst (filter snd samples)) in
         let negative_avg :=
           np_mean (map fst (filter (fun s => negb (snd s)) samples)) in
         correlate rest feedback_data
           (dict_set metric_eqb correlations m
              (np_sub positive_avg negative_avg))
       else correlate rest feedback_data correlations)%py
  end.

(** The value of a numpy scalar known to be finite. *)
Definition finite (a : npfloat) : Q :=
  match a with
  | Fin q => q
  | NaN => 0
  end.

(** [sum(abs(v) for v in correlations.values())] *)
Definition total_correlation (correlations : dict metric npfloat) : npfloat :=
  fold_left np_add (map (fun kv => np_abs (snd kv)) correlations) (Fin 0).

(** [{k: abs(v) / total_corr for k, v in correlations.items()}], reached
    only when [total_corr > 0], where every correlation is finite. *)
Definition target_weights_of (correlations : dict metric npfloat)
    (total_corr : Q) : dict metric Q :=
  map (fun kv => (fst kv, Qabs (finite (snd kv)) / total_corr)) correlations.

(** The blend of the current and the target weights, before it is
    normalised. *)
Definition blend (current_weights target_weights : dict metric Q)
    (learning_rate : Q) : dict metric Q :=
  map (fun m =>
         let current := dict_get metric_eqb current_weights m (1 / 3) in
         let target := dict_get metric_eqb target_weights m (1 / 3) in
         (m, current * (1 - learning_rate) + target * learning_rate))
      metrics.

(** [{k: v / total for k, v in new_weights.items()}].  The operands are
    numpy scalars: a zero [total] gives [inf] or [nan], not an exception. *)
Definition normalise (new_weights : dict metric Q) (total : Q)
    : result (dict metric Q) :=
  if Qeq_bool total 0 then Raise NonFinite
  else Ok (map (fun kv => (fst kv, snd kv / total)) new_weights).

(** [max(g)] for a generator [g] that yields [x] and then [l]. *)
Definition max_of (x : Q) (l : list Q) : Q := fold_left max2 l x.

(** [max(abs(new_weights[k] - current_weights.get(k, 0))
         for k in new_weights)] *)
Definition max_change_of (new_weights current_weights : dict metric Q) : Q :=
  match map (fun kv =>
               Qabs (snd kv - dict_get metric_eqb current_weights (fst kv) 0))
            new_weights with
  | [] => 0
  | x :: l => max_of x l
  end.

Definition _analyze_judge_correlation (feedback_data : list Feedback)
    : M (option adjustment) :=
  if (len feedback_data <? 10)%Z then ret None
  else
    (correlations <- lift (correlate metrics feedback_data []) ;;
     match correlations with
     | [] => ret None
     | _ =>
         c <- gets config ;;
         let current_weights := judge_weights c in
         let learning_rate := learning_rate c * 0.5 in
         match total_correlation correlations with
         | NaN => ret None
         | Fin total_corr =>
             if Qltb 0 total_corr then
               let target_weights :=
                 target_weights_of correlations total_corr in
               let new_weights :=
                 blend current_weights target_weights learning_rate in
               let total := Qsum (map snd new_weights) in
               new_weights <- lift (normalise new_weights total) ;;
               let max_change :=
                 max_change_of new_weights current_weights in
               if Qltb 0.05 max_change then
                 update [judge_weights_is new_weights] ;;
                 ret (Some (judge_weights_adjustment current_weights
                              new_weights correlations))
               else ret None
             else ret None
         end
     end)%M.

Definition web_search_count (l : list Feedback) : Z :=
  len (filter (fun f => truthy (web_search_triggered f)) l).

(** [history.append(entry)] on the list that the configuration holds. *)
Definition append_history (entry : PerformanceEntry) : M unit :=
  modify (fun st =>
    set_config
      (set_item (config st)
         (performance_history_is
            (performance_history (config st) ++ [entry]))) st).

Definition _record_performance (feedback_data : list Feedback) : M unit :=
  match feedback_data with
  | [] => ret tt
  | _ =>
      (positive <- lift (count_positive feedback_data) ;;
       positive_rate <- lift (int_div positive (len feedback_data)) ;;
       now <- datetime_now ;;
       web_search_usage <-
         lift (int_div (web_search_count feedback_data)
                 (len feedback_data)) ;;
       let performance_entry :=
         {| timestamp := now;
            total_feedback := length feedback_data;
            positive_rate := positive_rate;
            avg_confidence :=
              np_mean (map (fun f => get_or (confidence f) 0) feedback_data);
            web_search_usage := web_search_usage |} in
       append_history performance_entry ;;
       history <- gets (fun st => performance_history (config st)) ;;
       let history :=
         if (50 <? len history)%Z then slice_from (-50) history
         else history in
       update [performance_history_is history])%M
  end.

Definition as_change (a : option adjustment) : list adjustment :=
  match a with
  | Some a => [a]
  | None => []
  end.

Definition update_from_feedback (feedback_data : list Feedback)
    : M run_result :=
  (min_samples <- gets (fun st => min_samples (config st)) ;;
   if (len feedback_data <? min_samples)%Z then
     ret (insufficient_data min_samples (length feedback_data))
   else
     now <- datetime_now ;;
     web_adjustment <- _analyze_web_search_performance feedback_data ;;
     let changes := as_change web_adjustment in
     confidence_adjustment <-
       _analyze_confidence_calibration feedback_data ;;
     let changes := changes ++ as_change confidence_adjustment in
     judge_adjustment <- _analyze_judge_correlation feedback_data ;;
     let changes := changes ++ as_change judge_adjustment in
     _record_performance feedback_data ;;
     ret (adjustments now changes))%M.

(** The state after a series of runs, one per batch; a run that raises
    leaves the state as it was when the exception left the optimizer. *)
Definition run_all (batches : list (list Feedback)) (st : State) : State :=
  fold_left (fun st batch => snd (update_from_feedback batch st)) batches st.

End RL.

(* ================================================================== *)
(** ** Notions the statements use *)
(* ================================================================== *)

Module Spec.
Import HybridSearch RL.

(** What one ranking contributes to document [d]: [1/(k+r)] for each rank
    [r] (counted from [rank]) at which [d] stands. *)
Fixpoint rank_sum (k rank : Z) (results : list ranked) (d : doc_id) : Q :=
  match results with
  | [] => 0
  | (doc, _) :: rest =>
      (if (doc =? d)%Z then 1 / inject_Z (k + rank) else 0)
      + rank_sum k (rank + 1) rest d
  end.

(** The fused total of [d]. *)
Definition rrf_total (k : Z) (listA listB : list ranked) (d : doc_id) : Q :=
  rank_sum k 1 listA d + rank_sum k 1 listB d.

(** The documents of a scan, each at its first occurrence. *)
Fixpoint first_seen (ids : list doc_id) : list doc_id :=
  match ids with
  | [] => []
  | d :: rest => d :: filter (fun x => negb (x =? d)%Z) (first_seen rest)
  end.

(** Both lists in scanning order: list A fully, then list B. *)
Definition scan (listA listB : list ranked) : list doc_id :=
  map fst (listA ++ listB).

Definition descending (out : list (doc_id * Q)) : Prop :=
  StronglySorted (fun x y => snd y <= snd x) out.

(** The input of the fusion example: documents 1,2,3 in list A and 3,1,4 in
    list B, whatever their raw scores. *)
Definition example_A (s1 s2 s3 : Q) : list ranked :=
  [(1%Z, s1); (2%Z, s2); (3%Z, s3)].
Definition example_B (s1 s2 s3 : Q) : list ranked :=
  [(3%Z, s1); (1%Z, s2); (4%Z, s3)].

(** The fusion returns the documents [ids] with scores equal to [scores]. *)
Definition fuses_to (r : result (list (doc_id * Q)))
    (ids : list doc_id) (scores : list Q) : Prop :=
  exists out, r = Ok out /\ map fst out = ids /\ Forall2 Qeq (map snd out) scores.


Definition mem (d : doc_id) (ids : list doc_id) : bool :=
  existsb (Z.eqb d) ids.

(* ---------------------------------------------------------------- *)
(** *** The optimizer *)

(** The threshold the service reads:
    [config.get('web_search.confidence_threshold', 0.7)]. *)
Definition threshold (st : State) : Q :=
  get_or (confidence_threshold (web_search (config st))) 0.7.

(** What [_save_config] leaves in the dictionary it is given at time
    [now]. *)
Definition saved (c : Config) (now : time) : Config :=
  set_item (set_item c (last_updated_is now)) (version_is (version c + 1)).

(** The last [n] items of a list. *)
Definition last_n {A} (n : nat) (l : list A) : list A :=
  skipn (length l - n) l.

Definition is_positive (f : Feedback) : bool :=
  match feedback_type f with
  | Some t => String.eqb t "positive"
  | None => false
  end.

Definition has_feedback_type (f : Feedback) : bool :=
  match feedback_type f with
  | Some _ => true
  | None => false
  end.

Definition used_web (f : Feedback) : bool :=
  truthy (web_search_triggered f).

(** The fraction of the entries of [l] that satisfy [p]. *)
Definition fraction (p : Feedback -> bool) (l : list Feedback) : Q :=
  inject_Z (len (filter p l)) / inject_Z (len l).

Definition web_part (batch : list Feedback) : list Feedback :=
  filter used_web batch.
Definition internal_part (batch : list Feedback) : list Feedback :=
  filter (fun f => negb (used_web f)) batch.

Definition web_rate (batch : list Feedback) : Q :=
  fraction is_positive (web_part batch).
Definition internal_rate (batch : list Feedback) : Q :=
  fraction is_positive (internal_part batch).

(** The web-search analysis gets to compare the two rates: the batch
    qualifies, both partitions have three entries, and every entry has its
    [feedback_type]. *)
Definition web_analysis_compares (min_samples : Z) (batch : list Feedback)
    : bool :=
  ((min_samples <=? len batch) && (3 <=? len (web_part batch))
   && (3 <=? len (internal_part batch)))%Z
  && forallb has_feedback_type batch.

(** The threshold rule of the web-search analysis. *)
Definition threshold_rule (current learning_rate web internal : Q) : Q :=
  if Qltb (internal + 0.15) web then
    max2 0.5 (current - (web - internal) * learning_rate)
  else if Qltb (web + 0.15) internal then
    min2 0.9 (current + (internal - web) * learning_rate)
  else current.

(** How many times an analysis with outcome [r] persisted the
    configuration. *)
Definition applied (r : result (option adjustment)) : nat :=
  match r with
  | Ok (Some _) => 1
  | _ => 0
  end.

(** The snapshot of a batch taken at time [now]. *)
Definition snapshot_of (batch : list Feedback) (now : time)
    : PerformanceEntry :=
  {| timestamp := now;
     total_feedback := length batch;
     positive_rate := fraction is_positive batch;
     avg_confidence :=
       np_mean (map (fun f => get_or (confidence f) 0) batch);
     web_search_usage := fraction used_web batch |}.

(** The trend as the specification words it: [recent] is the last
    [min(5, n/2)] snapshots, [older] the first window of the same size;
    [improving] above 0.02, [declining] below -0.02, [stable] otherwise. *)
Definition claimed_windows (history : list PerformanceEntry)
    : list PerformanceEntry * list PerformanceEntry :=
  let count := Nat.min 5 (length history / 2) in
  (last_n count history, firstn count history).

Definition claimed_label (improvement : Q) : trend_label :=
  if Qltb 0.02 improvement then improving
  else if Qltb improvement (-0.02) then declining
  else stable.

Definition claimed_trend (history : list PerformanceEntry) : trend_result :=
  let (recent, older) := claimed_windows history in
  let recent_rate := np_mean (map positive_rate recent) in
  let older_rate := np_mean (map positive_rate older) in
  let improvement := np_sub recent_rate older_rate in
  trend_success recent_rate older_rate improvement
    (claimed_label (finite improvement)) (length history).

(** The windows the code takes. *)
Definition recent_count (n : nat) : nat :=
  if (5 <=? n)%nat then 5%nat else (n - n / 2)%nat.
Definition older_count (n : nat) : nat :=
  if (10 <=? n)%nat then 5%nat else (n / 2)%nat.

(** The label the code gives. *)
Definition label_of (improvement : Q) : trend_label :=
  if Qltb 0.02 improvement then improving
  else if Qltb (-0.02) improvement then stable
  else declining.

Definition mean (l : list Q) : Q :=
  Qsum l / inject_Z (Z.of_nat (length l)).

(** A state holding the history [h]. *)
Definition with_history (st : State) (h : list PerformanceEntry) : State :=
  set_config (set_item (config st) (performance_history_is h)) st.

(** Snapshots with the given positive rates. *)
Definition snapshots (rates : list Q) : list PerformanceEntry :=
  map (fun r =>
         {| timestamp := 0%nat; total_feedback := 5%nat; positive_rate := r;
            avg_confidence := Fin 0.5; web_search_usage := 0.5 |})
      rates.

(** Feedback entries for the examples. *)
Definition scores_of (r f c : Q) : option (dict metric Q) :=
  Some [(relevance, r); (factuality, f); (completeness, c)].

Definition entry (t : string) (web : bool) (conf : Q)
    (scores : option (dict metric Q)) : Feedback :=
  {| feedback_type := Some t;
     web_search_triggered := Some web;
     confidence := Some conf;
     judge_scores := scores |}.

(** The batch of [test_rl_optimizer]. *)
Definition test_batch : list Feedback :=
  [ entry "positive" true 0.5 (scores_of 9 9 8);
    entry "positive" true 0.6 (scores_of 8 9 7);
    entry "positive" true 0.55 (scores_of 9 8 8);
    entry "positive" true 0.6 (scores_of 8 9 9);
    entry "negative" false 0.8 (scores_of 5 4 5);
    entry "negative" false 0.75 (scores_of 6 5 4);
    entry "positive" false 0.85 (scores_of 7 7 6);
    entry "negative" false 0.8 (scores_of 5 6 5) ].

(** A batch one of whose web entries has no [feedback_type]. *)
Definition untyped_entry : Feedback :=
  {| feedback_type := None;
     web_search_triggered := Some true;
     confidence := Some 0.1;
     judge_scores := None |}.

Definition broken_batch : list Feedback :=
  [ untyped_entry;
    entry "positive" true 0.5 None;
    entry "positive" true 0.6 None;
    entry "negative" false 0.8 None;
    entry "negative" false 0.75 None;
    entry "negative" false 0.8 None ].

(** The label of a trend result, if it has one. *)
Definition trend_of (r : trend_result) : option trend_label :=
  match r with
  | trend_insufficient_data => None
  | trend_success _ _ _ t _ => Some t
  end.


(** The computation [m] leaves the part [f] of the configuration as it
    was, whatever its outcome. *)
Definition keeps {B A} (f : Config -> B) (m : M A) : Prop :=
  forall st, f (config (snd (m st))) = f (config st).

(** The state after reading the clock once. *)
Definition tick (st : State) : State := snd (datetime_now st).

(** Entries with judge scores that separate positive from negative feedback
    on relevance only, and a configuration file that sets a large learning
    rate. *)
Definition judged_batch : list Feedback :=
  repeat (entry "positive" false 0.5 (scores_of 9 5 5)) 5
  ++ repeat (entry "negative" false 0.5 (scores_of 1 5 5)) 5.

Definition eager_file : file := Json [learning_rate_is 0.9].

(** What every state reached from the defaults satisfies. *)
Definition settled (st : State) : Prop :=
  0.5 <= threshold st <= 0.9
  /\ learning_rate (config st) = 0.1
  /\ min_samples (config st) = 5%Z.

(** The keys the analyses write. *)
Definition is_parameter (i : config_item) : bool :=
  match i with
  | web_search_is _ | confidence_weights_is _ | judge_weights_is _ => true
  | _ => false
  end.

(** An analysis with outcome [r] that took [st] to [st'] either left the
    state alone and returned no adjustment, or called [update] once and
    returned its adjustment. *)
Definition one_update_or_none (r : result (option adjustment))
    (st st' : State) : Prop :=
  (applied r = 0%nat /\ st' = st)
  \/ (applied r = 1%nat
      /\ exists item,
           is_parameter item = true /\ st' = snd (update [item] st)).

(** Judge weights with all three metrics present and positive. *)
Definition weights_positive (w : dict metric Q) : Prop :=
  forall m, exists v, dict_find metric_eqb w m = Some v /\ 0 < v.

(** The computation [m] maintains the property [P] of the configuration,
    whatever its outcome. *)
Definition preserves {A} (P : Config -> Prop) (m : M A) : Prop :=
  forall st, P (config st) -> P (config (snd (m st))).

(** The only exception of a step is the [KeyError] of an entry without
    [feedback_type]. *)
Definition raises_only_key_error {A} (r : result A) : Prop :=
  forall e, r = Raise e -> e = KeyError "feedback_type".

(** The judge weights are positive and the learning rate is the default. *)
Definition weights_sound (c : Config) : Prop :=
  weights_positive (judge_weights c) /\ learning_rate c = 0.1.

End Spec.

(* ================================================================== *)
(** ** Further notions: the configuration store and the optimizer *)
(* ================================================================== *)

Module More.
Import HybridSearch RL Spec.

(** The file holds exactly the configuration in memory. *)
Definition synced (st : State) : Prop :=
  disk st = Some (Json (config_items (config st))).

(** The computation [m] maintains the property [P] of the state, whatever
    its outcome. *)
Definition maintains {A} (P : State -> Prop) (m : M A) : Prop :=
  forall st, P st -> P (snd (m st)).

(** What holds of the store after a first start and any series of runs:
    the file is in step with the memory, every write added 1 to the version
    that started at 1, and at most 50 snapshots are kept. *)
Definition store_sound (st : State) : Prop :=
  synced st
  /\ version (config st) = (1 + Z.of_nat (writes st))%Z
  /\ (length (performance_history (config st)) <= 50)%nat.

(** The judge weights of the default configuration. *)
Definition default_judge_weights : dict metric Q :=
  [(relevance, 0.4); (factuality, 0.4); (completeness, 0.2)].

(** The confidence weights one calibration step makes of [w]. *)
Definition calibrated (w : ConfidenceWeights) (rate : Q) : ConfidenceWeights :=
  {| retrieval_eval := Some (max2 0.3 (get_or (retrieval_eval w) 0.5 - rate));
     answer_quality := Some (min2 0.7 (get_or (answer_quality w) 0.5 + rate)) |}.

(** Confidence weights that sum to 1, the retrieval weight in [0.3, 0.5]. *)
Definition balanced (w : ConfidenceWeights) : Prop :=
  exists r a,
    w = {| retrieval_eval := Some r; answer_quality := Some a |}
    /\ r + a == 1 /\ 0.3 <= r <= 0.5.

(** What the runs keep of the default configuration. *)
Definition tuned (st : State) : Prop :=
  judge_threshold (web_search (config st)) = Some 5
  /\ judge_weights (config st) = default_judge_weights
  /\ learning_rate (config st) = 0.1
  /\ balanced (confidence_weights (config st)).

(** The states the optimizer reaches from a first start. *)
Definition reached (now : time) (batches : list (list Feedback)) : State :=
  run_all batches (started None now).

(** The score of metric [m] as the judge-score calculation reads it. *)
Definition score_of (judge_scores : dict metric Q) (m : metric) : Q :=
  dict_get metric_eqb judge_scores m 5.

(** Scores for the examples. *)
Definition even_scores : dict metric Q :=
  [(relevance, 8); (factuality, 6); (completeness, 7)].

(** The two windows the trend query compares. *)
Definition recent_window_of (history : list PerformanceEntry)
    : list PerformanceEntry :=
  last_n (recent_count (length history)) history.
Definition older_window_of (history : list PerformanceEntry)
    : list PerformanceEntry :=
  firstn (older_count (length history)) history.

(** Every snapshot of [window] has its positive rate within [lo, hi]. *)
Definition rates_within (lo hi : Q) (window : list PerformanceEntry) : Prop :=
  Forall (fun e => lo <= positive_rate e <= hi) window.

End More.

(* ================================================================== *)
(** ** Numbers up to rounding *)
(* ================================================================== *)

(** The running code computes on binary64 floats, each operation rounded to
    nearest; the model computes on the rationals.  A statement that relates
    a number the code returns to the exact value of a formula therefore
    allows for the rounding of the operations in between, and a statement
    about a comparison is made of the numbers that are compared. *)

Module Rounding.
Import HybridSearch RL Spec More.

(** The allowance for numbers of magnitude around 1: far above what the
    rounding of a handful of binary64 operations adds up to, far below any
    constant of the code. *)
Definition rounding : Q := 1 # 1000000000.

(** [computed] is [exact], up to [scale] times the allowance. *)
Definition about_scaled (scale exact computed : Q) : Prop :=
  Qabs (computed - exact) <= scale * rounding.

Definition about (exact computed : Q) : Prop :=
  about_scaled 1 exact computed.

(** The number of entries the fusion scans. *)
Definition scanned (listA listB : list ranked) : Q :=
  inject_Z (Z.of_nat (length listA + length listB)).

(** [ids] lists members of [reference] in the order [reference] has
    them. *)
Definition in_order_of (ids reference : list doc_id) : Prop :=
  ids = filter (fun d => mem d ids) reference.

(** The documents of [out] whose score is [v]. *)
Definition scoring (v : Q) (out : list (doc_id * Q)) : list doc_id :=
  map fst (filter (fun p => Qeq_bool (snd p) v) out).

(** [out] is a fusion of the two rankings: it holds the documents of the
    two lists, each once, with its rank sum up to rounding (a sum of as many
    terms as the document has occurrences), in descending order of the
    scores it holds, documents with the same score in first-seen order. *)
Definition fusion_of (k : Z) (listA listB : list ranked)
    (out : list (doc_id * Q)) : Prop :=
  Permutation (map fst out) (first_seen (scan listA listB))
  /\ (forall d s,
        In (d, s) out ->
        about_scaled (scanned listA listB) (rrf_total k listA listB d) s)
  /\ descending out
  /\ (forall v, in_order_of (scoring v out) (first_seen (scan listA listB))).

(* ---------------------------------------------------------------- *)
(** *** The judge-weight analysis *)

(** The entry carries a score for metric [m]; that score. *)
Definition scored_for (m : metric) (f : Feedback) : bool :=
  match dict_find metric_eqb (get_or (judge_scores f) []) m with
  | Some _ => true
  | None => false
  end.

Definition score_for (m : metric) (f : Feedback) : Q :=
  dict_get metric_eqb (get_or (judge_scores f) []) m 0.

(** The scores for [m] of the entries with positive feedback, and of the
    others. *)
Definition positive_scores (m : metric) (batch : list Feedback) : list Q :=
  map (score_for m)
    (filter (fun f => scored_for m f && is_positive f) batch).

Definition other_scores (m : metric) (batch : list Feedback) : list Q :=
  map (score_for m)
    (filter (fun f => scored_for m f && negb (is_positive f)) batch).

(** The positive-vs-negative mean difference for [m]. *)
Definition difference (m : metric) (batch : list Feedback) : Q :=
  mean (positive_scores m batch) - mean (other_scores m batch).

(** At least 10 entries of the batch carry a score for [m]. *)
Definition measured (m : metric) (batch : list Feedback) : bool :=
  (10 <=? len (filter (scored_for m) batch))%Z.

(** Every judge score of the batch lies within [lo, hi]. *)
Definition scores_within (lo hi : Q) (batch : list Feedback) : Prop :=
  forall f m s,
    In f batch ->
    dict_find metric_eqb (get_or (judge_scores f) []) m = Some s ->
    lo <= s <= hi.

End Rounding.

(* ================================================================== *)
(** ** The judge-weight arithmetic on binary64 *)
(* ================================================================== *)

(** The arithmetic of [_analyze_judge_correlation] as the interpreter runs
    it: Python floats and numpy scalars are IEEE 754 binary64 numbers, whose
    operations round to nearest.  The configuration is reduced to what the
    arithmetic reads of it, the current weights and the learning rate; the
    outcome is the dictionary of new weights when the update is applied. *)

Module Binary64.
Import Floats.
#[local] Open Scope float_scope.
#[local] Set Warnings "-inexact-float".

(** A feedback entry, with the keys the analysis reads. *)
Record Feedback : Type := {
  feedback_type : option string;
  judge_scores : option (dict RL.metric float)
}.

(** [float(n)] for a length. *)
Definition of_nat (n : nat) : float := of_uint63 (Uint63.of_Z (Z.of_nat n)).

(** The sum of a block of at most 128 items in numpy's pairwise summation:
    eight running sums over the items taken eight at a time, added up in
    pairs, then the remaining items one by one. *)
Fixpoint add_rows (r : list float) (rows : list float) (count : nat)
    : list float :=
  match count with
  | O => r
  | S count' =>
      add_rows (map (fun p => fst p + snd p) (combine r (firstn 8 rows)))
        (skipn 8 rows) count'
  end.

Definition block_sum (a : list float) : float :=
  let n := List.length a in
  let full := (n - n mod 8)%nat in
  let r := add_rows (firstn 8 a) (skipn 8 (firstn full a)) (full / 8 - 1) in
  let r i := nth i r 0 in
  let res :=
    ((r 0%nat + r 1%nat) + (r 2%nat + r 3%nat))
    + ((r 4%nat + r 5%nat) + (r 6%nat + r 7%nat)) in
  fold_left add (skipn full a) res.

(** numpy's pairwise summation of [a].  [fuel] bounds the halvings. *)
Fixpoint pairwise_sum (fuel : nat) (a : list float) : float :=
  let n := List.length a in
  if (n <? 8)%nat then fold_left add a 0
  else if (n <=? 128)%nat then block_sum a
  else
    match fuel with
    | O => block_sum a
    | S fuel' =>
        let n2 := (n / 2)%nat in
        let n2 := (n2 - n2 mod 8)%nat in
        pairwise_sum fuel' (firstn n2 a) + pairwise_sum fuel' (skipn n2 a)
    end.

(** [np.mean(a)]: the sum, from 0, over the length; [nan] on the empty
    list.  (The sign of a zero sum is not followed.) *)
Definition np_mean (a : list float) : float :=
  (0 + pairwise_sum (List.length a) a) / of_nat (List.length a).

(** The built-in [sum] of a list of floats. *)
Definition py_sum (l : list float) : float := fold_left add l 0.

(** The built-in [max] of [x] and then [l]: a later item replaces the
    largest so far only if it is greater. *)
Definition py_max (x : float) (l : list float) : float :=
  fold_left (fun best y => if ltb best y then y else best) l x.

Definition item_feedback_type (f : Feedback) : result string :=
  match feedback_type f with
  | Some t => Ok t
  | None => Raise (KeyError "feedback_type")
  end.

Fixpoint metric_samples (m : RL.metric) (feedback_data : list Feedback)
    : result (list (float * bool)) :=
  match feedback_data with
  | [] => Ok []
  | f :: rest =>
      let judge_scores := RL.get_or (judge_scores f) [] in
      match dict_find RL.metric_eqb judge_scores m with
      | Some score =>
          (t <- item_feedback_type f ;;
           samples <- metric_samples m rest ;;
           Ok ((score, String.eqb t "positive") :: samples))%py
      | None => metric_samples m rest
      end
  end.

Fixpoint correlate (ms : list RL.metric) (feedback_data : list Feedback)
    (correlations : dict RL.metric float) : result (dict RL.metric float) :=
  match ms with
  | [] => Ok correlations
  | m :: rest =>
      (samples <- metric_samples m feedback_data ;;
       if (10 <=? RL.len samples)%Z then
         let positive_avg := np_mean (map fst (filter snd samples)) in
         let negative_avg :=
           np_mean (map fst (filter (fun s => negb (snd s)) samples)) in
         correlate rest feedback_data
           (dict_set RL.metric_eqb correlations m
              (positive_avg - negative_avg))
       else correlate rest feedback_data correlations)%py
  end.

Definition _analyze_judge_correlation (feedback_data : list Feedback)
    (current_weights : dict RL.metric float) (config_learning_rate : float)
    : result (option (dict RL.metric float)) :=
  if (RL.len feedback_data <? 10)%Z then Ok None
  else
    (correlations <- correlate RL.metrics feedback_data [] ;;
     match correlations with
     | [] => Ok None
     | _ =>
         let learning_rate := config_learning_rate * 0.5 in
         let total_corr := py_sum (map (fun kv => abs (snd kv)) correlations) in
         if ltb 0 total_corr then
           let target_weights :=
             map (fun kv => (fst kv, abs (snd kv) / total_corr))
               correlations in
           let new_weights :=
             map (fun m =>
                    let current :=
                      dict_get RL.metric_eqb current_weights m (1 / 3) in
                    let target :=
                      dict_get RL.metric_eqb target_weights m (1 / 3) in
                    (m, current * (1 - learning_rate)
                        + target * learning_rate))
                 RL.metrics in
           let total := py_sum (map snd new_weights) in
           let new_weights :=
             map (fun kv => (fst kv, snd kv / total)) new_weights in
           let changes :=
             map (fun kv =>
                    abs (snd kv
                         - dict_get RL.metric_eqb current_weights (fst kv) 0))
                 new_weights in
           let max_change :=
             match changes with
             | [] => 0
             | x :: l => py_max x l
             end in
           if ltb 0.05 max_change then Ok (Some new_weights) else Ok None
         else Ok None
     end)%py.

(** The rational number a finite float is. *)
Definition exact (x : float) : option Q :=
  match Prim2SF x with
  | SpecFloat.S754_zero _ => Some 0%Q
  | SpecFloat.S754_finite s m e =>
      let v :=
        match e with
        | Z0 => inject_Z (Z.pos m)
        | Zpos p => inject_Z (Z.pos m * 2 ^ Z.pos p)
        | Zneg p => Z.pos m # 2 ^ p
        end in
      Some (if s then (- v)%Q else v)
  | _ => None
  end.

(** The mathematical sum of the weights. *)
Definition exact_sum (weights : dict RL.metric float) : option Q :=
  fold_left
    (fun acc kv =>
       match acc, exact (snd kv) with
       | Some a, Some v => Some (a + v)%Q
       | _, _ => None
       end)
    weights (Some 0%Q).

(** Ten entries that separate positive from negative feedback on relevance
    only; the default weights. *)
Definition entry (t : string) (r f c : float) : Feedback :=
  {| feedback_type := Some t;
     judge_scores :=
       Some [(RL.relevance, r); (RL.factuality, f); (RL.completeness, c)] |}.

Definition judged_batch : list Feedback :=
  (repeat (entry "positive" 9 5 5) 5 ++ repeat (entry "negative" 1 5 5) 5)%list.

Definition default_judge_weights : dict RL.metric float :=
  [(RL.relevance, 0.4); (RL.factuality, 0.4); (RL.completeness, 0.2)].

End Binary64.

(* ================================================================== *)
(** ** rl_optimizer.py: RLConfig.get *)
(* ================================================================== *)

(** [get] walks a dotted key through nested dictionaries, whatever they
    hold.  Here the configuration is seen as the Python value it is. *)

Module DottedGet.
Import RL Spec.
#[local] Open Scope string_scope.

#[local] Unset Elimination Schemes.
Inductive pyval : Type :=
| PNone
| PBool (b : bool)
| PInt (n : Z)
| PNum (q : Q)
| PNaN
| PStr (s : string)
| PTime (t : time)                    (* an ISO timestamp string *)
| PList (l : list pyval)
| PDict (d : list (string * pyval)).
#[local] Set Elimination Schemes.

(** [d.get(key, default)] on the items of a dictionary. *)
Fixpoint item_or (d : list (string * pyval)) (key : string) (default : pyval)
    : pyval :=
  match d with
  | [] => default
  | (k, v) :: d' => if String.eqb k key then v else item_or d' key default
  end.

(** [key.split('.')], [current] being the segment read so far. *)
Fixpoint split_dots (key current : string) : list string :=
  match key with
  | EmptyString => [current]
  | String c rest =>
      if Ascii.eqb c "."%char then current :: split_dots rest EmptyString
      else split_dots rest (current ++ String c EmptyString)
  end.

(** The loop of [get] over the segments [keys]. *)
Fixpoint walk (value : pyval) (keys : list string) (default : pyval) : pyval :=
  match keys with
  | [] => value
  | k :: keys' =>
      match value with
      | PDict d => walk (item_or d k default) keys' default
      | _ => default
      end
  end.

Definition get (config : pyval) (key : string) (default : pyval) : pyval :=
  walk config (split_dots key EmptyString) default.

(** A key of a dictionary literal that is there only when its value is. *)
Definition optional_item {A} (key : string) (to_py : A -> pyval)
    (o : option A) : list (string * pyval) :=
  match o with
  | Some a => [(key, to_py a)]
  | None => []
  end.

Definition metric_name (m : metric) : string :=
  match m with
  | relevance => "relevance"
  | factuality => "factuality"
  | completeness => "completeness"
  end.

Definition py_npfloat (a : npfloat) : pyval :=
  match a with
  | Fin q => PNum q
  | NaN => PNaN
  end.

Definition py_web_search (w : WebSearch) : pyval :=
  PDict (optional_item "confidence_threshold" PNum (confidence_threshold w)
         ++ optional_item "judge_threshold" PNum (judge_threshold w)
         ++ optional_item "enabled" PBool (enabled w))%list.

Definition py_confidence_weights (w : ConfidenceWeights) : pyval :=
  PDict (optional_item "retrieval_eval" PNum (retrieval_eval w)
         ++ optional_item "answer_quality" PNum (answer_quality w))%list.

Definition py_metric_dict (w : dict metric Q) : pyval :=
  PDict (map (fun kv => (metric_name (fst kv), PNum (snd kv))) w).

Definition py_reranking (r : Reranking) : pyval :=
  PDict [("min_score_threshold", PNum (min_score_threshold r));
         ("top_k", PInt (top_k r))].

Definition py_performance_entry (e : PerformanceEntry) : pyval :=
  PDict [("timestamp", PTime (timestamp e));
         ("total_feedback", PInt (Z.of_nat (total_feedback e)));
         ("positive_rate", PNum (positive_rate e));
         ("avg_confidence", py_npfloat (avg_confidence e));
         ("web_search_usage", PNum (web_search_usage e))].

(** The configuration dictionary as a Python value. *)
Definition py_config (c : Config) : pyval :=
  PDict [("version", PInt (version c));
         ("last_updated", PTime (last_updated c));
         ("web_search", py_web_search (web_search c));
         ("confidence_weights", py_confidence_weights (confidence_weights c));
         ("judge_weights", py_metric_dict (judge_weights c));
         ("reranking", py_reranking (reranking c));
         ("learning_rate", PNum (learning_rate c));
         ("min_samples", PInt (min_samples c));
         ("performance_history",
          PList (map py_performance_entry (performance_history c)))].

(** The nested item a path of keys leads to, if every key is there. *)
Fixpoint item_at (value : pyval) (keys : list string) : option pyval :=
  match keys with
  | [] => Some value
  | k :: keys' =>
      match value with
      | PDict d =>
          match dict_find String.eqb d k with
          | Some v => item_at v keys'
          | None => None
          end
      | _ => None
      end
  end.

Definition is_dict (v : pyval) : bool :=
  match v with
  | PDict _ => true
  | _ => false
  end.

End DottedGet.

(* ================================================================== *)
(** ** hybrid_search.py: HybridSearch.hybrid_search *)
(* ================================================================== *)

(** The two searches call the embedding service and the indexes; what they
    return for the query, given [k], is taken as given.  A document is the
    dictionary the index holds; printing is not modelled, but the items a
    log line reads are. *)

Module Retrieval.
Import HybridSearch DottedGet.
#[local] Open Scope string_scope.

Definition document := dict string pyval.

(** What a call can end in: a value, [IndexError], or another exception. *)
Inductive outcome (A : Type) : Type :=
| Returns (a : A)
| IndexError
| Raises (e : exn).
Arguments Returns {A} a.
Arguments IndexError {A}.
Arguments Raises {A} e.

(** [l[i]] for a Python list. *)
Definition list_item {A} (l : list A) (i : Z) : option A :=
  let n := Z.of_nat (List.length l) in
  if ((0 <=? i) && (i <? n))%Z then nth_error l (Z.to_nat i)
  else if ((- n <=? i) && (i <? 0))%Z then nth_error l (Z.to_nat (n + i))
  else None.

(** The value is a [str]. *)
Definition is_str (v : pyval) : bool :=
  match v with
  | PStr _ | PTime _ => true
  | _ => false
  end.

(** [v[:n]] returns: [v] is a [str] or a list.  A number, [nan] (what the
    index holds for an empty cell), a boolean or [None] raises [TypeError];
    so does a dictionary up to Python 3.11. *)
Definition sliceable (v : pyval) : bool :=
  match v with
  | PStr _ | PTime _ | PList _ => true
  | _ => false
  end.

(** [[self.documents[doc_id]['title'][:50] + '...' for doc_id, _ in results]]:
    the items the comprehension reads.  The slice and the concatenation
    with ['...'] need a [str]. *)
Fixpoint titles (documents : list document) (results : list ranked)
    : outcome unit :=
  match results with
  | [] => Returns tt
  | (id, _) :: rest =>
      match list_item documents id with
      | None => IndexError
      | Some d =>
          match dict_find String.eqb d "title" with
          | None => Raises (KeyError "title")
          | Some title =>
              if is_str title then titles documents rest
              else Raises TypeError
          end
      end
  end.

(** [for doc_id, rrf_score in top_results: ...] *)
Fixpoint retrieve (documents : list document)
    (top_results : list (doc_id * Q)) : outcome (list document) :=
  match top_results with
  | [] => Returns []
  | (id, score) :: rest =>
      match list_item documents id with
      | None => IndexError
      | Some d =>
          let doc := d in
          let doc := dict_set String.eqb doc "rrf_score" (PNum score) in
          let doc := dict_set String.eqb doc "doc_id" (PInt id) in
          match retrieve documents rest with
          | Returns retrieved_docs => Returns (doc :: retrieved_docs)
          | IndexError => IndexError
          | Raises e => Raises e
          end
      end
  end.

(** [hybrid_search(query, top_k)]; [self_top_k] is the configured
    default. *)
Definition hybrid_search (documents : list document) (self_top_k : Z)
    (semantic_search keyword_search : Z -> list ranked) (top_k : option Z)
    : outcome (list document) :=
  let top_k := match top_k with Some k => k | None => self_top_k end in
  let semantic_results := semantic_search top_k in
  match titles documents (slice_to 3 semantic_results) with
  | IndexError => IndexError
  | Raises e => Raises e
  | Returns _ =>
      let keyword_results := keyword_search top_k in
      match titles documents (slice_to 3 keyword_results) with
      | IndexError => IndexError
      | Raises e => Raises e
      | Returns _ =>
          match reciprocal_rank_fusion semantic_results keyword_results 60
          with
          | Raise e => Raises e
          | Ok fused_results =>
              let top_results := slice_to top_k fused_results in
              retrieve documents top_results
          end
      end
  end.

(** An index that [documents[i]] accepts for [n] documents. *)
Definition valid_index (n : nat) (i : Z) : Prop :=
  (- Z.of_nat n <= i < Z.of_nat n)%Z.

(** The document has a title, and it is a text. *)
Definition has_title (d : document) : Prop :=
  exists title,
    dict_find String.eqb d "title" = Some title /\ is_str title = true.

(** [r] is the stored document of [top]'s id, with [doc_id] and [rrf_score]
    set to [top] and every other item as stored. *)
Definition scored_copy (documents : list document) (r : document)
    (top : doc_id * Q) : Prop :=
  exists stored,
    list_item documents (fst top) = Some stored
    /\ dict_find String.eqb r "doc_id" = Some (PInt (fst top))
    /\ dict_find String.eqb r "rrf_score" = Some (PNum (snd top))
    /\ forall key, key <> "doc_id" -> key <> "rrf_score" ->
         dict_find String.eqb r key = dict_find String.eqb stored key.

(** A small index: three stored news items. *)
Definition news (title : string) : document :=
  [("id", PInt 0); ("title", PStr title)].

Definition example_index : list document :=
  [news "first"; news "second"; news "third"].

(** What the two searches return in the example, whatever [k]; the keyword
    search names the last document by [-1]. *)
Definition example_semantic (_ : Z) : list ranked :=
  [(0%Z, 9 # 10); (2%Z, 1 # 2)].

Definition example_keyword (_ : Z) : list ranked :=
  [((-1)%Z, 3); (1%Z, 2)].

End Retrieval.

(* ================================================================== *)
(** ** feedback.py: FeedbackService *)
(* ================================================================== *)

(** The service keeps every feedback entry in a JSON file and owns an
    [RLOptimizer].  Its state is the file and the optimizer's state, whose
    clock is the clock of the world.  Texts that are only reported (messages,
    reasons) are left out. *)

Module FeedbackService.
Import RL Spec More DottedGet.
#[local] Open Scope string_scope.

(** [feedback_id], the text [fb_<number>_<seconds>]: the number and the
    instant whose seconds it holds. *)
Record feedback_ident : Type := fb {
  number : Z;
  read_at : time
}.

(** An entry of the file.  [seen] is what the optimizer reads of the same
    dictionary ([feedback_type], [web_search_triggered], [confidence],
    [judge_scores]); any key may be missing from a stored entry, and
    [comment] is [None] also when it is null. *)
Record Entry : Type := {
  feedback_id : option feedback_ident;
  response_id : option string;
  timestamp : option time;
  query : option string;
  answer : option string;
  sources : option (list pyval);
  seen : Feedback;
  retrieval_method : option string;
  comment : option string
}.

Inductive feedback_json : Type :=
| Unparsable                          (* [json.load] raises *)
| Entries (l : list Entry).

Record Service : Type := {
  feedback_file : option feedback_json;   (* [None]: no such file *)
  rl_optimizer : State
}.

Definition with_optimizer (st : State) (sv : Service) : Service :=
  {| feedback_file := feedback_file sv; rl_optimizer := st |}.

Definition _load_feedback (sv : Service) : list Entry :=
  match feedback_file sv with
  | Some (Entries l) => l
  | Some Unparsable => []
  | None => []
  end.

Definition _save_feedback (feedback_data : list Entry) (sv : Service)
    : Service :=
  {| feedback_file := Some (Entries feedback_data);
     rl_optimizer := rl_optimizer sv |}.

(** [FeedbackService(feedback_file)], in a world with the feedback file
    [d], the configuration file [c] and the time [now]: the service as the
    constructor leaves it when [RLConfig.__init__] returns, as it does on a
    first start and on every file the code has written. *)
Definition FeedbackService_init (d : option feedback_json) (c : option file)
    (now : time) : Service :=
  let sv := {| feedback_file := d; rl_optimizer := before_init c now |} in
  let sv :=
    match feedback_file sv with
    | None => _save_feedback [] sv
    | Some _ => sv
    end in
  with_optimizer (snd (RLConfig_init (rl_optimizer sv))) sv.

(** [datetime.now()] *)
Definition now_of (sv : Service) : time * Service :=
  (clock (rl_optimizer sv), with_optimizer (tick (rl_optimizer sv)) sv).

(** The dictionary [feedback_entry] of [submit_feedback]. *)
Definition feedback_entry (n : Z) (t_id t_stamp : time)
    (response_id query answer : string) (sources : list pyval)
    (feedback_type : string) (confidence : Q) (judge_scores : dict metric Q)
    (retrieval_method : string) (web_search_triggered : bool)
    (comment : option string) : Entry :=
  Build_Entry (Some (fb n t_id)) (Some response_id) (Some t_stamp)
    (Some query) (Some answer) (Some sources)
    (Build_Feedback (Some feedback_type) (Some web_search_triggered)
       (Some confidence) (Some judge_scores))
    (Some retrieval_method) comment.

(** [submit_feedback(...)]: the outcome is the [feedback_id] of the
    confirmation, whose [status] is always [success]. *)
Definition submit_feedback
    (response_id query answer : string) (sources : list pyval)
    (feedback_type : string) (confidence : Q) (judge_scores : dict metric Q)
    (retrieval_method : string) (web_search_triggered : bool)
    (comment : option string) (sv : Service)
    : result feedback_ident * Service :=
  let feedback_data := _load_feedback sv in
  let (t_id, sv) := now_of sv in
  let (t_stamp, sv) := now_of sv in
  let feedback_entry :=
    feedback_entry (len feedback_data + 1) t_id t_stamp response_id query
      answer sources feedback_type confidence judge_scores retrieval_method
      web_search_triggered comment in
  let feedback_data := (feedback_data ++ [feedback_entry])%list in
  let sv := _save_feedback feedback_data sv in
  let confirmation :=
    match feedback_id feedback_entry with
    | Some id => Ok id
    | None => Raise (KeyError "feedback_id")
    end in
  let min_samples := min_samples (config (rl_optimizer sv)) in
  if (min_samples <=? len feedback_data)%Z then
    if (min_samples =? 0)%Z then (Raise ZeroDivisionError, sv)
    else if (len feedback_data mod min_samples =? 0)%Z then
      match update_from_feedback (map seen feedback_data) (rl_optimizer sv)
      with
      | (Ok _, st) => (confirmation, with_optimizer st sv)
      | (Raise e, st) => (Raise e, with_optimizer st sv)
      end
    else (confirmation, sv)
  else (confirmation, sv).

(** [f["feedback_type"]] *)
Definition type_of (f : Entry) : result string := item_feedback_type (seen f).

(** [f.get("web_search_triggered")] as a condition. *)
Definition by_web (f : Entry) : bool := truthy (web_search_triggered (seen f)).

Definition always (f : Entry) : bool := true.

(** [sum(1 for f in feedback_data if cond(f) and f["feedback_type"] == t)]:
    the type of an entry is read only when [cond] holds of it. *)
Fixpoint count_type (cond : Entry -> bool) (t : string)
    (feedback_data : list Entry) : result Z :=
  match feedback_data with
  | [] => Ok 0%Z
  | f :: rest =>
      if cond f then
        (t' <- type_of f ;;
         n <- count_type cond t rest ;;
         Ok ((if String.eqb t' t then 1 else 0) + n)%Z)%py
      else count_type cond t rest
  end.

(** [{"total": ..., "positive": ..., "positive_rate": ...}] *)
Record Counts : Type := {
  total : Z;
  positive : Z;
  positive_rate : Q
}.

(** [positive / total if total > 0 else 0.0] *)
Definition rate_of (positive total : Z) : Q :=
  if (0 <? total)%Z then inject_Z positive / inject_Z total else 0.

Definition counts_of (positive total : Z) : Counts :=
  {| total := total; positive := positive;
     positive_rate := rate_of positive total |}.

Record WebSearchFeedback : Type := {
  web_search : Counts;
  internal_kb : Counts
}.

Definition _analyze_web_search_feedback (feedback_data : list Entry)
    : result WebSearchFeedback :=
  (web_positive <- count_type by_web "positive" feedback_data ;;
   let web_total := len (filter by_web feedback_data) in
   internal_positive <-
     count_type (fun f => negb (by_web f)) "positive" feedback_data ;;
   let internal_total :=
     len (filter (fun f => negb (by_web f)) feedback_data) in
   Ok {| web_search := counts_of web_positive web_total;
         internal_kb := counts_of internal_positive internal_total |})%py.

(** The keys of [ranges]: ["low (0-0.3)"], ["medium (0.3-0.7)"] and
    ["high (0.7-1.0)"]. *)
Inductive range_key : Type := Low | Medium | High.

Record Ranges (A : Type) : Type := {
  low : A;
  medium : A;
  high : A
}.
Arguments low {A} r.
Arguments medium {A} r.
Arguments high {A} r.

Definition range_item {A} (ranges : Ranges A) (k : range_key) : A :=
  match k with
  | Low => low ranges
  | Medium => medium ranges
  | High => high ranges
  end.

Definition set_range_item {A} (ranges : Ranges A) (k : range_key) (a : A)
    : Ranges A :=
  match k with
  | Low => {| low := a; medium := medium ranges; high := high ranges |}
  | Medium => {| low := low ranges; medium := a; high := high ranges |}
  | High => {| low := low ranges; medium := medium ranges; high := a |}
  end.

Definition range_of (conf : Q) : range_key :=
  if Qltb conf 0.3 then Low
  else if Qltb conf 0.7 then Medium
  else High.

(** The first loop of [_analyze_confidence_correlation]; an item of
    [ranges] is the pair of its [positive] and its [total]. *)
Fixpoint tally (feedback_data : list Entry) (ranges : Ranges (Z * Z))
    : result (Ranges (Z * Z)) :=
  match feedback_data with
  | [] => Ok ranges
  | f :: rest =>
      let conf := get_or (confidence (seen f)) 0.5 in
      let range_key := range_of conf in
      let (positive, total) := range_item ranges range_key in
      let total := (total + 1)%Z in
      (t <- type_of f ;;
       let positive :=
         if String.eqb t "positive" then (positive + 1)%Z else positive in
       tally rest (set_range_item ranges range_key (positive, total)))%py
  end.

Inductive Correlation : Type :=
| no_correlation_data                 (* [{"correlation": "insufficient_data"}] *)
| by_range (ranges : Ranges Counts).

Definition _analyze_confidence_correlation (feedback_data : list Entry)
    : result Correlation :=
  match feedback_data with
  | [] => Ok no_correlation_data
  | _ =>
      let zero := (0%Z, 0%Z) in
      (ranges <-
         tally feedback_data {| low := zero; medium := zero; high := zero |} ;;
       let rated (item : Z * Z) := counts_of (fst item) (snd item) in
       Ok (by_range {| low := rated (low ranges);
                       medium := rated (medium ranges);
                       high := rated (high ranges) |}))%py
  end.

(** What [get_feedback_stats] returns; without feedback the last two keys
    are not there. *)
Module Overall.
Record Stats : Type := {
  total_feedback : Z;
  positive : Z;
  negative : Z;
  positive_rate : Q;
  web_search_feedback : option WebSearchFeedback;
  confidence_correlation : option Correlation
}.
End Overall.

Definition get_feedback_stats (sv : Service) : result Overall.Stats :=
  let feedback_data := _load_feedback sv in
  match feedback_data with
  | [] =>
      Ok {| Overall.total_feedback := 0;
            Overall.positive := 0;
            Overall.negative := 0;
            Overall.positive_rate := 0;
            Overall.web_search_feedback := None;
            Overall.confidence_correlation := None |}
  | _ =>
      (positive <- count_type always "positive" feedback_data ;;
       negative <- count_type always "negative" feedback_data ;;
       positive_rate <-
         match feedback_data with
         | [] => Ok 0
         | _ => int_div positive (len feedback_data)
         end ;;
       web_search_feedback <- _analyze_web_search_feedback feedback_data ;;
       confidence_correlation <-
         _analyze_confidence_correlation feedback_data ;;
       Ok {| Overall.total_feedback := len feedback_data;
             Overall.positive := positive;
             Overall.negative := negative;
             Overall.positive_rate := positive_rate;
             Overall.web_search_feedback := Some web_search_feedback;
             Overall.confidence_correlation :=
               Some confidence_correlation |})%py
  end.

(** [d[key]] for a key that may be missing. *)
Definition item {A} (o : option A) (key : string) : result A :=
  match o with
  | Some a => Ok a
  | None => Raise (KeyError key)
  end.

(** An entry of [get_failed_queries]. *)
Module Failed.
Record FailedQuery : Type := {
  query : string;
  answer : string;
  timestamp : time;
  confidence : Q;
  judge_scores : dict metric Q;
  comment : option string
}.
End Failed.

(** The comprehension [negative_feedback]. *)
Fixpoint negative_feedback (feedback_data : list Entry)
    : result (list Failed.FailedQuery) :=
  match feedback_data with
  | [] => Ok []
  | f :: rest =>
      (t <- type_of f ;;
       if String.eqb t "negative" then
         q <- item (query f) "query" ;;
         a <- item (answer f) "answer" ;;
         ts <- item (timestamp f) "timestamp" ;;
         negatives <- negative_feedback rest ;;
         Ok ({| Failed.query := q;
                Failed.answer := a;
                Failed.timestamp := ts;
                Failed.confidence := get_or (confidence (seen f)) 0;
                Failed.judge_scores := get_or (judge_scores (seen f)) [];
                Failed.comment := comment f |} :: negatives)
       else negative_feedback rest)%py
  end.

(** The sort key: ISO timestamps compare as their instants. *)
Definition timestamp_key (x : Failed.FailedQuery) : Q :=
  inject_Z (Z.of_nat (Failed.timestamp x)).

Definition get_failed_queries (limit : Z) (sv : Service)
    : result (list Failed.FailedQuery) :=
  let feedback_data := _load_feedback sv in
  (negative_feedback <- negative_feedback feedback_data ;;
   let negative_feedback := sorted_desc timestamp_key negative_feedback in
   Ok (slice_to limit negative_feedback))%py.

Inductive action : Type := decrease | increase | recalibrate.

(** A recommendation: its [type], [action] and, for the threshold, the
    [suggested_threshold]. *)
Inductive recommendation : Type :=
| web_search_threshold (a : action) (suggested_threshold : Q)
| confidence_calibration (a : action).

Inductive recommendations : Type :=
| not_enough_feedback (current_feedback_count : Z)
| recommended (total_feedback : Z) (l : list recommendation).

Definition get_adjustment_recommendations (sv : Service)
    : result recommendations :=
  let feedback_data := _load_feedback sv in
  if (len feedback_data <? 10)%Z then
    Ok (not_enough_feedback (len feedback_data))
  else
    (stats <- get_feedback_stats sv ;;
     let recommendations := [] in
     web_search_feedback <-
       item (Overall.web_search_feedback stats) "web_search_feedback" ;;
     let web_stats := web_search web_search_feedback in
     let internal_stats := internal_kb web_search_feedback in
     let recommendations :=
       if ((5 <? total web_stats) && (5 <? total internal_stats))%Z then
         if Qltb (positive_rate internal_stats + 0.2)
              (positive_rate web_stats) then
           recommendations ++ [web_search_threshold decrease 0.6]
         else if Qltb (positive_rate web_stats + 0.2)
                   (positive_rate internal_stats) then
           recommendations ++ [web_search_threshold increase 0.9]
         else recommendations
       else recommendations in
     conf_corr <-
       item (Overall.confidence_correlation stats) "confidence_correlation" ;;
     let recommendations :=
       match conf_corr with
       | by_range ranges =>
           if (3 <? total (high ranges))%Z then
             let high_conf_rate := positive_rate (high ranges) in
             if Qltb high_conf_rate 0.6 then
               recommendations ++ [confidence_calibration recalibrate]
             else recommendations
           else recommendations
       | no_correlation_data => recommendations
       end in
     Ok (recommended (len feedback_data) recommendations))%py%list.

(** A service as first started: no feedback file, no configuration file. *)
Definition fresh (now : time) : Service := FeedbackService_init None None now.

(** The services that a first start and any series of submissions lead
    to. *)
Inductive reachable (now : time) : Service -> Prop :=
| reach_fresh : reachable now (fresh now)
| reach_submit (sv : Service)
    (response_id query answer : string) (sources : list pyval)
    (feedback_type : string) (confidence : Q) (judge_scores : dict metric Q)
    (retrieval_method : string) (web_search_triggered : bool)
    (comment : option string) :
    reachable now sv ->
    reachable now
      (snd (submit_feedback response_id query answer sources feedback_type
              confidence judge_scores retrieval_method web_search_triggered
              comment sv)).

(** The number in the [feedback_id] of an entry. *)
Definition entry_number (f : Entry) : option Z :=
  option_map number (feedback_id f).

(** The entries are numbered 1, 2, ... in the order of the file. *)
Definition numbered (l : list Entry) : Prop :=
  map entry_number l = map (fun i => Some (Z.of_nat i)) (seq 1 (length l)).

(** Every entry has its [feedback_type]. *)
Definition typed (l : list Entry) : bool :=
  forallb has_feedback_type (map seen l).

(** What holds of the optimizer of a service that holds the entries [l]
    after a first start: it has taken one snapshot for every fifth
    submission, and is as the runs keep it. *)
Definition in_step (sv : Service) (l : list Entry) : Prop :=
  length (performance_history (config (rl_optimizer sv)))
  = Nat.min 50 (length l / 5)
  /\ store_sound (rl_optimizer sv)
  /\ settled (rl_optimizer sv)
  /\ tuned (rl_optimizer sv).

(** A file of four entries, the second of which has lost its
    [feedback_type], with an optimizer as first started. *)
Definition damaged_entry : Entry :=
  Build_Entry (Some (fb 2 0%nat)) (Some "r2") (Some 1%nat) (Some "q2")
    (Some "a2") (Some [])
    (Build_Feedback None (Some false) (Some 0.5) (Some []))
    (Some "hybrid") None.

Definition damaged_service : Service :=
  {| feedback_file :=
       Some (Entries
               [feedback_entry 1 0%nat 0%nat "r1" "q1" "a1" [] "positive"
                  0.8 [] "hybrid" false None;
                damaged_entry;
                feedback_entry 3 0%nat 0%nat "r3" "q3" "a3" [] "negative"
                  0.4 [] "hybrid" true None;
                feedback_entry 4 0%nat 0%nat "r4" "q4" "a4" [] "positive"
                  0.9 [] "hybrid" false None]);
     rl_optimizer := started None 0%nat |}.

(** The entry has the feedback type [t]. *)
Definition is_type (t : string) (f : Entry) : bool :=
  match feedback_type (seen f) with
  | Some t' => String.eqb t' t
  | None => false
  end.

Definition range_key_eqb (a b : range_key) : bool :=
  match a, b with
  | Low, Low | Medium, Medium | High, High => true
  | _, _ => false
  end.

(** The confidence of the entry, 0.5 if it has none, falls in range [k]. *)
Definition in_range (k : range_key) (f : Entry) : bool :=
  range_key_eqb (range_of (get_or (confidence (seen f)) 0.5)) k.

(** How many entries satisfy [p]. *)
Definition how_many (p : Entry -> bool) (l : list Entry) : Z :=
  len (filter p l).

(** A file of three typed entries for the examples. *)
Definition small_service : Service :=
  {| feedback_file :=
       Some (Entries
               [feedback_entry 1 0%nat 1%nat "r1" "q1" "a1" [] "positive"
                  0.8 [] "hybrid" false None;
                feedback_entry 2 2%nat 3%nat "r2" "q2" "a2" [] "negative"
                  0.2 [] "hybrid" true (Some "wrong");
                feedback_entry 3 4%nat 5%nat "r3" "q3" "a3" [] "negative"
                  0.6 [] "hybrid" false None]);
     rl_optimizer := started None 0%nat |}.

(** The statistics of [small_service]. *)
Definition small_stats : Overall.Stats :=
  Eval vm_compute in
    match get_feedback_stats small_service with
    | Ok s => s
    | Raise _ =>
        {| Overall.total_feedback := 0;
           Overall.positive := 0;
           Overall.negative := 0;
           Overall.positive_rate := 0;
           Overall.web_search_feedback := None;
           Overall.confidence_correlation := None |}
    end.

(** Twelve entries: six answers from the web at confidence 0.5, all liked,
    and six internal ones at confidence 0.9, all disliked. *)
Definition lopsided_service : Service :=
  {| feedback_file :=
       Some (Entries
               (repeat (feedback_entry 1 0%nat 0%nat "r" "q" "a" []
                          "positive" 0.5 [] "hybrid" true None) 6
                ++ repeat (feedback_entry 1 0%nat 0%nat "r" "q" "a" []
                             "negative" 0.9 [] "hybrid" false None) 6)%list);
     rl_optimizer := started None 0%nat |}.

(** The positive and the total count of the entries that satisfy [p], with
    their rate. *)
Definition counts_where (p : Entry -> bool) (l : list Entry) : Counts :=
  counts_of (how_many (fun f => p f && is_type "positive" f) l)
    (how_many p l).

(** The recommendations as the counts determine them. *)
Definition threshold_advice (web_stats internal_stats : Counts)
    : list recommendation :=
  if ((5 <? total web_stats) && (5 <? total internal_stats))%Z then
    if Qltb (positive_rate internal_stats + 0.2) (positive_rate web_stats)
    then [web_search_threshold decrease 0.6]
    else if Qltb (positive_rate web_stats + 0.2)
              (positive_rate internal_stats)
    then [web_search_threshold increase 0.9]
    else []
  else [].

Definition calibration_advice (high_stats : Counts) : list recommendation :=
  if (3 <? total high_stats)%Z then
    if Qltb (positive_rate high_stats) 0.6
    then [confidence_calibration recalibrate]
    else []
  else [].

(** The failed query [x] is made of the stored negative entry [f]. *)
Definition made_of (x : Failed.FailedQuery) (f : Entry) : Prop :=
  is_type "negative" f = true
  /\ query f = Some (Failed.query x)
  /\ answer f = Some (Failed.answer x)
  /\ timestamp f = Some (Failed.timestamp x)
  /\ Failed.confidence x = get_or (confidence (seen f)) 0
  /\ Failed.judge_scores x = get_or (judge_scores (seen f)) []
  /\ Failed.comment x = comment f.

Definition not_after (x y : Failed.FailedQuery) : Prop :=
  (Failed.timestamp x <= Failed.timestamp y)%nat.

(** What [get_failed_queries(1)] returns on [small_service]. *)
Definition small_failures : list Failed.FailedQuery :=
  Eval vm_compute in
    match get_failed_queries 1 small_service with
    | Ok l => l
    | Raise _ => []
    end.

End FeedbackService.

(* ================================================================== *)
(** ** reranker.py: Reranker *)
(* ================================================================== *)

(** The cross-encoder is taken as given: [predict title summary] is the
    score it gives to the text made of a document's title and summary. *)

Module Reranker.
Import DottedGet Retrieval.
#[local] Open Scope string_scope.

(** A number as a float. *)
Definition as_number (v : pyval) : Q :=
  match v with
  | PNum q => q
  | PInt n => inject_Z n
  | _ => 0
  end.

(** [doc[key]] *)
Definition doc_item (doc : document) (key : string) : result pyval :=
  match dict_find String.eqb doc key with
  | Some v => Ok v
  | None => Raise (KeyError key)
  end.

(** The loop that fills [pairs]: the title and the summary of each
    document. *)
Fixpoint doc_texts (documents : list document)
    : result (list (pyval * pyval)) :=
  match documents with
  | [] => Ok []
  | doc :: rest =>
      (title <- doc_item doc "title" ;;
       summary <- doc_item doc "summary" ;;
       pairs <- doc_texts rest ;;
       Ok ((title, summary) :: pairs))%py
  end.

(** The sort key [x['rerank_score']], on documents that have it. *)
Definition rerank_score (doc : document) : Q :=
  as_number (item_or doc "rerank_score" (PInt 0)).

Definition with_rerank_score (doc_score : document * Q) : document :=
  dict_set String.eqb (fst doc_score) "rerank_score" (PNum (snd doc_score)).

(** The loop that prints the first three reranked documents:
    [doc['rerank_score']] and [doc['title'][:60]]. *)
Fixpoint shown (reranked_docs : list document) : result unit :=
  match reranked_docs with
  | [] => Ok tt
  | doc :: rest =>
      (score <- doc_item doc "rerank_score" ;;
       title <- doc_item doc "title" ;;
       if sliceable title then shown rest else Raise TypeError)%py
  end.

Definition rerank (top_k_rerank : Z) (predict : pyval -> pyval -> Q)
    (documents : list document) (top_k : option Z)
    : result (list document) :=
  let top_k := match top_k with Some k => k | None => top_k_rerank end in
  match documents with
  | [] => Ok []
  | _ =>
      (pairs <- doc_texts documents ;;
       let scores := map (fun p => predict (fst p) (snd p)) pairs in
       let documents := map with_rerank_score (combine documents scores) in
       let reranked_docs := sorted_desc rerank_score documents in
       printed <- shown (slice_to 3 reranked_docs) ;;
       Ok (slice_to top_k reranked_docs))%py
  end.

Definition rerank_with_threshold (top_k_rerank : Z)
    (predict : pyval -> pyval -> Q) (documents : list document)
    (threshold : Q) (top_k : option Z) : result (list document) :=
  (reranked <- rerank top_k_rerank predict documents top_k ;;
   let filtered :=
     filter (fun doc => Qle_bool threshold (rerank_score doc)) reranked in
   Ok filtered)%py.

(** The document has the two keys the reranker and the judge read, with
    values they can slice. *)
Definition readable (doc : document) : Prop :=
  (exists title,
     dict_find String.eqb doc "title" = Some title
     /\ sliceable title = true)
  /\ (exists summary,
        dict_find String.eqb doc "summary" = Some summary
        /\ sliceable summary = true).

(** The score the cross-encoder gives to a readable document. *)
Definition predicted (predict : pyval -> pyval -> Q) (doc : document) : Q :=
  predict (item_or doc "title" PNone) (item_or doc "summary" PNone).

(** The document with its score set. *)
Definition scored (predict : pyval -> pyval -> Q) (doc : document)
    : document :=
  dict_set String.eqb doc "rerank_score" (PNum (predicted predict doc)).

Definition not_above (x y : document) : Prop :=
  rerank_score x <= rerank_score y.

(** Three articles, and a scorer that goes by the title. *)
Definition article (title : string) : document :=
  [("title", PStr title); ("summary", PStr "s"); ("author", PStr "a");
   ("content", PStr "c")].

Definition example_articles : list document :=
  [article "low"; article "high"; article "mid"].

Definition by_title (title summary : pyval) : Q :=
  match title with
  | PStr "high" => 9
  | PStr "mid" => 5
  | _ => 1
  end.

End Reranker.

(* ================================================================== *)
(** ** llm_judge.py: LLMJudge *)
(* ================================================================== *)

(** The judge asks a language model and reads its JSON answer.  The
    answer is taken as given: [None] when anything inside the [try] raises
    (the call, the parsing, a comparison or a slice of an item of the wrong
    type), otherwise the items the code reads of it. *)

Module Judge.
Import RL DottedGet Retrieval Reranker.
#[local] Open Scope string_scope.

(** What [evaluate_retrieval_adequacy] returns ([reasoning] is a text). *)
Record RetrievalEval : Type := {
  is_adequate : option bool;
  confidence : option Q;
  needs_web_search : option bool
}.

(** The loop that fills [doc_summaries]: [doc['title']] and
    [doc['summary'][:200]] of each document. *)
Fixpoint doc_summaries (documents : list document) : result unit :=
  match documents with
  | [] => Ok tt
  | doc :: rest =>
      (title <- doc_item doc "title" ;;
       summary <- doc_item doc "summary" ;;
       if sliceable summary then doc_summaries rest else Raise TypeError)%py
  end.

(** [evaluate_retrieval_adequacy(query, documents)]; [llm] is the
    [confidence] item of the model's JSON answer.  The summaries of the
    first three documents are read before the [try]. *)
Definition evaluate_retrieval_adequacy (judge_threshold : Q)
    (documents : list document) (llm : option (option Q))
    : result RetrievalEval :=
  (summaries <- doc_summaries (slice_to 3 documents) ;;
   match llm with
   | Some result_confidence =>
       let confidence := get_or result_confidence 5 in
       Ok {| is_adequate := Some (Qle_bool judge_threshold confidence);
             confidence := result_confidence;
             needs_web_search := Some (Qltb confidence judge_threshold) |}
   | None =>
       Ok {| is_adequate := Some false;
             confidence := Some 5;
             needs_web_search := Some true |}
   end)%py.

(** What [evaluate_answer_quality] returns: the scores of the model's
    answer and [overall_score] ([feedback] is a text). *)
Record AnswerEval : Type := {
  scores : dict metric Q;
  overall_score : Q
}.

Definition evaluate_answer_quality (llm : option (dict metric Q))
    : AnswerEval :=
  match llm with
  | Some result =>
      let relevance := dict_get metric_eqb result relevance 5 in
      let factuality := dict_get metric_eqb result factuality 5 in
      let completeness := dict_get metric_eqb result completeness 5 in
      {| scores := result;
         overall_score := (relevance + factuality + completeness) / 3 |}
  | None =>
      {| scores := [(relevance, 5); (factuality, 5); (completeness, 5)];
         overall_score := 5 |}
  end.

End Judge.

(* ================================================================== *)
(** ** rag.py: RAGService.process_query *)
(* ================================================================== *)

(** The pipeline, given what the searches, the cross-encoder, the judge's
    model and the web search answer.  The generated answer and the texts of
    the sources are left out; the items read to build them are not. *)

Module Pipeline.
Import RL Spec More DottedGet Retrieval Reranker.
#[local] Open Scope string_scope.

Record RAGService : Type := {
  enable_reranker : bool;
  top_k_rerank : Z;                   (* of [self.reranker] *)
  judge_threshold : Q;                (* of [self.judge] *)
  rl_optimizer : State
}.

(** The answers of the world to one query. *)
Record Answers : Type := {
  retrieved_docs : list document;     (* [hybrid_search(query, top_k=20)] *)
  predict : pyval -> pyval -> Q;      (* the cross-encoder *)
  judged_retrieval : option (option Q);
  web_results : list document;        (* [perform_web_search(query, 3)] *)
  judged_answer : option (dict metric Q)
}.

Inductive source_type : Type := internal | web.

(** A source of the response, without its texts. *)
Record Source : Type := {
  type : source_type;
  relevance_score : Q
}.

Record Response : Type := {
  sources : list Source;
  confidence : Q;
  judge_scores : dict metric Q;
  web_search_triggered : bool
}.

(** The dummy score of a document the reranker has not seen. *)
Definition dummy_score (doc : document) : document :=
  match dict_find String.eqb doc "rerank_score" with
  | Some _ => doc
  | None =>
      dict_set String.eqb doc "rerank_score" (item_or doc "score" (PNum 0.5))
  end.

(** The items [generate_answer] reads of the context documents:
    [doc['title']], [doc['author']], [doc['summary']] and
    [doc['content'][:500]]. *)
Fixpoint context_parts (context_docs : list document) : result unit :=
  match context_docs with
  | [] => Ok tt
  | doc :: rest =>
      (title <- doc_item doc "title" ;;
       author <- doc_item doc "author" ;;
       summary <- doc_item doc "summary" ;;
       content <- doc_item doc "content" ;;
       if sliceable content then context_parts rest else Raise TypeError)%py
  end.

(** And of the web results: [result.get('text', 'N/A')[:500]]. *)
Fixpoint web_parts (web_results : list document) : result unit :=
  match web_results with
  | [] => Ok tt
  | r :: rest =>
      if sliceable (item_or r "text" (PStr "N/A")) then web_parts rest
      else Raise TypeError
  end.

(** The loop that prints the titles of the web results:
    [result['title'][:60]]. *)
Fixpoint web_titles (web_results : list document) : result unit :=
  match web_results with
  | [] => Ok tt
  | r :: rest =>
      (title <- doc_item r "title" ;;
       if sliceable title then web_titles rest else Raise TypeError)%py
  end.

(** [min(g)] for a generator [g] that yields [x] and then [l]. *)
Definition min_of (x : Q) (l : list Q) : Q := fold_left min2 l x.

(** The sources made of the documents, with their normalised scores. *)
Definition internal_sources (reranked_docs : list document) : list Source :=
  let rerank_scores :=
    map (fun doc => as_number (item_or doc "rerank_score" (PInt 0)))
      reranked_docs in
  match rerank_scores with
  | [] => []
  | s :: rest =>
      let min_score := min_of s rest in
      let max_score := max_of s rest in
      let score_range :=
        if negb (Qeq_bool max_score min_score) then max_score - min_score
        else 1 in
      map (fun doc =>
             let raw_score :=
               as_number (item_or doc "rerank_score" (PInt 0)) in
             let normalized_score :=
               if Qltb 0 score_range then (raw_score - min_score) / score_range
               else 0.5 in
             {| type := internal;
                relevance_score := max2 0 (min2 1 normalized_score) |})
          reranked_docs
  end.

Definition web_source (result : document) : Source :=
  let score := item_or result "score" (PNum 0.8) in
  let score :=
    match score with
    | PNone | PNaN => PNum 0.8
    | _ => score
    end in
  {| type := web; relevance_score := as_number score |}.

Definition process_query (self : RAGService) (world : Answers)
    (enable_web_search : bool) : result Response :=
  let retrieved_docs := retrieved_docs world in
  (reranked_docs <-
     (if enable_reranker self then
        rerank (top_k_rerank self) (predict world) retrieved_docs (Some 5%Z)
      else Ok (map dummy_score (slice_to 5 retrieved_docs))) ;;
   retrieval_eval <-
     Judge.evaluate_retrieval_adequacy (judge_threshold self) reranked_docs
       (judged_retrieval world) ;;
   judge_score <-
     match Judge.confidence retrieval_eval with
     | Some c => Ok c
     | None => Raise (KeyError "confidence")
     end ;;
   let prelim_confidence := judge_score / 10 in
   let should_search :=
     should_trigger_web_search (rl_optimizer self) prelim_confidence
       judge_score in
   searched <-
     (if enable_web_search
         && (get_or (Judge.needs_web_search retrieval_eval) false
             || should_search)
      then
        match web_results world with
        | [] => Ok (false, [])
        | web_results =>
            (printed <- web_titles web_results ;; Ok (true, web_results))
        end
      else Ok (false, [])) ;;
   let web_search_triggered := fst searched in
   let web_results := snd searched in
   context <- context_parts reranked_docs ;;
   context <- web_parts web_results ;;
   let sources := internal_sources reranked_docs in
   let sources := (sources ++ map web_source web_results)%list in
   let answer_eval := Judge.evaluate_answer_quality (judged_answer world) in
   let weighted_overall_score :=
     calculate_weighted_judge_score (rl_optimizer self)
       (Judge.scores answer_eval) in
   let confidence :=
     calculate_weighted_confidence (rl_optimizer self) judge_score
       weighted_overall_score in
   Ok {| sources := sources;
         confidence := confidence;
         judge_scores :=
           [(relevance,
             dict_get metric_eqb (Judge.scores answer_eval) relevance 5);
            (factuality,
             dict_get metric_eqb (Judge.scores answer_eval) factuality 5);
            (completeness,
             dict_get metric_eqb (Judge.scores answer_eval) completeness 5)];
         web_search_triggered := web_search_triggered |})%py.

(** The judge's confidence as the pipeline reads it: 5 when the judge's
    model failed, none when its answer has no [confidence]. *)
Definition judged_confidence (world : Answers) : option Q :=
  match judged_retrieval world with
  | Some c => c
  | None => Some 5
  end.

Definition has_results (world : Answers) : bool :=
  match web_results world with
  | [] => false
  | _ => true
  end.

(** The document has neither a [rerank_score] nor a [score]. *)
Definition unscored (doc : document) : Prop :=
  dict_find String.eqb doc "rerank_score" = None
  /\ dict_find String.eqb doc "score" = None.

Definition is_internal (s : Source) : bool :=
  match type s with
  | internal => true
  | web => false
  end.

(** A service as first started, the reranker disabled, and a world in which
    the judge's model fails. *)
Definition default_service : RAGService :=
  {| enable_reranker := false;
     top_k_rerank := 5;
     judge_threshold := 6;
     rl_optimizer := started None 0%nat |}.

Definition failing_judge : Answers :=
  {| retrieved_docs := example_articles;
     predict := by_title;
     judged_retrieval := None;
     web_results := [[("title", PStr "w"); ("score", PNum 0.9)]];
     judged_answer := None |}.

Definition failing_judge_response : Response :=
  Eval vm_compute in
    match process_query default_service failing_judge true with
    | Ok r => r
    | Raise _ =>
        {| sources := []; confidence := 0; judge_scores := [];
           web_search_triggered := false |}
    end.

(** A world in which the judge is fairly confident: 6.5, above its own
    threshold 6, while 0.65 is below the learned threshold 0.7. *)
Definition confident_judge : Answers :=
  {| retrieved_docs := example_articles;
     predict := by_title;
     judged_retrieval := Some (Some 6.5);
     web_results := [[("title", PStr "w"); ("score", PNum 0.9)]];
     judged_answer := None |}.

Definition confident_judge_response : Response :=
  Eval vm_compute in
    match process_query default_service confident_judge true with
    | Ok r => r
    | Raise _ =>
        {| sources := []; confidence := 0; judge_scores := [];
           web_search_triggered := false |}
    end.

(** A world in which the judge's answer has no [confidence]. *)
Definition silent_judge : Answers :=
  {| retrieved_docs := example_articles;
     predict := by_title;
     judged_retrieval := Some None;
     web_results := [];
     judged_answer := None |}.

(** What the judge says of the need for a web search, given the confidence
    [c] the pipeline reads: it compares [c] with its threshold, and asks
    for a search when its model failed. *)
Definition judge_asks (self : RAGService) (world : Answers) (c : Q) : bool :=
  match judged_retrieval world with
  | Some _ => Qltb c (judge_threshold self)
  | None => true
  end.

(** The documents the pipeline goes on with. *)
Definition selected (self : RAGService) (world : Answers)
    : result (list document) :=
  if enable_reranker self then
    rerank (top_k_rerank self) (predict world) (retrieved_docs world)
      (Some 5%Z)
  else Ok (map dummy_score (slice_to 5 (retrieved_docs world))).

(** The relevance the pipeline gives to documents whose scores are all the
    dummy 0.5. *)
Definition flat_relevance : Q := max2 0 (min2 1 ((0.5 - 0.5) / 1)).

End Pipeline.

(* ================================================================== *)
(** ** Reciprocal rank fusion *)
(* ================================================================== *)

Section SortedDesc.
Context {A : Type} (key : A -> Q).

Lemma Qltb_lt (x y : Q) : Qltb x y = true <-> x < y.
Proof.
  unfold Qltb. rewrite negb_true_iff.
  split; intro H.
  - apply Qnot_le_lt. intro Hle. apply Qle_bool_iff in Hle. congruence.
  - destruct (Qle_bool y x) eqn:E; [|reflexivity].
    apply Qle_bool_iff in E. exfalso. apply (Qlt_not_le _ _ H E).
Qed.

Lemma Qltb_ge (x y : Q) : Qltb x y = false <-> y <= x.
Proof.
  unfold Qltb. rewrite negb_false_iff. apply Qle_bool_iff.
Qed.

Lemma insert_desc_perm (x : A) (l : list A) :
  Permutation (insert_desc key x l) (x :: l).
Proof.
  induction l as [|y l IH]; simpl; [reflexivity|].
  destruct (Qltb (key x) (key y)); [|reflexivity].
  rewrite IH. apply perm_swap.
Qed.

Lemma sorted_desc_perm (l : list A) : Permutation (sorted_desc key l) l.
Proof.
  induction l as [|x l IH]; simpl; [reflexivity|].
  rewrite insert_desc_perm. now constructor.
Qed.

Lemma insert_desc_sorted (x : A) (l : list A) :
  StronglySorted (fun a b => key b <= key a) l ->
  StronglySorted (fun a b => key b <= key a) (insert_desc key x l).
Proof.
  induction 1 as [|y l Hs IH Hy]; simpl.
  - repeat constructor.
  - destruct (Qltb (key x) (key y)) eqn:E.
    + constructor; [exact IH|].
      apply (Permutation_Forall (Permutation_sym (insert_desc_perm x l))).
      constructor; [|exact Hy].
      apply Qltb_lt in E. apply Qlt_le_weak, E.
    + apply Qltb_ge in E.
      constructor; [constructor; assumption|].
      constructor; [exact E|].
      eapply Forall_impl; [|exact Hy].
      intros z Hz. simpl in *. eapply Qle_trans; eassumption.
Qed.

Lemma sorted_desc_sorted (l : list A) :
  StronglySorted (fun a b => key b <= key a) (sorted_desc key l).
Proof.
  induction l as [|x l IH]; simpl; [constructor|].
  now apply insert_desc_sorted.
Qed.

(** Stability: the items whose key equals [v] come out in the order in
    which they went in. *)
Lemma insert_desc_filter (v : Q) (x : A) (l : list A) :
  filter (fun a => Qeq_bool (key a) v) (insert_desc key x l)
  = filter (fun a => Qeq_bool (key a) v) (x :: l).
Proof.
  induction l as [|y l IH]; [reflexivity|].
  simpl insert_desc. destruct (Qltb (key x) (key y)) eqn:E; [|reflexivity].
  apply Qltb_lt in E.
  change (filter (fun a => Qeq_bool (key a) v) (y :: insert_desc key x l))
    with (if Qeq_bool (key y) v
          then y :: filter (fun a => Qeq_bool (key a) v) (insert_desc key x l)
          else filter (fun a => Qeq_bool (key a) v) (insert_desc key x l)).
  rewrite IH. simpl.
  destruct (Qeq_bool (key x) v) eqn:Ex, (Qeq_bool (key y) v) eqn:Ey;
    try reflexivity.
  apply Qeq_bool_iff in Ex, Ey. rewrite Ex, Ey in E.
  exfalso. exact (Qlt_irrefl _ E).
Qed.

Lemma sorted_desc_stable (v : Q) (l : list A) :
  filter (fun a => Qeq_bool (key a) v) (sorted_desc key l)
  = filter (fun a => Qeq_bool (key a) v) l.
Proof.
  induction l as [|x l IH]; [reflexivity|].
  simpl sorted_desc. rewrite insert_desc_filter. simpl. now rewrite IH.
Qed.

End SortedDesc.

Section Fusion.
Import HybridSearch Spec Rounding.

Lemma mem_In (d : doc_id) (ids : list doc_id) : mem d ids = true <-> In d ids.
Proof.
  unfold mem. rewrite existsb_exists. split.
  - intros (x & Hx & E). apply Z.eqb_eq in E. now subst.
  - intro H. exists d. split; [exact H | apply Z.eqb_refl].
Qed.

Lemma filter_filter {A} (p q : A -> bool) (l : list A) :
  filter p (filter q l) = filter (fun x => q x && p x) l.
Proof.
  induction l as [|x l IH]; [reflexivity|].
  simpl. destruct (q x); simpl; [destruct (p x)|]; now rewrite IH.
Qed.

Lemma first_seen_In (d : doc_id) (ids : list doc_id) :
  In d (first_seen ids) <-> In d ids.
Proof.
  induction ids as [|x ids IH]; simpl; [tauto|].
  rewrite filter_In, IH, negb_true_iff, Z.eqb_neq.
  destruct (Z.eq_dec x d); [subst; tauto|].
  split; [tauto|]. intros [E | H]; [congruence | right]. split; congruence.
Qed.

Lemma first_seen_NoDup (ids : list doc_id) : NoDup (first_seen ids).
Proof.
  induction ids as [|x ids IH]; simpl; constructor.
  - rewrite filter_In, Z.eqb_refl. simpl. intros [_ H]. discriminate.
  - now apply NoDup_filter.
Qed.

Lemma first_seen_app (l1 l2 : list doc_id) :
  first_seen (l1 ++ l2)
  = first_seen l1 ++ filter (fun x => negb (mem x l1)) (first_seen l2).
Proof.
  induction l1 as [|d l1 IH]; simpl.
  - symmetry. apply forallb_filter_id. now apply forallb_forall.
  - f_equal. rewrite IH, filter_app, filter_filter. f_equal.
    apply filter_ext. intro x. unfold mem. simpl.
    rewrite negb_orb. apply andb_comm.
Qed.

Lemma keys_dict_set (acc : scores_dict) (d : doc_id) (v : Q) :
  map fst (dict_set Z.eqb acc d v)
  = if mem d (map fst acc) then map fst acc else map fst acc ++ [d].
Proof.
  induction acc as [|[k' v'] acc IH]; [reflexivity|].
  unfold mem in *. simpl. rewrite (Z.eqb_sym d k').
  destruct (k' =? d)%Z; simpl; [reflexivity|].
  rewrite IH. now destruct (existsb (Z.eqb d) (map fst acc)).
Qed.

Lemma find_dict_set (acc : scores_dict) (d d' : doc_id) (v : Q) :
  dict_find Z.eqb (dict_set Z.eqb acc d v) d'
  = if (d =? d')%Z then Some v else dict_find Z.eqb acc d'.
Proof.
  induction acc as [|[k' v'] acc IH]; simpl.
  - reflexivity.
  - destruct (k' =? d)%Z eqn:E; simpl.
    + apply Z.eqb_eq in E. subst k'. now destruct (d =? d')%Z.
    + rewrite IH. destruct (k' =? d')%Z eqn:E'; [|reflexivity].
      apply Z.eqb_eq in E'. subst k'. now rewrite Z.eqb_sym, E.
Qed.

Lemma find_In (acc : scores_dict) (d : doc_id) (s : Q) :
  NoDup (map fst acc) -> In (d, s) acc -> dict_find Z.eqb acc d = Some s.
Proof.
  induction acc as [|[k' v'] acc IH]; simpl; [tauto|].
  intros Hnd [E | Hin].
  - inversion E; subst. now rewrite Z.eqb_refl.
  - inversion Hnd as [|? ? Hk Hnd']; subst.
    destruct (k' =? d)%Z eqn:E; [|now apply IH].
    apply Z.eqb_eq in E. subst k'. exfalso. apply Hk.
    change d with (fst (d, s)). now apply in_map.
Qed.

(** One scan: it cannot fail for [k >= 0], the keys are extended in
    first-seen order, and every document gains its rank sum. *)
Lemma add_scores_spec (k : Z) (results : list ranked) :
  (0 <= k)%Z ->
  forall (rank : Z) (acc : scores_dict) (hist : list doc_id),
    (0 < rank)%Z ->
    map fst acc = first_seen hist ->
    exists acc',
      add_scores k rank results acc = Ok acc'
      /\ map fst acc' = first_seen (hist ++ map fst results)
      /\ forall d, dict_get Z.eqb acc' d 0
                   == dict_get Z.eqb acc d 0 + rank_sum k rank results d.
Proof.
  intro Hk. induction results as [|[doc s] rest IH]; intros rank acc hist Hr Hkeys.
  - exists acc. simpl. rewrite app_nil_r. repeat split; auto.
    intro d. ring.
  - simpl. unfold int_div.
    destruct (k + rank =? 0)%Z eqn:E; [apply Z.eqb_eq in E; lia|]. simpl.
    set (acc1 := dict_set Z.eqb acc doc _).
    destruct (IH (rank + 1)%Z acc1 (hist ++ [doc])) as (acc' & Hrun & Hk' & Hv).
    + lia.
    + unfold acc1. rewrite keys_dict_set, Hkeys, first_seen_app. simpl.
      replace (mem doc (first_seen hist)) with (mem doc hist).
      * destruct (mem doc hist); simpl; [now rewrite app_nil_r | reflexivity].
      * apply eq_true_iff_eq. rewrite !mem_In. symmetry. apply first_seen_In.
    + exists acc'. split; [exact Hrun|]. split.
      * rewrite Hk', <- app_assoc. reflexivity.
      * intro d. rewrite Hv. unfold acc1, dict_get.
        rewrite find_dict_set.
        cbn [rank_sum].
        destruct (doc =? d)%Z eqn:Ed; [apply Z.eqb_eq in Ed; subst d|];
          change (inject_Z 1) with 1; ring.
Qed.

Lemma map_filter_agree {A B} (f : A -> B) (p : A -> bool) (q : B -> bool)
    (l : list A) :
  (forall x, In x l -> p x = q (f x)) ->
  map f (filter p l) = filter q (map f l).
Proof.
  induction l as [|x l IH]; intro H; [reflexivity|].
  simpl. rewrite <- (H x (or_introl eq_refl)).
  destruct (p x); simpl; rewrite IH; auto; intros; apply H; now right.
Qed.

Lemma Qeq_bool_agree (s t v : Q) : s == t -> Qeq_bool s v = Qeq_bool t v.
Proof.
  intro E. apply eq_true_iff_eq. rewrite !Qeq_bool_iff. now rewrite E.
Qed.

(** The members of [l] that pass [p], in the order of [l]. *)
Lemma filter_in_order (p : doc_id -> bool) (l : list doc_id) :
  in_order_of (filter p l) l.
Proof.
  unfold in_order_of. apply filter_ext_in. intros d Hd.
  apply eq_true_iff_eq. rewrite mem_In, filter_In. tauto.
Qed.

Lemma about_exact (scale exact computed : Q) :
  0 <= scale -> computed == exact -> about_scaled scale exact computed.
Proof.
  intros Hs E. unfold about_scaled.
  assert (E0 : computed - exact == 0) by (rewrite E; ring).
  rewrite E0. change (Qabs 0) with 0.
  apply Qmult_le_0_compat; [exact Hs | discriminate].
Qed.

Lemma scanned_nonneg (listA listB : list ranked) : 0 <= scanned listA listB.
Proof.
  unfold scanned. change 0 with (inject_Z 0). rewrite <- Zle_Qle. lia.
Qed.

(** The full account of the fusion for [k >= 0], on the rationals. *)
Lemma reciprocal_rank_fusion_spec (listA listB : list ranked) (k : Z) :
  (0 <= k)%Z ->
  exists out,
    reciprocal_rank_fusion listA listB k = Ok out
    /\ Permutation (map fst out) (first_seen (scan listA listB))
    /\ (forall d s, In (d, s) out -> s == rrf_total k listA listB d)
    /\ descending out
    /\ (forall v,
          map fst (filter (fun p => Qeq_bool (snd p) v) out)
          = filter (fun d => Qeq_bool (rrf_total k listA listB d) v)
              (first_seen (scan listA listB))).
Proof.
  intro Hk. unfold reciprocal_rank_fusion.
  destruct (add_scores_spec k listA Hk 1 [] []) as (acc1 & H1 & K1 & V1);
    [lia | reflexivity|].
  destruct (add_scores_spec k listB Hk 1 acc1 (map fst listA))
    as (acc2 & H2 & K2 & V2); [lia | exact K1|].
  rewrite H1. simpl. rewrite H2. simpl.
  assert (Kscan : map fst acc2 = first_seen (scan listA listB))
    by (unfold scan; now rewrite map_app).
  assert (Hnd : NoDup (map fst acc2))
    by (rewrite Kscan; apply first_seen_NoDup).
  assert (Hval : forall d s, In (d, s) acc2 -> s == rrf_total k listA listB d).
  { intros d s Hin. pose proof (find_In _ _ _ Hnd Hin) as Hf.
    pose proof (V2 d) as E2. pose proof (V1 d) as E1.
    unfold dict_get in E2 at 1. rewrite Hf in E2.
    rewrite E2, E1. unfold rrf_total, dict_get. simpl. ring. }
  eexists. split; [reflexivity|]. repeat split.
  - rewrite <- Kscan. apply Permutation_map, sorted_desc_perm.
  - intros d s Hin. apply Hval.
    eapply Permutation_in; [apply sorted_desc_perm | exact Hin].
  - apply (sorted_desc_sorted (A := doc_id * Q) snd).
  - intro v. rewrite sorted_desc_stable, <- Kscan.
    apply map_filter_agree. intros [d s] Hin. simpl.
    apply Qeq_bool_agree. now apply Hval.
Qed.

(** What the fusion returns for [k >= 0] is a fusion of the two lists. *)
Lemma reciprocal_rank_fusion_fuses (listA listB : list ranked) (k : Z) :
  (0 <= k)%Z ->
  exists out,
    reciprocal_rank_fusion listA listB k = Ok out
    /\ fusion_of k listA listB out.
Proof.
  intro Hk.
  destruct (reciprocal_rank_fusion_spec listA listB k Hk)
    as (out & Hout & Hperm & Hscore & Hsorted & Hties).
  exists out. split; [exact Hout|]. split; [exact Hperm|].
  split; [|split; [exact Hsorted|]].
  - intros d s Hin. apply about_exact; [apply scanned_nonneg|].
    now apply Hscore.
  - intro v. unfold scoring. rewrite Hties. apply filter_in_order.
Qed.

End Fusion.

Section FusionClaims.
Import HybridSearch Spec Rounding.

(** With a negative [k] the division [1 / (k + rank)] can be by zero. *)
Lemma rrf_negative_k_raises :
  reciprocal_rank_fusion [(7%Z, 1)] [] (-1) = Raise ZeroDivisionError.
Proof. reflexivity. Qed.



(** C3, as the specification words it: the score of document 4 would be
    [1/64].  Document 4 stands at rank 3 of list B, so the code gives it
    [1/63]. *)
Lemma rrf_example_as_claimed_fails :
  ~ fuses_to
      (reciprocal_rank_fusion (example_A 0.9 0.8 0.7) (example_B 5 4 3) 60)
      [1; 3; 2; 4]%Z
      [1 / 61 + 1 / 62; 1 / 63 + 1 / 61; 1 / 62; 1 / 64].
Proof.
  intros (out & Hout & _ & Hscores).
  vm_compute in Hout. injection Hout as <-.
  simpl in Hscores.
  repeat match goal with
         | H : Forall2 _ (_ :: _) (_ :: _) |- _ =>
             inversion H; clear H; subst
         end.
  match goal with
  | H : (1 # 63) == _ |- _ => vm_compute in H; discriminate H
  end.
Qed.

(** C3 (amended). For list A holding documents 1,2,3 at ranks 1,2,3 and list
    B holding documents 3,1,4 at ranks 1,2,3, with [k = 60], the fusion
    yields the order 1,3,2,4 with [score(1) = 1/61 + 1/62],
    [score(3) = 1/63 + 1/61], [score(2) = 1/62] and [score(4) = 1/63]. *)
Theorem rrf_example (a1 a2 a3 b1 b2 b3 : Q) :
  fuses_to
    (reciprocal_rank_fusion (example_A a1 a2 a3) (example_B b1 b2 b3) 60)
    [1; 3; 2; 4]%Z
    [1 / 61 + 1 / 62; 1 / 63 + 1 / 61; 1 / 62; 1 / 63].
Proof.
  eexists. split; [vm_compute; reflexivity|].
  split; [reflexivity|].
  simpl. repeat constructor; reflexivity.
Qed.

End FusionClaims.

(* ================================================================== *)
(** ** The configuration store *)
(* ================================================================== *)

Section ConfigStore.
Import RL Spec.

(** [update] replaces the given top-level keys, stamps the dictionary,
    and writes it; it cannot fail. *)
Lemma update_eq (items : list config_item) (st : State) :
  update items st
  = (Ok tt,
     {| default_config := default_config st;
        config := saved (dict_update (config st) items) (clock st);
        disk :=
          Some (Json (config_items
                        (saved (dict_update (config st) items) (clock st))));
        writes := S (writes st);
        clock := S (clock st) |}).
Proof. reflexivity. Qed.

Lemma saved_version (c : Config) (now : time) :
  version (saved c now) = (version c + 1)%Z.
Proof. reflexivity. Qed.

(** C10. On a first start, with no configuration file, the defaults are
    written through [_save_config], which increments [version] in the
    default dictionary itself before writing: the file, the in-memory
    configuration and the default dictionary all hold version 2, while the
    default was built with version 1. *)
Theorem first_start_has_version_2 (now : time) :
  let st := started None now in
  version (default_config_at now) = 1%Z
  /\ version (config st) = 2%Z
  /\ version (default_config st) = 2%Z
  /\ disk st = Some (Json (config_items (config st)))
  /\ In (version_is 2) (config_items (config st))
  /\ writes st = 1%nat.
Proof.
  cbv zeta. repeat split. simpl. now left.
Qed.

(** C6. Whatever the configuration and the value [X], two successive calls
    of [update] with [{"web_search": X}] succeed, leave [web_search] equal
    to [X] and [version] larger by exactly 2 (by 1 after the first call). *)
Theorem update_twice (X : WebSearch) (st : State) :
  let r1 := update [web_search_is X] st in
  let r2 := update [web_search_is X] (snd r1) in
  fst r1 = Ok tt /\ fst r2 = Ok tt
  /\ web_search (config (snd r1)) = X
  /\ version (config (snd r1)) = (version (config st) + 1)%Z
  /\ web_search (config (snd r2)) = X
  /\ version (config (snd r2)) = (version (config st) + 2)%Z.
Proof.
  cbv zeta. rewrite !update_eq. simpl. repeat split; lia.
Qed.

End ConfigStore.

(* ================================================================== *)
(** ** Confidence *)
(* ================================================================== *)

Section Confidence.
Import RL Spec.

Lemma max2_lower (a b : Q) : a <= max2 a b.
Proof.
  unfold max2. destruct (Qltb a b) eqn:E.
  - apply Qltb_lt in E. now apply Qlt_le_weak.
  - apply Qle_refl.
Qed.

Lemma max2_upper (a b c : Q) : a <= c -> b <= c -> max2 a b <= c.
Proof. unfold max2. now destruct (Qltb a b). Qed.

Lemma max2_ge_r (a b : Q) : b <= max2 a b.
Proof.
  unfold max2. destruct (Qltb a b) eqn:E.
  - apply Qle_refl.
  - now apply Qltb_ge in E.
Qed.

Lemma min2_upper (a b : Q) : min2 a b <= a.
Proof.
  unfold min2. destruct (Qltb b a) eqn:E.
  - apply Qltb_lt in E. now apply Qlt_le_weak.
  - apply Qle_refl.
Qed.

Lemma min2_lower (a b c : Q) : c <= a -> c <= b -> c <= min2 a b.
Proof. unfold min2. now destruct (Qltb b a). Qed.

Lemma min2_le_r (a b : Q) : min2 a b <= b.
Proof.
  unfold min2. destruct (Qltb b a) eqn:E.
  - apply Qle_refl.
  - now apply Qltb_ge in E.
Qed.

(** The final clamp bounds the confidence for any scores and weights. *)
Lemma calculate_weighted_confidence_clamped (st : State) (r a : Q) :
  0 <= calculate_weighted_confidence st r a <= 1.
Proof.
  unfold calculate_weighted_confidence. split.
  - apply max2_lower.
  - apply max2_upper; [lra | apply min2_upper].
Qed.

(** C7. For retrieval and answer scores in [0,10], and whatever weights the
    configuration holds, the weighted confidence lies in [0,1]. *)
Theorem confidence_bounded (st : State) (retrievalScore answerScore : Q) :
  0 <= retrievalScore <= 10 ->
  0 <= answerScore <= 10 ->
  0 <= calculate_weighted_confidence st retrievalScore answerScore <= 1.
Proof.
  intros _ _. apply calculate_weighted_confidence_clamped.
Qed.

Lemma confidence_bounded_witness :
  (0 <= 7 <= 10) /\ (0 <= 8 <= 10)
  /\ 0 <= calculate_weighted_confidence (started None 0%nat) 7 8 <= 1.
Proof.
  split; [lra|]. split; [lra|].
  apply (confidence_bounded (started None 0%nat) 7 8); lra.
Defined.

End Confidence.


(* ================================================================== *)
(** ** The trend query *)
(* ================================================================== *)

Section Trend.
Import RL Spec More Rounding.

Lemma slice_from_neg {A} (c : Z) (l : list A) :
  (0 < c)%Z -> slice_from (- c) l = last_n (Z.to_nat c) l.
Proof.
  intro Hc. unfold slice_from, last_n.
  destruct (- c <? 0)%Z eqn:E; [|apply Z.ltb_ge in E; lia].
  f_equal. lia.
Qed.

Lemma slice_to_nonneg {A} (c : nat) (l : list A) :
  slice_to (Z.of_nat c) l = firstn c l.
Proof.
  unfold slice_to.
  destruct (Z.of_nat c <? 0)%Z eqn:E; [apply Z.ltb_lt in E; lia|].
  now rewrite Nat2Z.id.
Qed.

Lemma half_of_nat (n : nat) : (Z.of_nat n / 2)%Z = Z.of_nat (n / 2).
Proof. now rewrite Nat2Z.inj_div. Qed.

Lemma np_mean_nonempty (l : list Q) : l <> [] -> np_mean l = Fin (mean l).
Proof. destruct l; [congruence | reflexivity]. Qed.

Lemma half_le (n : nat) : (n / 2 <= n)%nat.
Proof. apply Nat.Div0.div_le_upper_bound. lia. Qed.

Lemma half_pos (n : nat) : (2 <= n)%nat -> (1 <= n / 2)%nat.
Proof. intro H. apply Nat.div_le_lower_bound; lia. Qed.

(** The window the code calls [recent]. *)
Lemma recent_window {A} (l : list A) :
  (if (5 <=? Z.of_nat (length l))%Z then slice_from (-5) l
   else slice_from ((- Z.of_nat (length l)) / 2) l)
  = last_n (recent_count (length l)) l.
Proof.
  unfold recent_count.
  destruct (5 <=? Z.of_nat (length l))%Z eqn:E.
  - apply Z.leb_le in E.
    destruct (5 <=? length l)%nat eqn:E'; [|apply Nat.leb_gt in E'; lia].
    apply (slice_from_neg 5). lia.
  - apply Z.leb_gt in E.
    destruct (5 <=? length l)%nat eqn:E'; [apply Nat.leb_le in E'; lia|].
    unfold slice_from, last_n.
    pose proof (half_le (length l)) as Hh.
    pose proof (half_of_nat (length l)) as Hz.
    assert (Hdiv : ((- Z.of_nat (length l)) / 2
                    = Z.of_nat (length l / 2) - Z.of_nat (length l))%Z).
    { rewrite <- Hz. Z.to_euclidean_division_equations. lia. }
    rewrite Hdiv. clear Hdiv Hz.
    pose proof (Nat.Div0.mul_div_le (length l) 2) as Hh2.
    generalize dependent (length l / 2)%nat. intros h Hh Hh2.
    destruct (Z.of_nat h - Z.of_nat (length l) <? 0)%Z eqn:En.
    + f_equal. lia.
    + apply Z.ltb_ge in En. f_equal. lia.
Qed.

(** The window the code calls [older]. *)
Lemma older_window {A} (l : list A) :
  (if (10 <=? Z.of_nat (length l))%Z then slice_to 5 l
   else slice_to (Z.of_nat (length l) / 2) l)
  = firstn (older_count (length l)) l.
Proof.
  unfold older_count.
  destruct (10 <=? Z.of_nat (length l))%Z eqn:E.
  - apply Z.leb_le in E.
    destruct (10 <=? length l)%nat eqn:E'; [|apply Nat.leb_gt in E'; lia].
    apply (slice_to_nonneg 5).
  - apply Z.leb_gt in E.
    destruct (10 <=? length l)%nat eqn:E'; [apply Nat.leb_le in E'; lia|].
    rewrite half_of_nat. apply slice_to_nonneg.
Qed.

Lemma recent_count_bounds (n : nat) :
  (2 <= n)%nat -> (1 <= recent_count n <= n)%nat.
Proof.
  intro H. unfold recent_count. pose proof (half_le n). pose proof (half_pos n H).
  pose proof (Nat.Div0.mul_div_le n 2).
  destruct (5 <=? n)%nat eqn:E; [apply Nat.leb_le in E|];
    generalize dependent (n / 2)%nat; intros; lia.
Qed.

Lemma older_count_bounds (n : nat) :
  (2 <= n)%nat -> (1 <= older_count n <= n)%nat.
Proof.
  intro H. unfold older_count. pose proof (half_le n). pose proof (half_pos n H).
  destruct (10 <=? n)%nat eqn:E; [apply Nat.leb_le in E|];
    generalize dependent (n / 2)%nat; intros; lia.
Qed.

Lemma last_n_length {A} (c : nat) (l : list A) :
  (c <= length l)%nat -> length (last_n c l) = c.
Proof. intro H. unfold last_n. rewrite length_skipn. lia. Qed.

Lemma map_nonempty {A B} (f : A -> B) (l : list A) :
  (1 <= length l)%nat -> map f l <> [].
Proof. destruct l; simpl; [lia | discriminate]. Qed.

Lemma label_of_cases (improvement : Q) :
  (0.02 < improvement -> label_of improvement = improving)
  /\ (-0.02 < improvement <= 0.02 -> label_of improvement = stable)
  /\ (improvement <= -0.02 -> label_of improvement = declining).
Proof.
  unfold label_of.
  destruct (Qltb 0.02 improvement) eqn:E1;
    [apply Qltb_lt in E1 | apply Qltb_ge in E1];
    (destruct (Qltb (-0.02) improvement) eqn:E2;
     [apply Qltb_lt in E2 | apply Qltb_ge in E2]);
    repeat split; intros; try reflexivity; exfalso; lra.
Qed.

(** C5, as the specification words it, against the code.  With the rates
    1, 1, 0, 1, 1 the code takes all five snapshots as [recent] (mean 4/5)
    and the first two as [older] (mean 1), and answers [declining]; the
    claimed windows are the last two and the first two, which gives
    [stable].  With the rates 0.02, 0 the improvement is [0 - 0.02], exactly
    -0.02 also on floats, which the code labels [declining] and the claim
    [stable]. *)
Lemma trend_as_claimed_fails :
  trend_of (get_performance_trend
              (with_history (started None 0%nat) (snapshots [1; 1; 0; 1; 1])))
    = Some declining
  /\ trend_of (claimed_trend (snapshots [1; 1; 0; 1; 1])) = Some stable
  /\ trend_of (get_performance_trend
                 (with_history (started None 0%nat) (snapshots [0.02; 0])))
       = Some declining
  /\ trend_of (claimed_trend (snapshots [0.02; 0])) = Some stable.
Proof. repeat split; vm_compute; reflexivity. Qed.

(** C5 (amended). For a history of [n >= 2] snapshots with rates in [0, 1]
    the trend query takes as [recent] the last 5 snapshots when [n >= 5] and
    the last [n - n/2] otherwise, as [older] the first 5 when [n >= 10] and
    the first [n/2] otherwise; it returns the mean positive rate of each
    window and, as [improvement], that of [recent] minus that of [older],
    each up to rounding; the trend is [improving] when the improvement it
    returns is above 0.02, [stable] when that is above -0.02 and at most
    0.02, and [declining] when it is at most -0.02. *)
Theorem trend_windows_and_label (st : State) :
  let history := performance_history (config st) in
  let n := length history in
  (2 <= n)%nat ->
  rates_within 0 1 history ->
  let recent := last_n (if (5 <=? n)%nat then 5 else n - n / 2) history in
  let older := firstn (if (10 <=? n)%nat then 5 else n / 2) history in
  exists recent_rate older_rate improvement,
    get_performance_trend st
    = trend_success (Fin recent_rate) (Fin older_rate) (Fin improvement)
        (label_of improvement) n
    /\ about (mean (map positive_rate recent)) recent_rate
    /\ about (mean (map positive_rate older)) older_rate
    /\ about (recent_rate - older_rate) improvement
    /\ (0.02 < improvement ->
        trend_of (get_performance_trend st) = Some improving)
    /\ (-0.02 < improvement <= 0.02 ->
        trend_of (get_performance_trend st) = Some stable)
    /\ (improvement <= -0.02 ->
        trend_of (get_performance_trend st) = Some declining).
Proof.
  intros history n Hn _ recent older.
  set (improvement :=
         mean (map positive_rate recent) - mean (map positive_rate older)).
  assert (E : get_performance_trend st
              = trend_success (Fin (mean (map positive_rate recent)))
                  (Fin (mean (map positive_rate older))) (Fin improvement)
                  (label_of improvement) n).
  { unfold get_performance_trend. cbv zeta. fold history.
    destruct (Z.of_nat (length history) <? 2)%Z eqn:E2;
      [apply Z.ltb_lt in E2; fold n in E2; lia|].
    rewrite recent_window, older_window. fold n.
    change (last_n (recent_count n) history) with recent.
    change (firstn (older_count n) history) with older.
    pose proof (recent_count_bounds n Hn) as Hr.
    pose proof (older_count_bounds n Hn) as Ho.
    rewrite (np_mean_nonempty (map positive_rate recent)).
    2:{ apply map_nonempty. unfold recent.
        change (if (5 <=? n)%nat then 5%nat else (n - n / 2)%nat)
          with (recent_count n).
        rewrite last_n_length; lia. }
    rewrite (np_mean_nonempty (map positive_rate older)).
    2:{ apply map_nonempty. unfold older.
        change (if (10 <=? n)%nat then 5%nat else (n / 2)%nat)
          with (older_count n).
        rewrite length_firstn. fold n. lia. }
    reflexivity. }
  assert (Hsame : forall x, about x x)
    by (intro x; apply about_exact; [discriminate | reflexivity]).
  exists (mean (map positive_rate recent)), (mean (map positive_rate older)),
    improvement.
  split; [exact E|]. split; [apply Hsame|]. split; [apply Hsame|].
  split; [apply Hsame|].
  rewrite E. cbn [trend_of].
  destruct (label_of_cases improvement) as (H1 & H2 & H3).
  repeat split; intro H; f_equal; auto.
Qed.

Lemma trend_windows_and_label_witness :
  let st := with_history (started None 0%nat) (snapshots [1; 1; 0; 1; 1]) in
  let history := performance_history (config st) in
  (2 <= length history)%nat
  /\ rates_within 0 1 history
  /\ exists recent_rate older_rate improvement,
       get_performance_trend st
       = trend_success (Fin recent_rate) (Fin older_rate) (Fin improvement)
           (label_of improvement) (length history)
       /\ about (mean (map positive_rate (last_n 5 history))) recent_rate
       /\ about (mean (map positive_rate (firstn 2 history))) older_rate
       /\ about (recent_rate - older_rate) improvement
       /\ (0.02 < improvement ->
           trend_of (get_performance_trend st) = Some improving)
       /\ (-0.02 < improvement <= 0.02 ->
           trend_of (get_performance_trend st) = Some stable)
       /\ (improvement <= -0.02 ->
           trend_of (get_performance_trend st) = Some declining).
Proof.
  cbv zeta.
  assert (H1 : (2 <= length
                       (performance_history
                          (config (with_history (started None 0%nat)
                                     (snapshots [1; 1; 0; 1; 1]%Q)))))%nat)
    by (simpl; lia).
  assert (H2 : rates_within 0 1
                 (performance_history
                    (config (with_history (started None 0%nat)
                               (snapshots [1; 1; 0; 1; 1])))))
    by (repeat constructor; vm_compute; discriminate).
  split; [exact H1|]. split; [exact H2|].
  exact (trend_windows_and_label
           (with_history (started None 0%nat) (snapshots [1; 1; 0; 1; 1]))
           H1 H2).
Defined.

End Trend.


(* ================================================================== *)
(** ** The optimizer: what a run leaves alone *)
(* ================================================================== *)

Section MonadLaws.
Import RL Spec.
Context {A C : Type}.

Lemma bind_ret (a : A) (k : A -> M C) (st : State) :
  bind (ret a) k st = k a st.
Proof. reflexivity. Qed.

Lemma bind_lift_ok (a : A) (k : A -> M C) (st : State) :
  bind (lift (Ok a)) k st = k a st.
Proof. reflexivity. Qed.

Lemma bind_lift_raise (e : exn) (k : A -> M C) (st : State) :
  bind (lift (Raise e)) k st = (Raise e, st).
Proof. reflexivity. Qed.

Lemma bind_gets (f : State -> A) (k : A -> M C) (st : State) :
  bind (gets f) k st = k (f st) st.
Proof. reflexivity. Qed.

Lemma bind_update (items : list config_item) (k : unit -> M C) (st : State) :
  bind (update items) k st = k tt (snd (update items st)).
Proof. reflexivity. Qed.

Lemma bind_datetime_now (k : time -> M C) (st : State) :
  bind datetime_now k st = k (clock st) (tick st).
Proof. reflexivity. Qed.

End MonadLaws.

Ltac mstep :=
  rewrite ?bind_lift_ok, ?bind_lift_raise, ?bind_gets, ?bind_ret.

Section Frame.
Import RL Spec.
Context {B : Type} (f : Config -> B).

Lemma keeps_ret {A} (a : A) : keeps f (ret a).
Proof. intro st. reflexivity. Qed.

Lemma keeps_lift {A} (r : result A) : keeps f (lift r).
Proof. intro st. reflexivity. Qed.

Lemma keeps_gets {A} (g : State -> A) : keeps f (gets g).
Proof. intro st. reflexivity. Qed.

Lemma keeps_datetime_now : keeps f datetime_now.
Proof. intro st. reflexivity. Qed.

Lemma keeps_bind {A C} (m : M A) (k : A -> M C) :
  keeps f m -> (forall a, keeps f (k a)) -> keeps f (bind m k).
Proof.
  intros Hm Hk st. unfold bind. specialize (Hm st).
  destruct (m st) as [[a | e] st1]; simpl in *.
  - now rewrite Hk.
  - exact Hm.
Qed.

(** The tail of a sequence that keeps [f] does not show in [f]. *)
Lemma keeps_tail {A C} (m : M A) (k : A -> M C) (st : State) :
  (forall a, keeps f (k a)) ->
  f (config (snd (bind m k st))) = f (config (snd (m st))).
Proof.
  intros Hk. unfold bind.
  destruct (m st) as [[a | e] st1]; simpl; [apply Hk | reflexivity].
Qed.

Lemma keeps_update (items : list config_item) :
  (forall c now, f (saved (dict_update c items) now) = f c) ->
  keeps f (update items).
Proof. intros H st. rewrite update_eq. simpl. apply H. Qed.

Lemma keeps_append_history (e : PerformanceEntry) :
  (forall c h, f (set_item c (performance_history_is h)) = f c) ->
  keeps f (append_history e).
Proof. intros H st. simpl. apply H. Qed.

End Frame.

Ltac frame_step :=
  first
    [ apply keeps_ret | apply keeps_lift | apply keeps_gets
    | apply keeps_datetime_now
    | apply keeps_update; intros; reflexivity
    | apply keeps_append_history; intros; reflexivity
    | apply keeps_bind; [|intro]
    | match goal with
      | |- Spec.keeps _ (if ?b then _ else _) => destruct b
      | |- Spec.keeps _ (match ?x with _ => _ end) => destruct x
      end ].

Ltac frame := repeat frame_step.

Section FrameOfAnalyses.
Import RL Spec.

(** The web-search analysis changes nothing but [web_search] (and the
    stamps [version] and [last_updated]). *)
Lemma web_analysis_keeps_learning_rate batch :
  keeps learning_rate (_analyze_web_search_performance batch).
Proof. unfold _analyze_web_search_performance. frame. Qed.

Lemma web_analysis_keeps_min_samples batch :
  keeps min_samples (_analyze_web_search_performance batch).
Proof. unfold _analyze_web_search_performance. frame. Qed.

Lemma web_analysis_keeps_history batch :
  keeps performance_history (_analyze_web_search_performance batch).
Proof. unfold _analyze_web_search_performance. frame. Qed.

Lemma web_analysis_keeps_confidence_weights batch :
  keeps confidence_weights (_analyze_web_search_performance batch).
Proof. unfold _analyze_web_search_performance. frame. Qed.

Lemma web_analysis_keeps_judge_weights batch :
  keeps judge_weights (_analyze_web_search_performance batch).
Proof. unfold _analyze_web_search_performance. frame. Qed.

(** The other two analyses and the recording leave [web_search],
    [learning_rate] and [min_samples] alone. *)
Lemma calibration_keeps_web_search batch :
  keeps web_search (_analyze_confidence_calibration batch).
Proof. unfold _analyze_confidence_calibration. frame. Qed.

Lemma calibration_keeps_learning_rate batch :
  keeps learning_rate (_analyze_confidence_calibration batch).
Proof. unfold _analyze_confidence_calibration. frame. Qed.

Lemma calibration_keeps_min_samples batch :
  keeps min_samples (_analyze_confidence_calibration batch).
Proof. unfold _analyze_confidence_calibration. frame. Qed.

Lemma calibration_keeps_history batch :
  keeps performance_history (_analyze_confidence_calibration batch).
Proof. unfold _analyze_confidence_calibration. frame. Qed.

Lemma calibration_keeps_judge_weights batch :
  keeps judge_weights (_analyze_confidence_calibration batch).
Proof. unfold _analyze_confidence_calibration. frame. Qed.

Lemma judge_analysis_keeps_web_search batch :
  keeps web_search (_analyze_judge_correlation batch).
Proof. unfold _analyze_judge_correlation. frame. Qed.

Lemma judge_analysis_keeps_learning_rate batch :
  keeps learning_rate (_analyze_judge_correlation batch).
Proof. unfold _analyze_judge_correlation. frame. Qed.

Lemma judge_analysis_keeps_min_samples batch :
  keeps min_samples (_analyze_judge_correlation batch).
Proof. unfold _analyze_judge_correlation. frame. Qed.

Lemma judge_analysis_keeps_history batch :
  keeps performance_history (_analyze_judge_correlation batch).
Proof. unfold _analyze_judge_correlation. frame. Qed.

Lemma record_keeps_web_search batch :
  keeps web_search (_record_performance batch).
Proof. unfold _record_performance. frame. Qed.

Lemma record_keeps_learning_rate batch :
  keeps learning_rate (_record_performance batch).
Proof. unfold _record_performance. frame. Qed.

Lemma record_keeps_min_samples batch :
  keeps min_samples (_record_performance batch).
Proof. unfold _record_performance. frame. Qed.

Lemma record_keeps_confidence_weights batch :
  keeps confidence_weights (_record_performance batch).
Proof. unfold _record_performance. frame. Qed.

Lemma record_keeps_judge_weights batch :
  keeps judge_weights (_record_performance batch).
Proof. unfold _record_performance. frame. Qed.

Lemma run_keeps_learning_rate batch :
  keeps learning_rate (update_from_feedback batch).
Proof.
  unfold update_from_feedback. frame.
  - apply web_analysis_keeps_learning_rate.
  - apply calibration_keeps_learning_rate.
  - apply judge_analysis_keeps_learning_rate.
  - apply record_keeps_learning_rate.
Qed.

Lemma run_keeps_min_samples batch :
  keeps min_samples (update_from_feedback batch).
Proof.
  unfold update_from_feedback. frame.
  - apply web_analysis_keeps_min_samples.
  - apply calibration_keeps_min_samples.
  - apply judge_analysis_keeps_min_samples.
  - apply record_keeps_min_samples.
Qed.

End FrameOfAnalyses.


(* ================================================================== *)
(** ** The optimizer: the web-search threshold *)
(* ================================================================== *)

Section Threshold.
Import RL Spec Rounding.

Lemma int_div_ok (a b : Z) :
  (b <> 0)%Z -> int_div a b = Ok (inject_Z a / inject_Z b).
Proof.
  intro H. unfold int_div.
  destruct (b =? 0)%Z eqn:E; [apply Z.eqb_eq in E; contradiction | reflexivity].
Qed.

Lemma count_positive_ok (l : list Feedback) :
  forallb has_feedback_type l = true ->
  count_positive l = Ok (len (filter is_positive l)).
Proof.
  induction l as [|x l IH]; [reflexivity|].
  simpl. unfold has_feedback_type at 1, item_feedback_type, is_positive at 1.
  destruct (feedback_type x) as [t|]; [|discriminate].
  simpl. intro H. rewrite (IH H). simpl.
  destruct (String.eqb t "positive"); unfold len; simpl length; f_equal; lia.
Qed.

Lemma count_positive_raise (l : list Feedback) :
  forallb has_feedback_type l = false ->
  count_positive l = Raise (KeyError "feedback_type").
Proof.
  induction l as [|x l IH]; [discriminate|].
  simpl. unfold has_feedback_type at 1, item_feedback_type.
  destruct (feedback_type x) as [t|]; [|reflexivity].
  simpl. intro H. now rewrite (IH H).
Qed.

Lemma forallb_partition {A} (p q : A -> bool) (l : list A) :
  forallb p l
  = forallb p (filter q l) && forallb p (filter (fun x => negb (q x)) l).
Proof.
  induction l as [|x l IH]; [reflexivity|].
  simpl. rewrite IH. destruct (q x); simpl;
    destruct (p x); simpl; try reflexivity.
  now rewrite andb_false_r.
Qed.

(** The three ways the web-search analysis can go. *)
Lemma web_analysis_eq (batch : list Feedback) (st : State) :
  _analyze_web_search_performance batch st
  = if ((len (web_part batch) <? 3) || (len (internal_part batch) <? 3))%Z
    then (Ok None, st)
    else if forallb has_feedback_type batch then
      let current := threshold st in
      let rate := learning_rate (config st) in
      let web := web_rate batch in
      let internal := internal_rate batch in
      let moved new :=
        (Ok (Some (threshold_adjustment current new)),
         snd (update
                [web_search_is
                   (with_confidence_threshold (web_search (config st)) new)]
                st)) in
      if Qltb (internal + 0.15) web then
        moved (max2 0.5 (current - (web - internal) * rate))
      else if Qltb (web + 0.15) internal then
        moved (min2 0.9 (current + (internal - web) * rate))
      else (Ok None, st)
    else (Raise (KeyError "feedback_type"), st).
Proof.
  unfold _analyze_web_search_performance.
  change (filter (fun f => truthy (web_search_triggered f)) batch)
    with (web_part batch).
  change (filter (fun f => negb (truthy (web_search_triggered f))) batch)
    with (internal_part batch).
  destruct ((len (web_part batch) <? 3) || (len (internal_part batch) <? 3))%Z
    eqn:Esize; [reflexivity|].
  apply orb_false_elim in Esize. destruct Esize as [Ew Ei].
  apply Z.ltb_ge in Ew, Ei.
  rewrite (forallb_partition has_feedback_type used_web batch).
  fold (web_part batch). fold (internal_part batch).
  unfold bind at 1. unfold lift at 1.
  destruct (forallb has_feedback_type (web_part batch)) eqn:Tw.
  2:{ rewrite (count_positive_raise _ Tw). reflexivity. }
  rewrite (count_positive_ok _ Tw). simpl andb.
  unfold bind at 1. unfold lift at 1. rewrite int_div_ok by lia.
  unfold bind at 1. unfold lift at 1.
  destruct (forallb has_feedback_type (internal_part batch)) eqn:Ti.
  2:{ rewrite (count_positive_raise _ Ti). reflexivity. }
  rewrite (count_positive_ok _ Ti).
  unfold bind at 1. unfold lift at 1. rewrite int_div_ok by lia.
  unfold bind at 1. unfold gets at 1.
  cbv zeta.
  change (inject_Z (len (filter is_positive (web_part batch)))
          / inject_Z (len (web_part batch))) with (web_rate batch).
  change (inject_Z (len (filter is_positive (internal_part batch)))
          / inject_Z (len (internal_part batch))) with (internal_rate batch).
  change (get_or (confidence_threshold (web_search (config st))) 0.7)
    with (threshold st).
  destruct (Qltb (internal_rate batch + 0.15) (web_rate batch));
    [rewrite update_eq; reflexivity|].
  destruct (Qltb (web_rate batch + 0.15) (internal_rate batch));
    [rewrite update_eq; reflexivity | reflexivity].
Qed.

(** The threshold after the web-search analysis. *)
Lemma web_analysis_threshold (batch : list Feedback) (st : State) :
  threshold (snd (_analyze_web_search_performance batch st))
  = if ((3 <=? len (web_part batch)) && (3 <=? len (internal_part batch)))%Z
       && forallb has_feedback_type batch
    then threshold_rule (threshold st) (learning_rate (config st))
           (web_rate batch) (internal_rate batch)
    else threshold st.
Proof.
  rewrite web_analysis_eq.
  destruct (len (web_part batch) <? 3)%Z eqn:Ew;
    [rewrite Z.leb_antisym, Ew; reflexivity|].
  destruct (len (internal_part batch) <? 3)%Z eqn:Ei;
    [rewrite (Z.leb_antisym (len (internal_part batch))), Ei, andb_false_r;
     reflexivity|].
  rewrite !Z.leb_antisym, Ew, Ei. cbn [negb andb orb].
  destruct (forallb has_feedback_type batch); [|reflexivity].
  cbv zeta. unfold threshold_rule.
  destruct (Qltb (internal_rate batch + 0.15) (web_rate batch));
    [rewrite update_eq; reflexivity|].
  destruct (Qltb (web_rate batch + 0.15) (internal_rate batch));
    [rewrite update_eq; reflexivity | reflexivity].
Qed.

Lemma rest_keeps_web_search (batch : list Feedback) (now : time)
    (a : option adjustment) :
  keeps web_search
    (bind (_analyze_confidence_calibration batch) (fun a2 =>
     bind (_analyze_judge_correlation batch) (fun a3 =>
     bind (_record_performance batch) (fun _ =>
     ret (adjustments now ((as_change a ++ as_change a2) ++ as_change a3)))))).
Proof.
  frame.
  - apply calibration_keeps_web_search.
  - apply judge_analysis_keeps_web_search.
  - apply record_keeps_web_search.
Qed.

(** The threshold after a whole run: only the web-search analysis moves
    it. *)
Lemma run_threshold (batch : list Feedback) (st : State) :
  threshold (snd (update_from_feedback batch st))
  = if web_analysis_compares (min_samples (config st)) batch
    then threshold_rule (threshold st) (learning_rate (config st))
           (web_rate batch) (internal_rate batch)
    else threshold st.
Proof.
  unfold update_from_feedback, web_analysis_compares.
  unfold bind at 1. unfold gets at 1.
  rewrite (Z.leb_antisym (len batch)).
  destruct (len batch <? min_samples (config st))%Z; [reflexivity|].
  cbn [negb andb].
  unfold bind at 1.
  change (datetime_now st) with (Ok (clock st), tick st).
  cbv iota beta.
  unfold threshold at 1.
  rewrite (keeps_tail web_search _ _ (tick st)
             (rest_keeps_web_search batch (clock st))).
  apply (web_analysis_threshold batch (tick st)).
Qed.

Lemma threshold_rule_bounds (current rate web internal : Q) :
  0.5 <= current <= 0.9 -> 0 <= rate ->
  0.5 <= threshold_rule current rate web internal <= 0.9.
Proof.
  intros [Hlo Hhi] Hrate. unfold threshold_rule.
  destruct (Qltb (internal + 0.15) web) eqn:E1.
  - apply Qltb_lt in E1.
    assert (0 <= (web - internal) * rate)
      by (apply Qmult_le_0_compat; lra).
    split; [apply max2_lower | apply max2_upper; lra].
  - destruct (Qltb (web + 0.15) internal) eqn:E2; [|split; assumption].
    apply Qltb_lt in E2.
    assert (0 <= (internal - web) * rate)
      by (apply Qmult_le_0_compat; lra).
    split; [apply min2_lower; lra | apply min2_upper].
Qed.

Lemma started_settled (now : time) : settled (started None now).
Proof. repeat split; vm_compute; discriminate. Qed.

Lemma run_settled (batch : list Feedback) (st : State) :
  settled st -> settled (snd (update_from_feedback batch st)).
Proof.
  intros (Ht & Hr & Hm). repeat split.
  - rewrite run_threshold.
    destruct (web_analysis_compares _ batch); [|apply Ht].
    apply threshold_rule_bounds; [exact Ht | rewrite Hr; lra].
  - rewrite run_threshold.
    destruct (web_analysis_compares _ batch); [|apply Ht].
    apply threshold_rule_bounds; [exact Ht | rewrite Hr; lra].
  - rewrite run_keeps_learning_rate. exact Hr.
  - rewrite run_keeps_min_samples. exact Hm.
Qed.

Lemma run_all_settled (batches : list (list Feedback)) (st : State) :
  settled st -> settled (run_all batches st).
Proof.
  revert st. induction batches as [|batch batches IH]; intros st H.
  - exact H.
  - simpl. apply IH, run_settled, H.
Qed.

(** C1. Start from the default configuration and run the optimizer on any
    series of batches.  The threshold is within [0.5, 0.9] after every run.
    A further run on [batch] either leaves it as it was, or finds
    [web_rate > internal_rate + 0.15] and lowers it to
    [max(0.5, current - (web_rate - internal_rate) * learning_rate)], or
    finds [internal_rate > web_rate + 0.15] and raises it to
    [min(0.9, current + (internal_rate - web_rate) * learning_rate)], the
    learning rate being 0.1; the sums and products are as the floats give
    them, so the new value and the two comparisons are stated up to
    rounding.  The run leaves the threshold alone when the web-search
    analysis does not get to compare the two rates, and when they differ by
    clearly less than 0.15; it lowers it when [web_rate] clearly exceeds
    [internal_rate + 0.15], and raises it in the mirrored case. *)
Theorem threshold_stays_in_bounds
    (now : time) (batches : list (list Feedback)) (batch : list Feedback) :
  let st := run_all batches (started None now) in
  let st' := snd (update_from_feedback batch st) in
  let current := threshold st in
  let web := web_rate batch in
  let internal := internal_rate batch in
  let lowered := max2 0.5 (current - (web - internal) * 0.1) in
  let raised := min2 0.9 (current + (internal - web) * 0.1) in
  0.5 <= threshold st <= 0.9
  /\ 0.5 <= threshold st' <= 0.9
  /\ (threshold st' = current
      \/ (internal + 0.15 <= web + rounding
          /\ threshold st' <= current
          /\ about lowered (threshold st'))
      \/ (web + 0.15 <= internal + rounding
          /\ current <= threshold st'
          /\ about raised (threshold st')))
  /\ (web_analysis_compares 5 batch = false -> threshold st' = current)
  /\ (web_analysis_compares 5 batch = true ->
      (internal + 0.15 + rounding <= web -> about lowered (threshold st'))
      /\ (web + 0.15 + rounding <= internal ->
          about raised (threshold st'))
      /\ (Qabs (web - internal) + rounding <= 0.15 ->
          threshold st' = current)).
Proof.
  intros st st' current web internal lowered raised.
  pose proof (run_all_settled batches _ (started_settled now)) as Hst.
  fold st in Hst.
  pose proof (run_settled batch st Hst) as Hst'. fold st' in Hst'.
  assert (Hcur : 0.5 <= current <= 0.9) by apply Hst.
  assert (E : threshold st'
              = if web_analysis_compares 5 batch
                then threshold_rule current 0.1 web internal
                else current).
  { unfold st'. rewrite run_threshold.
    destruct Hst as (_ & -> & ->). reflexivity. }
  assert (Hsame : forall x, about x x)
    by (intro x; apply about_exact; [discriminate | reflexivity]).
  split; [exact Hcur|]. split; [apply Hst'|].
  rewrite E. clear E. unfold threshold_rule.
  destruct (web_analysis_compares 5 batch).
  2:{ split; [now left|]. split; [reflexivity | discriminate]. }
  destruct (Qltb (internal + 0.15) web) eqn:E1;
    [apply Qltb_lt in E1 | apply Qltb_ge in E1].
  { fold lowered. split.
    - right. left. split; [unfold rounding; lra|].
      split; [|apply Hsame].
      unfold lowered. apply max2_upper; lra.
    - split; [discriminate|]. intros _.
      split; [intros _; apply Hsame|].
      split.
      + intro H. unfold rounding in H. lra.
      + intro H.
        assert (H' : Qabs (web - internal) <= 0.15)
          by (unfold rounding in H; lra).
        apply Qabs_Qle_condition in H'. lra. }
  destruct (Qltb (web + 0.15) internal) eqn:E2;
    [apply Qltb_lt in E2 | apply Qltb_ge in E2].
  { fold raised. split.
    - right. right. split; [unfold rounding; lra|].
      split; [|apply Hsame].
      unfold raised. apply min2_lower; lra.
    - split; [discriminate|]. intros _.
      split; [intro H; unfold rounding in H; lra|].
      split; [intros _; apply Hsame|].
      intro H.
      assert (H' : Qabs (web - internal) <= 0.15)
        by (unfold rounding in H; lra).
      apply Qabs_Qle_condition in H'. lra. }
  split; [now left|]. split; [discriminate|]. intros _.
  split; [intro H; unfold rounding in H; lra|].
  split; [intro H; unfold rounding in H; lra | reflexivity].
Qed.

(** On the batch of [test_rl_optimizer] (web rate 1, internal rate 1/4) the
    first run lowers the threshold from 0.7 to 0.625. *)
Lemma threshold_stays_in_bounds_witness :
  web_analysis_compares 5 test_batch = true
  /\ internal_rate test_batch + 0.15 + rounding <= web_rate test_batch
  /\ about (max2 0.5 (0.7 - (web_rate test_batch - internal_rate test_batch)
                            * 0.1))
       (threshold (snd (update_from_feedback test_batch
                          (started None 0%nat)))).
Proof.
  assert (H1 : web_analysis_compares 5 test_batch = true) by reflexivity.
  assert (H2 : internal_rate test_batch + 0.15 + rounding
               <= web_rate test_batch) by (vm_compute; discriminate).
  split; [exact H1|]. split; [exact H2|].
  exact (proj1 (proj2 (proj2 (proj2 (proj2
           (threshold_stays_in_bounds 0%nat [] test_batch)))) H1) H2).
Defined.

End Threshold.


(* ================================================================== *)
(** ** The optimizer: one run *)
(* ================================================================== *)

Section Run.
Import RL Spec.

Lemma web_analysis_effect (batch : list Feedback) (st : State) :
  one_update_or_none (fst (_analyze_web_search_performance batch st)) st
    (snd (_analyze_web_search_performance batch st)).
Proof.
  rewrite web_analysis_eq. unfold one_update_or_none.
  destruct (_ || _); [left; split; reflexivity|].
  destruct (forallb _ _); [|left; split; reflexivity].
  cbv zeta.
  destruct (Qltb _ _);
    [right; split; [reflexivity | eexists (web_search_is _); now split]|].
  destruct (Qltb _ _);
    [right; split; [reflexivity | eexists (web_search_is _); now split]|].
  left; split; reflexivity.
Qed.

Lemma calibration_effect (batch : list Feedback) (st : State) :
  one_update_or_none (fst (_analyze_confidence_calibration batch st)) st
    (snd (_analyze_confidence_calibration batch st)).
Proof.
  unfold _analyze_confidence_calibration, one_update_or_none. cbv zeta.
  destruct (3 <=? _)%Z; [|left; split; reflexivity].
  destruct (count_positive _) as [p | e]; mstep;
    [|left; split; reflexivity].
  destruct (int_div _ _) as [q | e]; mstep; [|left; split; reflexivity].
  destruct (Qltb q 0.6); [|left; split; reflexivity].
  right. split; [reflexivity|].
  eexists (confidence_weights_is _). now split.
Qed.

Lemma judge_analysis_effect (batch : list Feedback) (st : State) :
  one_update_or_none (fst (_analyze_judge_correlation batch st)) st
    (snd (_analyze_judge_correlation batch st)).
Proof.
  unfold _analyze_judge_correlation, one_update_or_none. cbv zeta.
  destruct (len batch <? 10)%Z; [left; split; reflexivity|].
  destruct (correlate _ _ _) as [[|kv correlations] | e]; mstep;
    try (left; split; reflexivity).
  destruct (total_correlation _) as [total_corr|];
    [|left; split; reflexivity].
  destruct (Qltb 0 total_corr); [|left; split; reflexivity].
  destruct (normalise _ _) as [new_weights | e]; mstep;
    [|left; split; reflexivity].
  destruct (Qltb 0.05 _); [|left; split; reflexivity].
  right. split; [reflexivity|].
  eexists (judge_weights_is _). now split.
Qed.

(** One update adds 1 to [version] and to the number of writes, and leaves
    the file equal to the configuration. *)
Lemma effect_version r st st' :
  one_update_or_none r st st' ->
  version (config st') = (version (config st) + Z.of_nat (applied r))%Z
  /\ writes st' = (writes st + applied r)%nat.
Proof.
  intros [[-> ->] | [-> (item & Hitem & ->)]].
  - split; simpl; lia.
  - rewrite update_eq. destruct item; try discriminate; simpl; split; lia.
Qed.

Lemma effect_raise e st st' : one_update_or_none (Raise e) st st' -> st' = st.
Proof. intros [[_ ->] | [H _]]; [reflexivity | discriminate]. Qed.

Lemma effect_none st st' : one_update_or_none (Ok None) st st' -> st' = st.
Proof. intros [[_ ->] | [H _]]; [reflexivity | discriminate]. Qed.

Lemma applied_as_change (a : option adjustment) :
  applied (Ok a) = length (as_change a).
Proof. now destruct a. Qed.

Lemma count_positive_inv (l : list Feedback) (p : Z) :
  count_positive l = Ok p ->
  forallb has_feedback_type l = true /\ p = len (filter is_positive l).
Proof.
  intro H. destruct (forallb has_feedback_type l) eqn:E.
  - rewrite (count_positive_ok _ E) in H. injection H as <-. now split.
  - rewrite (count_positive_raise _ E) in H. discriminate.
Qed.

(** [history[-50:]] when there are more than 50 entries. *)
Lemma prune_eq {A} (h : list A) :
  (if (50 <? len h)%Z then slice_from (-50) h else h) = last_n 50 h.
Proof.
  unfold len. destruct (50 <? Z.of_nat (length h))%Z eqn:E.
  - apply (slice_from_neg 50). lia.
  - apply Z.ltb_ge in E. unfold last_n.
    replace (length h - 50)%nat with 0%nat by lia. reflexivity.
Qed.

(** The recording, when it completes on a batch that is not empty. *)
Lemma record_ok (batch : list Feedback) (st st' : State) (u : unit) :
  batch <> [] ->
  _record_performance batch st = (Ok u, st') ->
  performance_history (config st')
  = last_n 50 (performance_history (config st)
               ++ [snapshot_of batch (clock st)])
  /\ version (config st') = (version (config st) + 1)%Z
  /\ writes st' = S (writes st)
  /\ disk st' = Some (Json (config_items (config st'))).
Proof.
  intros Hne H.
  assert (Hlen : (len batch <> 0)%Z)
    by (unfold len; destruct batch; [congruence | simpl; lia]).
  assert (E : _record_performance batch st
              = bind (lift (count_positive batch)) (fun positive =>
                bind (lift (int_div positive (len batch))) (fun positive_rate =>
                bind datetime_now (fun now =>
                bind (lift (int_div (web_search_count batch) (len batch)))
                  (fun web_search_usage =>
                bind (append_history
                        {| timestamp := now;
                           total_feedback := length batch;
                           positive_rate := positive_rate;
                           avg_confidence :=
                             np_mean
                               (map (fun f => get_or (confidence f) 0) batch);
                           web_search_usage := web_search_usage |}) (fun _ =>
                bind (gets (fun st => performance_history (config st)))
                  (fun history =>
                update
                  [performance_history_is
                     (if (50 <? len history)%Z then slice_from (-50) history
                      else history)])))))) st)
    by (destruct batch; [congruence | reflexivity]).
  rewrite E in H. clear E.
  destruct (count_positive batch) as [p | e] eqn:Ep;
    [|rewrite bind_lift_raise in H; discriminate].
  apply count_positive_inv in Ep. destruct Ep as [_ ->].
  rewrite bind_lift_ok, int_div_ok, bind_lift_ok, bind_datetime_now in H
    by exact Hlen.
  rewrite int_div_ok, bind_lift_ok in H by exact Hlen.
  unfold bind at 1 in H. unfold append_history, modify in H.
  rewrite bind_gets, update_eq in H.
  injection H as _ <-.
  cbn [config disk writes]. unfold saved, dict_update.
  cbn [fold_left set_item performance_history version config tick snd
       datetime_now clock set_config].
  rewrite prune_eq. auto.
Qed.

(** A run that qualifies is the four steps in sequence. *)
Lemma run_eq (batch : list Feedback) (st : State) :
  (min_samples (config st) <= len batch)%Z ->
  update_from_feedback batch st
  = bind (_analyze_web_search_performance batch) (fun a1 =>
    bind (_analyze_confidence_calibration batch) (fun a2 =>
    bind (_analyze_judge_correlation batch) (fun a3 =>
    bind (_record_performance batch) (fun _ =>
    ret (adjustments (clock st)
           ((as_change a1 ++ as_change a2) ++ as_change a3))))))
      (tick st).
Proof.
  intro H. unfold update_from_feedback. rewrite bind_gets.
  destruct (len batch <? min_samples (config st))%Z eqn:E;
    [apply Z.ltb_lt in E; lia | reflexivity].
Qed.

Lemma run_insufficient (batch : list Feedback) (st : State) :
  (len batch < min_samples (config st))%Z ->
  update_from_feedback batch st
  = (Ok (insufficient_data (min_samples (config st)) (length batch)), st).
Proof.
  intro H. unfold update_from_feedback. rewrite bind_gets.
  destruct (len batch <? min_samples (config st))%Z eqn:E;
    [reflexivity | apply Z.ltb_ge in E; lia].
Qed.

(** What a completed run went through. *)
Lemma run_inv (batch : list Feedback) (st st' : State) (t : time)
    (changes : list adjustment) :
  update_from_feedback batch st = (Ok (adjustments t changes), st') ->
  (min_samples (config st) <= len batch)%Z
  /\ exists a1 a2 a3 st1 st2 st3 u,
       _analyze_web_search_performance batch (tick st) = (Ok a1, st1)
       /\ _analyze_confidence_calibration batch st1 = (Ok a2, st2)
       /\ _analyze_judge_correlation batch st2 = (Ok a3, st3)
       /\ _record_performance batch st3 = (Ok u, st')
       /\ changes = (as_change a1 ++ as_change a2) ++ as_change a3.
Proof.
  intro H.
  destruct (Z.lt_ge_cases (len batch) (min_samples (config st))) as [Hlt | Hge].
  - rewrite (run_insufficient _ _ Hlt) in H. discriminate.
  - split; [exact Hge|]. rewrite (run_eq _ _ Hge) in H.
    unfold bind in H.
    destruct (_analyze_web_search_performance batch (tick st))
      as [[a1 | e] st1] eqn:E1; [|discriminate].
    destruct (_analyze_confidence_calibration batch st1)
      as [[a2 | e] st2] eqn:E2; [|discriminate].
    destruct (_analyze_judge_correlation batch st2)
      as [[a3 | e] st3] eqn:E3; [|discriminate].
    destruct (_record_performance batch st3) as [[u | e] st4] eqn:E4;
      [|discriminate].
    injection H as _ <- <-.
    exists a1, a2, a3, st1, st2, st3, u. repeat split; assumption.
Qed.

(** C4, as the specification words it, against the code.  On the batch of
    [test_rl_optimizer], from a first start, the run completes, persists the
    configuration three times (two adjustments and the snapshot) and
    advances [version] by 3. *)
Lemma run_persists_more_than_once :
  let st := started None 0%nat in
  let r := update_from_feedback test_batch st in
  (min_samples (config st) <= len test_batch)%Z
  /\ is_ok (fst r) = true
  /\ writes (snd r) = (writes st + 3)%nat
  /\ version (config (snd r)) = (version (config st) + 3)%Z
  /\ version (config (snd r)) <> (version (config st) + 1)%Z.
Proof. cbv zeta. repeat split; vm_compute; discriminate. Qed.

(** C4 (amended). A run over a qualifying batch ([min_samples >= 1]) that
    completes appends exactly one snapshot computed over that batch (positive
    rate, mean confidence, web-search usage fraction) and keeps the 50 most
    recent entries; it persists the configuration once for every adjustment
    it applies and once for the snapshot, so [version] advances by 1 plus the
    number of adjustments, which is at most 3; the file then holds the
    configuration. *)
Theorem run_appends_one_snapshot
    (batch : list Feedback) (st st' : State) (t : time)
    (changes : list adjustment) :
  (1 <= min_samples (config st))%Z ->
  update_from_feedback batch st = (Ok (adjustments t changes), st') ->
  (exists now,
     performance_history (config st')
     = last_n 50 (performance_history (config st) ++ [snapshot_of batch now]))
  /\ version (config st')
     = (version (config st) + 1 + Z.of_nat (length changes))%Z
  /\ writes st' = (writes st + 1 + length changes)%nat
  /\ (length changes <= 3)%nat
  /\ disk st' = Some (Json (config_items (config st'))).
Proof.
  intros Hmin H.
  apply run_inv in H.
  destruct H as (Hlen & a1 & a2 & a3 & st1 & st2 & st3 & u
                 & E1 & E2 & E3 & E4 & ->).
  assert (Hne : batch <> [])
    by (intros ->; unfold len in Hlen; simpl in Hlen; lia).
  pose proof (web_analysis_effect batch (tick st)) as F1.
  pose proof (calibration_effect batch st1) as F2.
  pose proof (judge_analysis_effect batch st2) as F3.
  pose proof (web_analysis_keeps_history batch (tick st)) as K1.
  pose proof (calibration_keeps_history batch st1) as K2.
  pose proof (judge_analysis_keeps_history batch st2) as K3.
  rewrite E1 in F1, K1. rewrite E2 in F2, K2. rewrite E3 in F3, K3.
  simpl fst in *. simpl snd in *.
  apply effect_version in F1, F2, F3.
  destruct F1 as [V1 W1], F2 as [V2 W2], F3 as [V3 W3].
  rewrite applied_as_change in *.
  destruct (record_ok batch st3 st' u Hne E4) as (Hh & Hv & Hw & Hd).
  change (config (tick st)) with (config st) in *.
  change (writes (tick st)) with (writes st) in *.
  repeat split.
  - exists (clock st3). rewrite Hh, K3, K2, K1. reflexivity.
  - rewrite Hv, V3, V2, V1, !length_app. lia.
  - rewrite Hw, W3, W2, W1, !length_app. lia.
  - rewrite !length_app. destruct a1, a2, a3; simpl; lia.
  - exact Hd.
Qed.

Lemma run_appends_one_snapshot_witness :
  exists t changes st',
    (1 <= min_samples (config (started None 0%nat)))%Z
    /\ update_from_feedback test_batch (started None 0%nat)
       = (Ok (adjustments t changes), st')
    /\ version (config st')
       = (version (config (started None 0%nat)) + 1
          + Z.of_nat (length changes))%Z
    /\ writes st' = (writes (started None 0%nat) + 1 + length changes)%nat.
Proof.
  eexists _, _, _.
  split; [vm_compute; discriminate|].
  split; [vm_compute; reflexivity|].
  split;
    eapply (run_appends_one_snapshot test_batch (started None 0%nat));
    solve [vm_compute; discriminate | vm_compute; reflexivity].
Defined.

(** C2, as the specification words it, against the code.  In
    [broken_batch] one web entry has no [feedback_type]: the web-search
    analysis raises [KeyError].  The calibration analysis, which on this batch
    and state would succeed and adjust the confidence weights, is not run, nor
    is the snapshot recorded: the run ends with the exception and the
    configuration is untouched. *)
Lemma analyses_not_isolated :
  let st := started None 0%nat in
  let r := update_from_feedback broken_batch st in
  (min_samples (config st) <= len broken_batch)%Z
  /\ fst (_analyze_web_search_performance broken_batch (tick st))
     = Raise (KeyError "feedback_type")
  /\ applied (fst (_analyze_confidence_calibration broken_batch (tick st)))
     = 1%nat
  /\ fst r = Raise (KeyError "feedback_type")
  /\ confidence_weights (config (snd r)) = confidence_weights (config st)
  /\ performance_history (config (snd r)) = []
  /\ writes (snd r) = writes st.
Proof. cbv zeta. repeat split; vm_compute; discriminate. Qed.

(** C2 (amended). The analyses of a run are not isolated from one another:
    they run in the order web-search threshold, confidence calibration, judge
    correlation, snapshot recording, and the first of them that raises an
    exception ends the run with that exception; the steps after it are not
    run, and the state is the one the raising step found (a step that raises
    changes nothing, the adjustments of the steps before it stay applied).
    A step that completes hands its state to the next one, and when all four
    complete the run returns the adjustments made. *)
Theorem first_failure_ends_run
    (batch : list Feedback) (st : State) (e : exn) :
  (min_samples (config st) <= len batch)%Z ->
  let run := update_from_feedback batch st in
  let r1 := _analyze_web_search_performance batch (tick st) in
  let r2 := _analyze_confidence_calibration batch (snd r1) in
  let r3 := _analyze_judge_correlation batch (snd r2) in
  let r4 := _record_performance batch (snd r3) in
  (fst r1 = Raise e -> run = (Raise e, tick st))
  /\ (is_ok (fst r1) = true -> fst r2 = Raise e -> run = (Raise e, snd r1))
  /\ (is_ok (fst r1) = true -> is_ok (fst r2) = true -> fst r3 = Raise e ->
      run = (Raise e, snd r2))
  /\ (is_ok (fst r1) = true -> is_ok (fst r2) = true ->
      is_ok (fst r3) = true -> fst r4 = Raise e ->
      fst run = Raise e
      /\ web_search (config (snd run)) = web_search (config (snd r3))
      /\ confidence_weights (config (snd run))
         = confidence_weights (config (snd r3))
      /\ judge_weights (config (snd run)) = judge_weights (config (snd r3)))
  /\ (is_ok (fst r1) = true -> is_ok (fst r2) = true ->
      is_ok (fst r3) = true -> is_ok (fst r4) = true ->
      is_ok (fst run) = true /\ snd run = snd r4).
Proof.
  intros Hlen run r1 r2 r3 r4.
  unfold run. rewrite (run_eq _ _ Hlen). unfold bind.
  pose proof (web_analysis_effect batch (tick st)) as F1.
  pose proof (calibration_effect batch (snd r1)) as F2.
  pose proof (judge_analysis_effect batch (snd r2)) as F3.
  pose proof (record_keeps_web_search batch (snd r3)) as K4w.
  pose proof (record_keeps_confidence_weights batch (snd r3)) as K4c.
  pose proof (record_keeps_judge_weights batch (snd r3)) as K4j.
  fold r1 in F1 |- *.
  destruct r1 as [[a1 | e1] st1]; simpl in *.
  2:{ apply effect_raise in F1. subst st1.
      repeat split; intros; try discriminate; congruence. }
  fold r2 in F2 |- *.
  destruct r2 as [[a2 | e2] st2]; simpl in *.
  2:{ apply effect_raise in F2. subst st2.
      repeat split; intros; try discriminate; congruence. }
  fold r3 in F3 |- *.
  destruct r3 as [[a3 | e3] st3]; simpl in *.
  2:{ apply effect_raise in F3. subst st3.
      repeat split; intros; try discriminate; congruence. }
  fold r4 in K4w, K4c, K4j |- *.
  destruct r4 as [[u | e4] st4]; simpl in *;
    repeat split; intros; try discriminate; try congruence; auto.
Qed.

Lemma first_failure_ends_run_witness :
  (min_samples (config (started None 0%nat)) <= len broken_batch)%Z
  /\ fst (_analyze_web_search_performance broken_batch
            (tick (started None 0%nat)))
     = Raise (KeyError "feedback_type")
  /\ update_from_feedback broken_batch (started None 0%nat)
     = (Raise (KeyError "feedback_type"), tick (started None 0%nat)).
Proof.
  split; [vm_compute; discriminate|].
  split; [vm_compute; reflexivity|].
  refine (proj1 (first_failure_ends_run broken_batch (started None 0%nat)
                   (KeyError "feedback_type") _) _).
  - vm_compute; discriminate.
  - vm_compute; reflexivity.
Defined.

End Run.


(* ================================================================== *)
(** ** The optimizer: the judge weights *)
(* ================================================================== *)

Section JudgeWeights.
Import RL Spec Rounding.

Lemma find_target_weights (correlations : dict metric npfloat)
    (total_corr : Q) (m : metric) :
  dict_find metric_eqb (target_weights_of correlations total_corr) m
  = match dict_find metric_eqb correlations m with
    | Some v => Some (Qabs (finite v) / total_corr)
    | None => None
    end.
Proof.
  induction correlations as [|[k v] l IH]; [reflexivity|].
  simpl. destruct (metric_eqb k m); [reflexivity | exact IH].
Qed.

Lemma normalise_inv (weights new_weights : dict metric Q) (total : Q) :
  normalise weights total = Ok new_weights ->
  ~ total == 0
  /\ new_weights = map (fun kv => (fst kv, snd kv / total)) weights.
Proof.
  unfold normalise. destruct (Qeq_bool total 0) eqn:E; [discriminate|].
  intro H. injection H as <-. split; [|reflexivity].
  intro H0. apply Qeq_bool_iff in H0. congruence.
Qed.

Lemma normalised_sum (b1 b2 b3 : Q) :
  ~ 0 + b1 + b2 + b3 == 0 ->
  b1 / (0 + b1 + b2 + b3) + b2 / (0 + b1 + b2 + b3) + b3 / (0 + b1 + b2 + b3)
  == 1.
Proof.
  intro H. field. intro H0. apply H.
  assert (E : 0 + b1 + b2 + b3 == b1 + b2 + b3) by ring.
  now rewrite E.
Qed.

Lemma fold_np_add_fin (l : list npfloat) (acc : npfloat) (t : Q) :
  fold_left np_add l acc = Fin t ->
  (exists a, acc = Fin a) /\ Forall (fun v => exists q, v = Fin q) l.
Proof.
  revert acc. induction l as [|v l IH]; intros acc H.
  - simpl in H. split; [now exists t | constructor].
  - simpl in H. apply IH in H. destruct H as [[a Ha] Hl].
    destruct acc as [x|], v as [y|]; try discriminate.
    split; [now exists x|]. constructor; [now exists y | exact Hl].
Qed.

(** Under [total_corr > 0] every correlation is finite. *)
Lemma total_correlation_fin (correlations : dict metric npfloat) (t : Q) :
  total_correlation correlations = Fin t ->
  Forall (fun kv => exists q, snd kv = Fin q) correlations.
Proof.
  unfold total_correlation. intro H.
  apply fold_np_add_fin in H. destruct H as [_ H].
  rewrite Forall_map in H. eapply Forall_impl; [|exact H].
  intros [k [q|]] [x Hx]; simpl in *; [now exists q | discriminate].
Qed.

Lemma metric_find_In {V} (d : dict metric V) (m : metric) (v : V) :
  dict_find metric_eqb d m = Some v -> exists k, In (k, v) d.
Proof.
  induction d as [|[k x] d IH]; [discriminate|]. simpl.
  destruct (metric_eqb k m).
  - intros [= <-]. exists k. now left.
  - intro H. destruct (IH H) as [k' Hk]. exists k'. now right.
Qed.

Lemma find_metric_set {V} (d : dict metric V) (k k' : metric) (v : V) :
  dict_find metric_eqb (dict_set metric_eqb d k v) k'
  = if metric_eqb k k' then Some v else dict_find metric_eqb d k'.
Proof.
  induction d as [|[k0 v0] d IH]; [reflexivity|].
  simpl. destruct (metric_eqb k0 k) eqn:E; simpl.
  - destruct k0, k, k'; try discriminate; reflexivity.
  - rewrite IH. destruct k0, k, k'; try discriminate; reflexivity.
Qed.

(** The samples of a metric are its scored entries, in order. *)
Lemma metric_samples_spec (m : metric) (batch : list Feedback)
    (samples : list (Q * bool)) :
  metric_samples m batch = Ok samples ->
  len samples = len (filter (scored_for m) batch)
  /\ map fst (filter snd samples) = positive_scores m batch
  /\ map fst (filter (fun s => negb (snd s)) samples) = other_scores m batch.
Proof.
  unfold positive_scores, other_scores, len.
  revert samples. induction batch as [|f rest IH]; intros samples H.
  - injection H as <-. repeat split.
  - cbn [metric_samples] in H. cbn [filter].
    destruct (dict_find metric_eqb (get_or (judge_scores f) []) m)
      as [score|] eqn:Ef.
    2:{ assert (Es : scored_for m f = false)
          by (unfold scored_for; now rewrite Ef).
        rewrite Es. cbn [andb]. now apply IH. }
    assert (Es : scored_for m f = true)
      by (unfold scored_for; now rewrite Ef).
    assert (Ev : score_for m f = score)
      by (unfold score_for, dict_get; now rewrite Ef).
    rewrite Es. cbn [andb].
    unfold item_feedback_type in H.
    destruct (feedback_type f) as [t|] eqn:Et; [|discriminate].
    assert (Ep : is_positive f = String.eqb t "positive")
      by (unfold is_positive; now rewrite Et).
    rewrite Ep.
    cbn [rbind] in H.
    destruct (metric_samples m rest) as [rest_samples|]; [|discriminate].
    cbn [rbind] in H. injection H as <-.
    destruct (IH _ eq_refl) as (H1 & H2 & H3).
    cbn [filter snd fst].
    destruct (String.eqb t "positive"); cbn [negb map length fst];
      rewrite ?Ev, ?H2, ?H3; repeat split; try reflexivity; lia.
Qed.

(** What the loop over the metrics leaves in [correlations]. *)
Lemma correlate_find (ms : list metric) (batch : list Feedback) :
  forall acc correlations,
    correlate ms batch acc = Ok correlations ->
    forall m,
      dict_find metric_eqb correlations m
      = if existsb (metric_eqb m) ms && measured m batch
        then Some (np_sub (np_mean (positive_scores m batch))
                     (np_mean (other_scores m batch)))
        else dict_find metric_eqb acc m.
Proof.
  induction ms as [|m0 ms IH]; intros acc correlations H m.
  - injection H as <-. reflexivity.
  - cbn [correlate] in H.
    destruct (metric_samples m0 batch) as [samples|] eqn:Es; [|discriminate].
    cbn [rbind] in H.
    destruct (metric_samples_spec _ _ _ Es) as (Hlen & Hpos & Hneg).
    rewrite Hlen, Hpos, Hneg in H. fold (measured m0 batch) in H.
    cbn [existsb].
    destruct (measured m0 batch) eqn:Em0.
    + rewrite (IH _ _ H m), find_metric_set.
      destruct m, m0; cbn [metric_eqb orb andb];
        rewrite ?Em0, ?andb_true_r;
        destruct (existsb _ ms); cbn [andb]; reflexivity.
    + rewrite (IH _ _ H m).
      destruct m, m0; cbn [metric_eqb orb andb];
        rewrite ?Em0, ?andb_false_r; reflexivity.
Qed.

(** C9 (amended). Take a configuration whose judge weights lie in [0, 1]
    and whose learning rate lies in [0.01, 1], and a batch whose judge
    scores lie in [0, 10] (the ranges they are meant to have; within them
    the rounding of the running code stays far below the allowance).
    Whenever the judge-weight analysis applies an
    update, the batch has at least 10 entries and some metric has a score in
    at least 10 of them; each such metric has scores under positive and
    under other feedback, and its correlation is the mean of the former
    minus the mean of the latter, up to rounding; a metric with fewer scores
    has no correlation; the sum of the absolute correlations is positive;
    the largest change of a weight exceeds 0.05; and the new weight of each
    metric [m] is, up to rounding,
    [current[m] * (1 - learning_rate * 0.5) + target[m] * (learning_rate * 0.5)]
    divided by the sum of these three blends (which is not zero), where
    [target[m]] is [|correlation[m]|] over the sum of the absolute
    correlations (1/3 for a metric without correlation): the three new
    weights sum to 1 up to rounding. *)
Theorem judge_update_is_normalised_blend
    (batch : list Feedback) (st st' : State)
    (old new : dict metric Q) (correlations : dict metric npfloat) :
  _analyze_judge_correlation batch st
  = (Ok (Some (judge_weights_adjustment old new correlations)), st') ->
  let rate := learning_rate (config st) * 0.5 in
  let current m := dict_get metric_eqb (judge_weights (config st)) m (1 / 3) in
  let weight m := dict_get metric_eqb new m 0 in
  (forall m, 0 <= current m <= 1) ->
  0.01 <= learning_rate (config st) <= 1 ->
  scores_within 0 10 batch ->
  exists total_corr,
    let target m :=
      match dict_find metric_eqb correlations m with
      | Some v => Qabs (finite v) / total_corr
      | None => 1 / 3
      end in
    let blended m := current m * (1 - rate) + target m * rate in
    let total := blended relevance + blended factuality + blended completeness in
    (10 <= len batch)%Z
    /\ (exists m, measured m batch = true)
    /\ (forall m,
          if measured m batch then
            positive_scores m batch <> [] /\ other_scores m batch <> []
            /\ exists c,
                 dict_find metric_eqb correlations m = Some (Fin c)
                 /\ about_scaled 10 (difference m batch) c
          else dict_find metric_eqb correlations m = None)
    /\ total_correlation correlations = Fin total_corr
    /\ 0 < total_corr
    /\ ~ total == 0
    /\ old = judge_weights (config st)
    /\ judge_weights (config st') = new
    /\ map fst new = metrics
    /\ (forall m, about (blended m / total) (weight m))
    /\ about 1 (weight relevance + weight factuality + weight completeness)
    /\ 0.05 < max_change_of new (judge_weights (config st)).
Proof.
  intros H rate current weight _ _ _.
  unfold _analyze_judge_correlation in H.
  destruct (len batch <? 10)%Z eqn:Elen; [discriminate|].
  apply Z.ltb_ge in Elen.
  destruct (correlate metrics batch []) as [corr | e] eqn:Ecorr;
    [rewrite bind_lift_ok in H | rewrite bind_lift_raise in H; discriminate].
  destruct corr as [|kv corr]; [discriminate|].
  rewrite bind_gets in H.
  destruct (total_correlation (kv :: corr)) as [total_corr|] eqn:Etotal;
    [|discriminate].
  destruct (Qltb 0 total_corr) eqn:Epos; [|discriminate].
  apply Qltb_lt in Epos.
  cbv zeta in H.
  destruct (normalise _ _) as [new_weights | e] eqn:Enorm;
    [rewrite bind_lift_ok in H | rewrite bind_lift_raise in H; discriminate].
  destruct (Qltb 0.05 _) eqn:Emax; [|discriminate].
  apply Qltb_lt in Emax.
  rewrite bind_update, update_eq in H. unfold ret in H. cbn [snd] in H.
  injection H as <- <- <- <-.
  apply normalise_inv in Enorm. destruct Enorm as [Hnz ->].
  assert (Hfind : forall m,
             dict_find metric_eqb (kv :: corr) m
             = if measured m batch
               then Some (np_sub (np_mean (positive_scores m batch))
                            (np_mean (other_scores m batch)))
               else None).
  { intro m. rewrite (correlate_find _ _ _ _ Ecorr m).
    now destruct m. }
  assert (Hmeasured : exists m, measured m batch = true).
  { destruct kv as [k v]. exists k. pose proof (Hfind k) as Hk.
    cbn [dict_find] in Hk.
    replace (metric_eqb k k) with true in Hk by now destruct k.
    now destruct (measured k batch). }
  assert (Hcorr : forall m,
             if measured m batch then
               positive_scores m batch <> [] /\ other_scores m batch <> []
               /\ exists c,
                    dict_find metric_eqb (kv :: corr) m = Some (Fin c)
                    /\ about_scaled 10 (difference m batch) c
             else dict_find metric_eqb (kv :: corr) m = None).
  { intro m. pose proof (Hfind m) as Hm.
    destruct (measured m batch); [|exact Hm].
    destruct (metric_find_In _ _ _ Hm) as [k Hin].
    pose proof (total_correlation_fin _ _ Etotal) as Hfin.
    rewrite Forall_forall in Hfin. destruct (Hfin _ Hin) as [q Hq].
    cbn [snd] in Hq. unfold difference.
    destruct (positive_scores m batch) as [|p ps]; [discriminate|].
    destruct (other_scores m batch) as [|o os]; [discriminate|].
    split; [discriminate|]. split; [discriminate|].
    eexists. split; [exact Hm|].
    apply about_exact; [discriminate | reflexivity]. }
  exists total_corr. cbv zeta. unfold weight. clear weight.
  assert (Htarget : forall m,
             dict_get metric_eqb (target_weights_of (kv :: corr) total_corr)
               m (1 / 3)
             = match dict_find metric_eqb (kv :: corr) m with
               | Some v => Qabs (finite v) / total_corr
               | None => 1 / 3
               end).
  { intro m. unfold dict_get. rewrite find_target_weights.
    now destruct (dict_find metric_eqb (kv :: corr) m). }
  unfold blend, metrics in *. cbn [map fst snd] in *.
  unfold Qsum in *. cbn [fold_left] in *.
  rewrite !Htarget in *.
  fold rate in Hnz, Emax |- *.
  fold (current relevance) in Hnz, Emax |- *.
  fold (current factuality) in Hnz, Emax |- *.
  fold (current completeness) in Hnz, Emax |- *.
  set (b1 := current relevance * (1 - rate) + _ * rate) in *.
  set (b2 := current factuality * (1 - rate) + _ * rate) in *.
  set (b3 := current completeness * (1 - rate) + _ * rate) in *.
  assert (Etot : 0 + b1 + b2 + b3 == b1 + b2 + b3) by ring.
  split; [exact Elen|]. split; [exact Hmeasured|]. split; [exact Hcorr|].
  repeat split; try assumption; try reflexivity; try discriminate.
  - now rewrite <- Etot.
  - intro m. apply about_exact; [discriminate|]. unfold dict_get.
    destruct m; cbn [dict_find metric_eqb];
      [change (b1 / (0 + b1 + b2 + b3) == b1 / (b1 + b2 + b3))
      |change (b2 / (0 + b1 + b2 + b3) == b2 / (b1 + b2 + b3))
      |change (b3 / (0 + b1 + b2 + b3) == b3 / (b1 + b2 + b3))];
      now rewrite Etot.
  - apply about_exact; [discriminate|].
    unfold dict_get. cbn [dict_find metric_eqb].
    now apply normalised_sum.
Qed.

Lemma judge_update_is_normalised_blend_witness :
  let st := started (Some eager_file) 0%nat in
  (forall m,
     0 <= dict_get metric_eqb (judge_weights (config st)) m (1 / 3) <= 1)
  /\ 0.01 <= learning_rate (config st) <= 1
  /\ scores_within 0 10 judged_batch
  /\ exists old new correlations st',
       _analyze_judge_correlation judged_batch st
       = (Ok (Some (judge_weights_adjustment old new correlations)), st')
       /\ measured relevance judged_batch = true
       /\ about 1 (dict_get metric_eqb new relevance 0
                   + dict_get metric_eqb new factuality 0
                   + dict_get metric_eqb new completeness 0).
Proof.
  cbv zeta.
  assert (H1 : forall m,
             0 <= dict_get metric_eqb
                    (judge_weights
                       (config (started (Some eager_file) 0%nat))) m (1 / 3)
             <= 1)
    by (intro m; destruct m; vm_compute; split; discriminate).
  assert (H2 : 0.01 <= learning_rate
                         (config (started (Some eager_file) 0%nat)) <= 1)
    by (vm_compute; split; discriminate).
  assert (H3 : scores_within 0 10 judged_batch).
  { intros f m s Hf Hs.
    assert (Hcases : f = entry "positive" false 0.5 (scores_of 9 5 5)
                     \/ f = entry "negative" false 0.5 (scores_of 1 5 5)).
    { unfold judged_batch in Hf. apply in_app_or in Hf.
      destruct Hf as [Hf | Hf]; apply repeat_spec in Hf; auto. }
    destruct Hcases as [-> | ->]; destruct m; cbn in Hs;
      injection Hs as <-; split; discriminate. }
  eassert (E : _analyze_judge_correlation judged_batch
                 (started (Some eager_file) 0%nat)
               = (Ok (Some (judge_weights_adjustment _ _ _)), _))
    by (vm_compute; reflexivity).
  split; [exact H1|]. split; [exact H2|]. split; [exact H3|].
  eexists _, _, _, _. split; [exact E|]. split; [reflexivity|].
  destruct (judge_update_is_normalised_blend judged_batch
              (started (Some eager_file) 0%nat) _ _ _ _ E H1 H2 H3)
    as (total_corr & H).
  cbv zeta in H.
  destruct H as (_ & _ & _ & _ & _ & _ & _ & _ & _ & _ & Hsum & _).
  exact Hsum.
Defined.

End JudgeWeights.

(** C9, as the specification words it, against the code on binary64.
    With the default weights 0.4, 0.4, 0.2, a learning rate of 0.9 and ten
    entries whose relevance scores are 9 under positive and 1 under negative
    feedback (factuality and completeness 5 throughout), the analysis
    applies the update, and the three weights it stores (the floats nearest
    to 0.67, 0.22 and 0.11) add up to less than 1, both as the floats add
    and as rationals. *)
Section JudgeWeightsOnBinary64.
Import Floats.
#[local] Set Warnings "-inexact-float".

Lemma weights_do_not_sum_to_one :
  exists new total,
    Binary64._analyze_judge_correlation Binary64.judged_batch
      Binary64.default_judge_weights 0.9%float = Ok (Some new)
    /\ new = [(RL.relevance, 0.66999999999999993%float);
              (RL.factuality, 0.21999999999999997%float);
              (RL.completeness, 0.10999999999999999%float)]
    /\ Binary64.py_sum (map snd new) = 0.99999999999999989%float
    /\ PrimFloat.ltb (Binary64.py_sum (map snd new)) 1%float = true
    /\ Binary64.exact_sum new = Some total
    /\ (total < 1)%Q.
Proof.
  eexists. eexists. split; [vm_compute; reflexivity|].
  split; [vm_compute; reflexivity|].
  split; [vm_compute; reflexivity|].
  split; [vm_compute; reflexivity|].
  split; [vm_compute; reflexivity|].
  vm_compute. reflexivity.
Qed.

End JudgeWeightsOnBinary64.


(* ================================================================== *)
(** ** The exceptions of a run *)
(* ================================================================== *)

(** From the default configuration the only exception a run can raise is the
    [KeyError] of a feedback entry without [feedback_type]: the divisions of
    the analyses are never by zero. *)

Section Exceptions.
Import RL Spec.

Lemma target_nonneg (correlations : dict metric npfloat) (t : Q) (m : metric) :
  0 < t -> 0 <= dict_get metric_eqb (target_weights_of correlations t) m (1 / 3).
Proof.
  intro Ht. unfold dict_get. rewrite find_target_weights.
  destruct (dict_find metric_eqb correlations m) as [v|];
    [|vm_compute; discriminate].
  apply Qle_shift_div_l; [exact Ht|]. rewrite Qmult_0_l. apply Qabs_nonneg.
Qed.

Lemma blend_positive (current target : dict metric Q) (rate : Q) (m : metric) :
  weights_positive current -> 0 <= rate < 1 ->
  (forall m, 0 <= dict_get metric_eqb target m (1 / 3)) ->
  0 < dict_get metric_eqb current m (1 / 3) * (1 - rate)
      + dict_get metric_eqb target m (1 / 3) * rate.
Proof.
  intros Hpos [Hr0 Hr1] Ht.
  destruct (Hpos m) as (v & Hv & Hv0).
  unfold dict_get at 1. rewrite Hv.
  assert (0 < v * (1 - rate)) by (apply Qmult_lt_0_compat; lra).
  assert (0 <= dict_get metric_eqb target m (1 / 3) * rate)
    by (apply Qmult_le_0_compat; [apply Ht | exact Hr0]).
  lra.
Qed.

(** With positive weights the judge analysis raises nothing but the
    [KeyError], and leaves positive weights. *)
Lemma metric_samples_raise (m : metric) (batch : list Feedback) :
  raises_only_key_error (metric_samples m batch).
Proof.
  induction batch as [|f rest IH]; intros e H; [discriminate|].
  simpl in H.
  destruct (dict_find metric_eqb (get_or (judge_scores f) []) m);
    [|now apply IH].
  unfold item_feedback_type in H.
  destruct (feedback_type f); simpl in H; [|now injection H as <-].
  destruct (metric_samples m rest); simpl in H; [discriminate|].
  injection H as <-. now apply IH.
Qed.

Lemma correlate_raise (ms : list metric) (batch : list Feedback)
    (correlations : dict metric npfloat) :
  raises_only_key_error (correlate ms batch correlations).
Proof.
  revert correlations. induction ms as [|m ms IH]; intros c e H;
    [discriminate|].
  simpl in H.
  destruct (metric_samples m batch) as [samples | e'] eqn:Es; simpl in H.
  - destruct (10 <=? len samples)%Z; eapply IH; exact H.
  - injection H as <-. now apply (metric_samples_raise m batch).
Qed.

Lemma judge_analysis_sound (batch : list Feedback) (st : State) :
  weights_sound (config st) ->
  raises_only_key_error (fst (_analyze_judge_correlation batch st))
  /\ weights_sound (config (snd (_analyze_judge_correlation batch st))).
Proof.
  intros [Hpos Hrate].
  unfold _analyze_judge_correlation.
  destruct (len batch <? 10)%Z;
    [split; [intros e H; discriminate | now split]|].
  destruct (correlate metrics batch []) as [corr | e'] eqn:Ecorr.
  2:{ rewrite bind_lift_raise. split; [|now split].
      intros e H. injection H as <-. now apply (correlate_raise _ _ _ _ Ecorr). }
  rewrite bind_lift_ok.
  destruct corr as [|kv corr];
    [split; [intros e H; discriminate | now split]|].
  rewrite bind_gets.
  destruct (total_correlation (kv :: corr)) as [total_corr|];
    [|split; [intros e H; discriminate | now split]].
  destruct (Qltb 0 total_corr) eqn:Et;
    [|split; [intros e H; discriminate | now split]].
  apply Qltb_lt in Et. cbv zeta.
  set (rate := learning_rate (config st) * 0.5).
  assert (Hr : 0 <= rate < 1) by (unfold rate; rewrite Hrate; lra).
  pose proof (fun m =>
    blend_positive (judge_weights (config st))
      (target_weights_of (kv :: corr) total_corr) rate m Hpos Hr
      (fun m => target_nonneg (kv :: corr) total_corr m Et)) as Hb.
  pose proof (Hb relevance) as H1. pose proof (Hb factuality) as H2.
  pose proof (Hb completeness) as H3.
  unfold normalise, blend, metrics, Qsum. cbn [map snd fst fold_left].
  set (b1 := dict_get metric_eqb _ relevance _ * (1 - rate) + _) in *.
  set (b2 := dict_get metric_eqb _ factuality _ * (1 - rate) + _) in *.
  set (b3 := dict_get metric_eqb _ completeness _ * (1 - rate) + _) in *.
  assert (Htotal : 0 < 0 + b1 + b2 + b3) by lra.
  destruct (Qeq_bool (0 + b1 + b2 + b3) 0) eqn:E0.
  { apply Qeq_bool_iff in E0. lra. }
  rewrite bind_lift_ok.
  destruct (Qltb 0.05 _);
    [|split; [intros e H; discriminate | now split]].
  rewrite bind_update, update_eq. unfold ret. cbn [fst snd config].
  split; [intros e H; discriminate|]. split; [|exact Hrate].
  intro m. unfold saved, dict_update.
  cbn [fold_left set_item judge_weights version].
  destruct m; cbn [dict_find metric_eqb]; eexists; (split; [reflexivity|]);
    apply Qlt_shift_div_l; lra.
Qed.

Lemma count_positive_exn (l : list Feedback) :
  raises_only_key_error (count_positive l).
Proof.
  intros e H. destruct (forallb has_feedback_type l) eqn:E.
  - rewrite (count_positive_ok _ E) in H. discriminate.
  - rewrite (count_positive_raise _ E) in H. now injection H as <-.
Qed.

Lemma web_analysis_exn (batch : list Feedback) (st : State) :
  raises_only_key_error (fst (_analyze_web_search_performance batch st)).
Proof.
  rewrite web_analysis_eq. intros e.
  destruct (_ || _); [discriminate|].
  destruct (forallb _ _); [|simpl; now intros [= <-]].
  cbv zeta. destruct (Qltb _ _); [discriminate|].
  destruct (Qltb _ _); discriminate.
Qed.

Lemma calibration_exn (batch : list Feedback) (st : State) :
  raises_only_key_error (fst (_analyze_confidence_calibration batch st)).
Proof.
  unfold _analyze_confidence_calibration. cbv zeta. intros e.
  destruct (3 <=? _)%Z eqn:E3; [|discriminate].
  apply Z.leb_le in E3.
  destruct (count_positive _) as [p | e'] eqn:Ep; mstep.
  2:{ simpl. intros [= <-]. now apply (count_positive_exn _ _ Ep). }
  rewrite int_div_ok by lia. mstep.
  destruct (Qltb _ 0.6); discriminate.
Qed.

Lemma record_exn (batch : list Feedback) (st : State) :
  raises_only_key_error (fst (_record_performance batch st)).
Proof.
  destruct batch as [|f rest]; [discriminate|].
  set (batch := f :: rest).
  assert (Hlen : (len batch <> 0)%Z) by (unfold len; simpl; lia).
  change (_record_performance batch st)
    with (bind (lift (count_positive batch)) (fun positive =>
          bind (lift (int_div positive (len batch))) (fun positive_rate =>
          bind datetime_now (fun now =>
          bind (lift (int_div (web_search_count batch) (len batch)))
            (fun web_search_usage =>
          bind (append_history
                  {| timestamp := now;
                     total_feedback := length batch;
                     positive_rate := positive_rate;
                     avg_confidence :=
                       np_mean (map (fun f => get_or (confidence f) 0) batch);
                     web_search_usage := web_search_usage |}) (fun _ =>
          bind (gets (fun st => performance_history (config st)))
            (fun history =>
          update
            [performance_history_is
               (if (50 <? len history)%Z then slice_from (-50) history
                else history)])))))) st).
  intros e.
  destruct (count_positive batch) as [p | e'] eqn:Ep; mstep.
  2:{ simpl. intros [= <-]. now apply (count_positive_exn _ _ Ep). }
  rewrite int_div_ok by exact Hlen. rewrite bind_lift_ok, bind_datetime_now.
  rewrite int_div_ok by exact Hlen. rewrite bind_lift_ok.
  unfold bind at 1. unfold append_history, modify.
  rewrite bind_gets, update_eq. discriminate.
Qed.

Lemma keeps_weights_sound {A} (m : M A) :
  keeps judge_weights m -> keeps learning_rate m -> preserves weights_sound m.
Proof.
  intros Hj Hl st [Hp Hr]. unfold weights_sound. now rewrite Hj, Hl.
Qed.

(** One run from a sound configuration. *)
Lemma run_sound (batch : list Feedback) (st : State) :
  weights_sound (config st) ->
  raises_only_key_error (fst (update_from_feedback batch st))
  /\ weights_sound (config (snd (update_from_feedback batch st))).
Proof.
  intro Hs.
  destruct (Z.lt_ge_cases (len batch) (min_samples (config st))) as [Hlt | Hge].
  { rewrite (run_insufficient _ _ Hlt). split; [discriminate | exact Hs]. }
  rewrite (run_eq _ _ Hge). unfold bind.
  pose proof (web_analysis_exn batch (tick st)) as X1.
  pose proof (keeps_weights_sound _
                (web_analysis_keeps_judge_weights batch)
                (web_analysis_keeps_learning_rate batch) (tick st) Hs) as S1.
  destruct (_analyze_web_search_performance batch (tick st))
    as [[a1 | e1] st1]; simpl in *.
  2:{ split; [|exact S1]. intros e [= <-]. now apply X1. }
  pose proof (calibration_exn batch st1) as X2.
  pose proof (keeps_weights_sound _
                (calibration_keeps_judge_weights batch)
                (calibration_keeps_learning_rate batch) st1 S1) as S2.
  destruct (_analyze_confidence_calibration batch st1)
    as [[a2 | e2] st2]; simpl in *.
  2:{ split; [|exact S2]. intros e [= <-]. now apply X2. }
  destruct (judge_analysis_sound batch st2 S2) as [X3 S3].
  destruct (_analyze_judge_correlation batch st2)
    as [[a3 | e3] st3]; simpl in *.
  2:{ split; [|exact S3]. intros e [= <-]. now apply X3. }
  pose proof (record_exn batch st3) as X4.
  pose proof (keeps_weights_sound _
                (record_keeps_judge_weights batch)
                (record_keeps_learning_rate batch) st3 S3) as S4.
  destruct (_record_performance batch st3) as [[u | e4] st4]; simpl in *.
  - split; [discriminate | exact S4].
  - split; [|exact S4]. intros e [= <-]. now apply X4.
Qed.

Lemma run_all_sound (batches : list (list Feedback)) (st : State) :
  weights_sound (config st) -> weights_sound (config (run_all batches st)).
Proof.
  revert st. induction batches as [|batch batches IH]; intros st H;
    [exact H|].
  simpl. apply IH. now apply run_sound.
Qed.

Lemma started_sound (now : time) : weights_sound (config (started None now)).
Proof.
  split; [|reflexivity].
  intro m. destruct m; simpl; eexists; (split; [reflexivity|]);
    vm_compute; reflexivity.
Qed.

(** From the default configuration, whatever the batches, a run either
    returns or raises the [KeyError] of an entry without [feedback_type]. *)
Lemma run_raises_only_key_error
    (now : time) (batches : list (list Feedback)) (batch : list Feedback) :
  raises_only_key_error
    (fst (update_from_feedback batch (run_all batches (started None now)))).
Proof.
  apply run_sound, run_all_sound, started_sound.
Qed.

End Exceptions.

(* ================================================================== *)
(** ** The store across runs and restarts *)
(* ================================================================== *)

Section Store.
Import RL Spec More.

Lemma maintains_bind {A C} (P : State -> Prop) (m : M A) (k : A -> M C) :
  maintains P m -> (forall a, maintains P (k a)) -> maintains P (bind m k).
Proof.
  intros Hm Hk st H. unfold bind. specialize (Hm st H).
  destruct (m st) as [[a | e] st1]; simpl in *; [now apply Hk | exact Hm].
Qed.

Lemma maintains_ret {A} (P : State -> Prop) (a : A) : maintains P (ret a).
Proof. intros st H. exact H. Qed.

(** A run maintains what reading the clock and its four steps maintain. *)
Lemma run_maintains (P : State -> Prop) (batch : list Feedback) :
  (forall st, P st -> P (tick st)) ->
  maintains P (_analyze_web_search_performance batch) ->
  maintains P (_analyze_confidence_calibration batch) ->
  maintains P (_analyze_judge_correlation batch) ->
  maintains P (_record_performance batch) ->
  maintains P (update_from_feedback batch).
Proof.
  intros Ht H1 H2 H3 H4 st H.
  destruct (Z.lt_ge_cases (len batch) (min_samples (config st))) as [Hlt | Hge].
  - now rewrite (run_insufficient _ _ Hlt).
  - rewrite (run_eq _ _ Hge).
    revert H. generalize st at 1 3. intros st0 H. apply Ht in H. revert H.
    generalize (tick st0).
    repeat (apply maintains_bind; [assumption | intro]).
    apply maintains_ret.
Qed.

Lemma run_all_maintains (P : State -> Prop) :
  (forall batch, maintains P (update_from_feedback batch)) ->
  forall batches st, P st -> P (run_all batches st).
Proof.
  intros Hrun batches. induction batches as [|batch batches IH]; intros st H;
    [exact H|].
  simpl. apply IH. now apply Hrun.
Qed.

(** The state the recording leaves: the one it found, when the batch is
    empty or an entry has no [feedback_type]; otherwise the one its single
    [update] of the pruned history leaves. *)
Lemma record_cases (batch : list Feedback) (st : State) :
  snd (_record_performance batch st) = st
  \/ exists e,
       snd (_record_performance batch st)
       = snd (update
                [performance_history_is
                   (last_n 50 (performance_history (config st) ++ [e]))]
                (snd (append_history e (tick st)))).
Proof.
  destruct batch as [|f rest]; [now left|].
  set (batch := f :: rest).
  assert (Hlen : (len batch <> 0)%Z) by (unfold len; simpl; lia).
  change (_record_performance batch st)
    with (bind (lift (count_positive batch)) (fun positive =>
          bind (lift (int_div positive (len batch))) (fun positive_rate =>
          bind datetime_now (fun now =>
          bind (lift (int_div (web_search_count batch) (len batch)))
            (fun web_search_usage =>
          bind (append_history
                  {| timestamp := now;
                     total_feedback := length batch;
                     positive_rate := positive_rate;
                     avg_confidence :=
                       np_mean (map (fun f => get_or (confidence f) 0) batch);
                     web_search_usage := web_search_usage |}) (fun _ =>
          bind (gets (fun st => performance_history (config st)))
            (fun history =>
          update
            [performance_history_is
               (if (50 <? len history)%Z then slice_from (-50) history
                else history)])))))) st).
  destruct (count_positive batch) as [p | e'] eqn:Ep; mstep; [|now left].
  rewrite int_div_ok by exact Hlen. rewrite bind_lift_ok, bind_datetime_now.
  rewrite int_div_ok by exact Hlen. rewrite bind_lift_ok.
  right. eexists.
  unfold bind at 1. unfold append_history at 1, modify at 1.
  rewrite bind_gets, prune_eq. reflexivity.
Qed.

Lemma update_synced (items : list config_item) (st : State) :
  synced (snd (update items st)).
Proof. rewrite update_eq. reflexivity. Qed.

Lemma effect_store r st st' :
  one_update_or_none r st st' -> store_sound st -> store_sound st'.
Proof.
  intros [[_ ->] | [_ (item & Hitem & ->)]] (Hs & Hv & Hh); [now repeat split|].
  split; [apply update_synced|].
  rewrite update_eq.
  destruct item; try discriminate; cbn [snd config writes];
    unfold saved, dict_update;
    cbn [fold_left set_item version performance_history];
    split; try assumption; lia.
Qed.

Lemma last_n_short {A} (n : nat) (l : list A) : (length (last_n n l) <= n)%nat.
Proof. unfold last_n. rewrite length_skipn. lia. Qed.

Lemma record_store (batch : list Feedback) :
  maintains store_sound (_record_performance batch).
Proof.
  intros st (Hs & Hv & Hh).
  destruct (record_cases batch st) as [-> | [e ->]]; [now repeat split|].
  split; [apply update_synced|].
  rewrite update_eq. cbn [snd config writes]. unfold saved, dict_update.
  cbn [fold_left set_item version performance_history append_history modify
       set_config config writes tick datetime_now snd].
  split; [lia | apply last_n_short].
Qed.

Lemma run_store (batch : list Feedback) :
  maintains store_sound (update_from_feedback batch).
Proof.
  apply run_maintains.
  - intros st H. exact H.
  - intros st. apply (effect_store _ _ _ (web_analysis_effect batch st)).
  - intros st. apply (effect_store _ _ _ (calibration_effect batch st)).
  - intros st. apply (effect_store _ _ _ (judge_analysis_effect batch st)).
  - apply record_store.
Qed.

Lemma started_store (now : time) : store_sound (started None now).
Proof. repeat split. simpl. lia. Qed.

(** X1. After a first start and any series of runs, completed or not, the file
    holds exactly the configuration in memory, [version] is 1 plus the number
    of writes made, and the history has at most 50 snapshots. *)
Theorem store_in_step
    (now : time) (batches : list (list Feedback)) :
  let st := run_all batches (started None now) in
  disk st = Some (Json (config_items (config st)))
  /\ version (config st) = (1 + Z.of_nat (writes st))%Z
  /\ (length (performance_history (config st)) <= 50)%nat.
Proof.
  apply (run_all_maintains store_sound run_store), started_store.
Qed.

Lemma load_saved (c dflt : Config) : dict_update dflt (config_items c) = c.
Proof. destruct c. reflexivity. Qed.

(** A start on an existing, readable file: the keys of the file over the
    defaults; nothing is written. *)
Lemma started_on_file (items : list config_item) (now : time) :
  started (Some (Json items)) now
  = {| default_config := default_config_at now;
       config := dict_update (default_config_at now) items;
       disk := Some (Json items);
       writes := 0;
       clock := S now |}.
Proof.
  unfold started, RLConfig_init, bind, gets, modify, lift, ret.
  cbn -[dict_update default_config_at].
  now destruct (confidence_threshold _).
Qed.

(** Restarting on the file a configuration was written to gives that
    configuration back, writes nothing and leaves the version as it is. *)
Lemma restart_on_synced (st : State) (now : time) :
  synced st ->
  config (started (disk st) now) = config st
  /\ writes (started (disk st) now) = 0%nat
  /\ disk (started (disk st) now) = disk st.
Proof.
  unfold synced. intros ->. rewrite started_on_file.
  cbn [config writes disk]. now rewrite load_saved.
Qed.

(** X2. After a first start and any series of runs, a restart of the service
    finds on the file exactly the configuration that was in memory: nothing
    learned is lost, nothing is written, and the version is not advanced. *)
Theorem restart_recovers_configuration
    (now later : time) (batches : list (list Feedback)) :
  let st := run_all batches (started None now) in
  let st' := started (disk st) later in
  config st' = config st /\ writes st' = 0%nat /\ disk st' = disk st.
Proof.
  cbv zeta. apply restart_on_synced.
  apply (store_in_step now batches).
Qed.

End Store.

(* ================================================================== *)
(** ** The judge weights under the default learning rate *)
(* ================================================================== *)

Section JudgeWeightsAtRest.
Import RL Spec More.

Lemma fold_np_add_bound (l : list npfloat) :
  (forall q, In (Fin q) l -> 0 <= q) ->
  forall a t, 0 <= a -> fold_left np_add l (Fin a) = Fin t ->
  a <= t /\ forall q, In (Fin q) l -> q <= t.
Proof.
  induction l as [|v l IH]; intros Hpos a t Ha H.
  - simpl in H. injection H as ->. split; [apply Qle_refl | intros q []].
  - simpl in H. destruct v as [x|].
    + assert (Hx : 0 <= x) by (apply Hpos; now left).
      destruct (IH (fun q Hq => Hpos q (or_intror Hq)) (a + x) t) as [Hax Hl];
        [lra | exact H |].
      split; [lra|]. intros q [E | Hq]; [injection E as <-; lra | now apply Hl].
    + apply fold_np_add_fin in H. destruct H as [[b Hb] _]. discriminate.
Qed.

(** Every target weight lies in [0, 1]. *)
Lemma target_bounds (correlations : dict metric npfloat) (t : Q) (m : metric) :
  total_correlation correlations = Fin t -> 0 < t ->
  0 <= dict_get metric_eqb (target_weights_of correlations t) m (1 / 3) <= 1.
Proof.
  intros Htotal Ht. split; [now apply target_nonneg|].
  unfold dict_get. rewrite find_target_weights.
  destruct (dict_find metric_eqb correlations m) as [v|] eqn:Ef;
    [|vm_compute; discriminate].
  apply Qle_shift_div_r; [exact Ht|]. rewrite Qmult_1_l.
  destruct (metric_find_In _ _ _ Ef) as [k Hin].
  pose proof (total_correlation_fin _ _ Htotal) as Hfin.
  rewrite Forall_forall in Hfin. destruct (Hfin _ Hin) as [x Hx].
  simpl in Hx. subst v. simpl.
  unfold total_correlation in Htotal.
  assert (Hpos : forall q,
             In (Fin q) (map (fun kv => np_abs (snd kv)) correlations) ->
             0 <= q).
  { intros q Hq. apply in_map_iff in Hq. destruct Hq as ([k' [y|]] & E & _);
      simpl in E; [injection E as <-; apply Qabs_nonneg | discriminate]. }
  destruct (fold_np_add_bound _ Hpos 0 t (Qle_refl 0) Htotal) as [_ Hb].
  apply Hb. apply in_map_iff. exists (k, Fin x). now split.
Qed.

Lemma max_of_upper (c x : Q) (l : list Q) :
  x <= c -> Forall (fun y => y <= c) l -> max_of x l <= c.
Proof.
  unfold max_of. revert x. induction l as [|y l IH]; intros x Hx Hl;
    [exact Hx|].
  inversion Hl; subst. simpl. apply IH; [|assumption].
  now apply max2_upper.
Qed.

Lemma normalised_close (b total c : Q) :
  0 < total -> (c - 0.05) * total <= b -> b <= (c + 0.05) * total ->
  Qabs (b / total - c) <= 0.05.
Proof.
  intros Ht Hlo Hhi. apply Qabs_Qle_condition.
  assert (c - 0.05 <= b / total) by now apply Qle_shift_div_l.
  assert (b / total <= c + 0.05) by now apply Qle_shift_div_r.
  split; lra.
Qed.

(** The blend of the default weights with any targets in [0, 1], at the
    default rate, can be normalised and moves no weight by more than 0.05. *)
Lemma default_blend_settles (target_weights : dict metric Q) :
  (forall m, 0 <= dict_get metric_eqb target_weights m (1 / 3) <= 1) ->
  exists new_weights,
    normalise (blend default_judge_weights target_weights (0.1 * 0.5))
      (Qsum (map snd
               (blend default_judge_weights target_weights (0.1 * 0.5))))
    = Ok new_weights
    /\ Qltb 0.05 (max_change_of new_weights default_judge_weights) = false.
Proof.
  intro H.
  pose proof (H relevance) as B1. pose proof (H factuality) as B2.
  pose proof (H completeness) as B3.
  unfold blend, metrics, Qsum. cbn [map snd fst fold_left].
  change (dict_get metric_eqb default_judge_weights relevance (1 / 3))
    with 0.4.
  change (dict_get metric_eqb default_judge_weights factuality (1 / 3))
    with 0.4.
  change (dict_get metric_eqb default_judge_weights completeness (1 / 3))
    with 0.2.
  set (x := dict_get metric_eqb _ relevance (1 / 3)) in *.
  set (y := dict_get metric_eqb _ factuality (1 / 3)) in *.
  set (z := dict_get metric_eqb _ completeness (1 / 3)) in *.
  set (b1 := 0.4 * (1 - 0.1 * 0.5) + x * (0.1 * 0.5)).
  set (b2 := 0.4 * (1 - 0.1 * 0.5) + y * (0.1 * 0.5)).
  set (b3 := 0.2 * (1 - 0.1 * 0.5) + z * (0.1 * 0.5)).
  assert (Htotal : 0 < 0 + b1 + b2 + b3) by (unfold b1, b2, b3; lra).
  unfold normalise.
  destruct (Qeq_bool (0 + b1 + b2 + b3) 0) eqn:E0.
  { apply Qeq_bool_iff in E0. lra. }
  eexists. split; [reflexivity|].
  apply Qltb_ge. unfold max_change_of. cbn [map fst snd].
  change (dict_get metric_eqb default_judge_weights relevance 0) with 0.4.
  change (dict_get metric_eqb default_judge_weights factuality 0) with 0.4.
  change (dict_get metric_eqb default_judge_weights completeness 0) with 0.2.
  apply max_of_upper; [|repeat constructor];
    apply normalised_close; try exact Htotal; unfold b1, b2, b3; lra.
Qed.

(** With the default judge weights and the default learning rate no weight
    would move by more than 0.05: the analysis leaves the state alone. *)
Lemma judge_analysis_idle (batch : list Feedback) (st : State) :
  judge_weights (config st) = default_judge_weights ->
  learning_rate (config st) = 0.1 ->
  snd (_analyze_judge_correlation batch st) = st
  /\ applied (fst (_analyze_judge_correlation batch st)) = 0%nat.
Proof.
  intros Hw Hrate.
  unfold _analyze_judge_correlation.
  destruct (len batch <? 10)%Z; [now split|].
  destruct (correlate metrics batch []) as [corr | e'];
    [rewrite bind_lift_ok | rewrite bind_lift_raise; now split].
  destruct corr as [|kv corr]; [now split|].
  rewrite bind_gets.
  destruct (total_correlation (kv :: corr)) as [total_corr|] eqn:Etotal;
    [|now split].
  destruct (Qltb 0 total_corr) eqn:Et; [|now split].
  apply Qltb_lt in Et. cbv zeta.
  rewrite Hw, Hrate.
  destruct (default_blend_settles
              (target_weights_of (kv :: corr) total_corr)
              (fun m => target_bounds (kv :: corr) total_corr m Etotal Et))
    as (new_weights & -> & Hmax).
  rewrite bind_lift_ok, Hmax. now split.
Qed.

End JudgeWeightsAtRest.

(* ================================================================== *)
(** ** What the runs keep of the default configuration *)
(* ================================================================== *)

Section Tuned.
Import RL Spec More.

(** The state the web-search analysis leaves. *)
Lemma web_analysis_cases (batch : list Feedback) (st : State) :
  snd (_analyze_web_search_performance batch st) = st
  \/ exists new,
       snd (_analyze_web_search_performance batch st)
       = snd (update
                [web_search_is
                   (with_confidence_threshold (web_search (config st)) new)]
                st).
Proof.
  rewrite web_analysis_eq.
  destruct (_ || _); [now left|].
  destruct (forallb _ _); [|now left].
  cbv zeta.
  destruct (Qltb _ _); [right; eexists; reflexivity|].
  destruct (Qltb _ _); [right; eexists; reflexivity | now left].
Qed.

(** The state the calibration leaves. *)
Lemma calibration_cases (batch : list Feedback) (st : State) :
  snd (_analyze_confidence_calibration batch st) = st
  \/ snd (_analyze_confidence_calibration batch st)
     = snd (update
              [confidence_weights_is
                 (calibrated (confidence_weights (config st))
                    (learning_rate (config st)))]
              st).
Proof.
  unfold _analyze_confidence_calibration. cbv zeta.
  destruct (3 <=? _)%Z; [|now left].
  destruct (count_positive _) as [p | e]; mstep; [|now left].
  destruct (int_div _ _) as [q | e]; mstep; [|now left].
  destruct (Qltb q 0.6); [|now left].
  right. reflexivity.
Qed.

Lemma calibrated_balanced (w : ConfidenceWeights) :
  balanced w -> balanced (calibrated w 0.1).
Proof.
  intros (r & a & -> & Hsum & Hr).
  unfold calibrated, balanced. cbn [retrieval_eval answer_quality get_or].
  eexists _, _. split; [reflexivity|].
  unfold max2, min2.
  destruct (Qltb 0.3 (r - 0.1)) eqn:E1;
    [apply Qltb_lt in E1 | apply Qltb_ge in E1];
    (destruct (Qltb (a + 0.1) 0.7) eqn:E2;
     [apply Qltb_lt in E2 | apply Qltb_ge in E2]);
    split; lra.
Qed.

Lemma web_analysis_tuned batch :
  maintains tuned (_analyze_web_search_performance batch).
Proof.
  intros st H. destruct (web_analysis_cases batch st) as [-> | [new ->]];
    [exact H|].
  rewrite update_eq. exact H.
Qed.

Lemma calibration_tuned batch :
  maintains tuned (_analyze_confidence_calibration batch).
Proof.
  intros st H. destruct (calibration_cases batch st) as [-> | ->];
    [exact H|].
  rewrite update_eq. destruct H as (H1 & H2 & H3 & H4).
  repeat split; try assumption.
  cbn [snd config]. unfold saved, dict_update.
  cbn [fold_left set_item confidence_weights].
  rewrite H3. now apply calibrated_balanced.
Qed.

Lemma judge_analysis_tuned batch :
  maintains tuned (_analyze_judge_correlation batch).
Proof.
  intros st H. destruct H as (H1 & H2 & H3 & H4).
  destruct (judge_analysis_idle batch st H2 H3) as [-> _].
  now repeat split.
Qed.

Lemma record_tuned batch : maintains tuned (_record_performance batch).
Proof.
  intros st H. destruct (record_cases batch st) as [-> | [e ->]];
    [exact H|].
  rewrite update_eq. exact H.
Qed.

Lemma run_tuned batch : maintains tuned (update_from_feedback batch).
Proof.
  apply run_maintains.
  - intros st H. exact H.
  - apply web_analysis_tuned.
  - apply calibration_tuned.
  - apply judge_analysis_tuned.
  - apply record_tuned.
Qed.

Lemma started_tuned (now : time) : tuned (started None now).
Proof.
  repeat split. exists 0.5, 0.5. repeat split; vm_compute; discriminate.
Qed.

Lemma reached_tuned now batches : tuned (reached now batches).
Proof. apply (run_all_maintains tuned run_tuned), started_tuned. Qed.

Lemma reached_settled now batches : settled (reached now batches).
Proof. apply run_all_settled, started_settled. Qed.

(** X3. From the default configuration the judge weights never move: whatever
    the batches, they stay at 0.4, 0.4, 0.2, and the judge-correlation
    analysis of a further batch applies no update. *)
Theorem judge_weights_stay_default
    (now : time) (batches : list (list Feedback)) (batch : list Feedback) :
  let st := reached now batches in
  judge_weights (config st)
  = [(relevance, 0.4); (factuality, 0.4); (completeness, 0.2)]
  /\ snd (_analyze_judge_correlation batch st) = st
  /\ forall a, fst (_analyze_judge_correlation batch st) <> Ok (Some a).
Proof.
  cbv zeta. destruct (reached_tuned now batches) as (H1 & H2 & H3 & H4).
  destruct (judge_analysis_idle batch _ H2 H3) as [Hst Ha].
  split; [exact H2|]. split; [exact Hst|].
  intros a E. rewrite E in Ha. discriminate.
Qed.

(** X4. From the default configuration the confidence weights never drift
    apart: after any series of runs both are present, they sum to 1, the
    retrieval weight is in [0.3, 0.5] and the answer weight in [0.5, 0.7]. *)
Theorem confidence_weights_stay_balanced
    (now : time) (batches : list (list Feedback)) :
  exists r a,
    confidence_weights (config (reached now batches))
    = {| retrieval_eval := Some r; answer_quality := Some a |}
    /\ r + a == 1 /\ 0.3 <= r <= 0.5 /\ 0.5 <= a <= 0.7.
Proof.
  destruct (reached_tuned now batches) as (_ & _ & _ & r & a & E & Hs & Hr).
  exists r, a. repeat split; try assumption; lra.
Qed.

End Tuned.

(* ================================================================== *)
(** ** Decisions and scores under the learned configuration *)
(* ================================================================== *)

Section Decisions.
Import RL Spec More Rounding.

(** X5. From the default configuration the web-search decision is always
    "confidence below the learned threshold, or judge score below 5", the
    threshold being within [0.5, 0.9]: the judge threshold is never
    adjusted. *)
Theorem trigger_decision
    (now : time) (batches : list (list Feedback)) (confidence judge_score : Q) :
  let st := reached now batches in
  should_trigger_web_search st confidence judge_score
  = Qltb confidence (threshold st) || Qltb judge_score 5
  /\ 0.5 <= threshold st <= 0.9.
Proof.
  cbv zeta. destruct (reached_tuned now batches) as (H1 & _).
  destruct (reached_settled now batches) as (Ht & _).
  split; [|exact Ht].
  unfold should_trigger_web_search. rewrite H1. reflexivity.
Qed.

Lemma clamp_inside (lo hi v : Q) :
  lo <= v <= hi -> max2 lo (min2 hi v) == v.
Proof.
  intros [Hlo Hhi]. unfold max2, min2.
  destruct (Qltb v hi) eqn:E1; [apply Qltb_lt in E1 | apply Qltb_ge in E1].
  - destruct (Qltb lo v) eqn:E2; [reflexivity | apply Qltb_ge in E2; lra].
  - destruct (Qltb lo hi) eqn:E2; [lra | apply Qltb_ge in E2; lra].
Qed.

Lemma weighted_within (r a x y lo hi : Q) :
  0 <= r -> 0 <= a -> r + a == 1 -> lo <= x <= hi -> lo <= y <= hi ->
  lo <= r * x + a * y <= hi.
Proof.
  intros Hr Ha Hs [Hx1 Hx2] [Hy1 Hy2].
  assert (lo * r <= x * r) by (apply Qmult_le_compat_r; assumption).
  assert (x * r <= hi * r) by (apply Qmult_le_compat_r; assumption).
  assert (lo * a <= y * a) by (apply Qmult_le_compat_r; assumption).
  assert (y * a <= hi * a) by (apply Qmult_le_compat_r; assumption).
  assert (Ea : a == 1 - r) by lra.
  assert (lo * r + lo * a == lo) by (rewrite Ea; ring).
  assert (hi * r + hi * a == hi) by (rewrite Ea; ring).
  split; lra.
Qed.

(** X6. From the default configuration, for scores in [0, 10], the confidence
    is, up to rounding, the weighted average of the two scores over 10,
    with weights that sum to 1 up to rounding: it lies in [0, 1] and, up to
    rounding, between the two normalised scores. *)
Theorem confidence_is_weighted_average
    (now : time) (batches : list (list Feedback))
    (retrieval_score answer_score : Q) :
  0 <= retrieval_score <= 10 ->
  0 <= answer_score <= 10 ->
  let st := reached now batches in
  let confidence :=
    calculate_weighted_confidence st retrieval_score answer_score in
  exists r a,
    confidence_weights (config st)
    = {| retrieval_eval := Some r; answer_quality := Some a |}
    /\ about 1 (r + a)
    /\ about (r * (retrieval_score / 10) + a * (answer_score / 10)) confidence
    /\ Qmin (retrieval_score / 10) (answer_score / 10) - rounding
       <= confidence
    /\ confidence
       <= Qmax (retrieval_score / 10) (answer_score / 10) + rounding
    /\ 0 <= confidence <= 1.
Proof.
  intros Hr Ha. cbv zeta.
  destruct (reached_tuned now batches) as (_ & _ & _ & r & a & E & Hs & Hb).
  exists r, a. split; [exact E|].
  split; [apply about_exact; [discriminate | exact Hs]|].
  unfold calculate_weighted_confidence. rewrite E.
  cbn [retrieval_eval answer_quality get_or].
  set (x := retrieval_score / 10). set (y := answer_score / 10).
  assert (Hx : 0 <= x <= 1)
    by (unfold x; split;
        [apply Qle_shift_div_l; lra | apply Qle_shift_div_r; lra]).
  assert (Hy : 0 <= y <= 1)
    by (unfold y; split;
        [apply Qle_shift_div_l; lra | apply Qle_shift_div_r; lra]).
  assert (H01 : 0 <= r * x + a * y <= 1)
    by (apply weighted_within; try assumption; lra).
  pose proof (clamp_inside 0 1 _ H01) as Hclamp.
  split; [apply about_exact; [discriminate | exact Hclamp]|].
  assert (Hm : Qmin x y <= r * x + a * y <= Qmax x y).
  { apply weighted_within; try lra;
      split; auto using Q.le_min_l, Q.le_min_r, Q.le_max_l, Q.le_max_r. }
  rewrite Hclamp. unfold rounding. repeat split; lra.
Qed.

Lemma confidence_is_weighted_average_witness :
  (0 <= 7 <= 10) /\ (0 <= 8 <= 10)
  /\ exists r a,
       confidence_weights (config (reached 0%nat [test_batch]))
       = {| retrieval_eval := Some r; answer_quality := Some a |}
       /\ about 1 (r + a)
       /\ about (r * (7 / 10) + a * (8 / 10))
            (calculate_weighted_confidence (reached 0%nat [test_batch]) 7 8)
       /\ Qmin (7 / 10) (8 / 10) - rounding
          <= calculate_weighted_confidence (reached 0%nat [test_batch]) 7 8
       /\ calculate_weighted_confidence (reached 0%nat [test_batch]) 7 8
          <= Qmax (7 / 10) (8 / 10) + rounding
       /\ 0 <= calculate_weighted_confidence (reached 0%nat [test_batch]) 7 8
          <= 1.
Proof.
  split; [lra|]. split; [lra|].
  apply (confidence_is_weighted_average 0%nat [test_batch] 7 8); lra.
Defined.

(** X7. The weighted judge score is within [0, 10] whatever the weights and
    the scores; from the default configuration, for scores in [0, 10] (a
    missing score counts 5), it is exactly
    [0.4 * relevance + 0.4 * factuality + 0.2 * completeness]. *)
Theorem judge_score_is_weighted_sum
    (now : time) (batches : list (list Feedback))
    (judge_scores : dict metric Q) :
  (forall m, 0 <= score_of judge_scores m <= 10) ->
  let score :=
    calculate_weighted_judge_score (reached now batches) judge_scores in
  score == 0.4 * score_of judge_scores relevance
           + 0.4 * score_of judge_scores factuality
           + 0.2 * score_of judge_scores completeness
  /\ 0 <= score <= 10.
Proof.
  intros H. cbv zeta.
  destruct (reached_tuned now batches) as (_ & Hw & _).
  unfold calculate_weighted_judge_score. rewrite Hw.
  change (dict_get metric_eqb default_judge_weights relevance 0.4) with 0.4.
  change (dict_get metric_eqb default_judge_weights factuality 0.4) with 0.4.
  change (dict_get metric_eqb default_judge_weights completeness 0.2) with 0.2.
  fold (score_of judge_scores relevance).
  fold (score_of judge_scores factuality).
  fold (score_of judge_scores completeness).
  pose proof (H relevance). pose proof (H factuality).
  pose proof (H completeness).
  split.
  - apply clamp_inside. lra.
  - split; [apply max2_lower | apply max2_upper; [lra | apply min2_upper]].
Qed.

Lemma judge_score_is_weighted_sum_witness :
  (forall m, 0 <= score_of even_scores m <= 10)
  /\ calculate_weighted_judge_score (reached 0%nat [test_batch]) even_scores
     == 0.4 * score_of even_scores relevance
        + 0.4 * score_of even_scores factuality
        + 0.2 * score_of even_scores completeness.
Proof.
  assert (H : forall m, 0 <= score_of even_scores m <= 10)
    by (intro m; destruct m; vm_compute; split; discriminate).
  split; [exact H|].
  apply (judge_score_is_weighted_sum 0%nat [test_batch] even_scores H).
Defined.

End Decisions.

(* ================================================================== *)
(** ** The trend of separated and of flat histories *)
(* ================================================================== *)

Section TrendOfHistories.
Import RL Spec More Rounding.

Lemma Qsum_bounds (lo hi : Q) (l : list Q) (a : Q) :
  Forall (fun x => lo <= x <= hi) l ->
  a + lo * inject_Z (Z.of_nat (length l)) <= fold_left Qplus l a
  /\ fold_left Qplus l a <= a + hi * inject_Z (Z.of_nat (length l)).
Proof.
  revert a. induction l as [|x l IH]; intros a H.
  - cbn [length fold_left Z.of_nat]. change (inject_Z 0) with 0. split; lra.
  - inversion H as [|? ? Hx Hl]; subst.
    destruct (IH (a + x) Hl) as [H1 H2].
    simpl fold_left. simpl length. rewrite Nat2Z.inj_succ.
    unfold Z.succ. rewrite inject_Z_plus.
    change (inject_Z 1) with 1. split; lra.
Qed.

Lemma mean_bounds (lo hi : Q) (l : list Q) :
  l <> [] -> Forall (fun x => lo <= x <= hi) l -> lo <= mean l <= hi.
Proof.
  intros Hne H. unfold mean, Qsum.
  destruct (Qsum_bounds lo hi l 0 H) as [H1 H2].
  assert (Hn : 0 < inject_Z (Z.of_nat (length l))).
  { destruct l; [congruence|]. simpl length.
    change 0 with (inject_Z 0). rewrite <- Zlt_Qlt. lia. }
  split; [apply Qle_shift_div_l | apply Qle_shift_div_r]; try exact Hn; lra.
Qed.

Lemma prefix_incl {A} (n : nat) (l : list A) : incl (firstn n l) l.
Proof.
  intros x H. rewrite <- (firstn_skipn n l). apply in_or_app. now left.
Qed.

Lemma suffix_incl {A} (n : nat) (l : list A) : incl (skipn n l) l.
Proof.
  intros x H. rewrite <- (firstn_skipn n l). apply in_or_app. now right.
Qed.

(** The answer of the trend query on a history of at least two snapshots,
    in terms of its two windows. *)
Lemma get_performance_trend_eq (st : State) :
  let history := performance_history (config st) in
  (2 <= length history)%nat ->
  recent_window_of history <> [] /\ older_window_of history <> []
  /\ get_performance_trend st
     = trend_success
         (Fin (mean (map positive_rate (recent_window_of history))))
         (Fin (mean (map positive_rate (older_window_of history))))
         (Fin (mean (map positive_rate (recent_window_of history))
               - mean (map positive_rate (older_window_of history))))
         (label_of
            (mean (map positive_rate (recent_window_of history))
             - mean (map positive_rate (older_window_of history))))
         (length history).
Proof.
  intros history Hn.
  pose proof (recent_count_bounds _ Hn) as Hr.
  pose proof (older_count_bounds _ Hn) as Ho.
  assert (Hrne : recent_window_of history <> []).
  { intro E. apply (f_equal (@length _)) in E. unfold recent_window_of in E.
    rewrite last_n_length in E by lia. simpl in E. lia. }
  assert (Hone : older_window_of history <> []).
  { intro E. apply (f_equal (@length _)) in E. unfold older_window_of in E.
    rewrite length_firstn in E. simpl in E. lia. }
  split; [exact Hrne|]. split; [exact Hone|].
  unfold get_performance_trend. cbv zeta. fold history.
  destruct (Z.of_nat (length history) <? 2)%Z eqn:E2;
    [apply Z.ltb_lt in E2; lia|].
  rewrite recent_window, older_window.
  fold (recent_window_of history). fold (older_window_of history).
  rewrite !np_mean_nonempty; [reflexivity | |].
  - intro E. apply map_eq_nil in E. contradiction.
  - intro E. apply map_eq_nil in E. contradiction.
Qed.

(** X8. Take rates [0 <= a <= b <= 1].  If every snapshot of the older
    window has a positive rate of at most [a], every snapshot of the recent
    window one of at least [b], and [b] exceeds [a] by clearly more than
    0.02, the trend is [improving]; in the mirrored situation it is
    [declining]; and if all rates of the history lie between [a] and [b],
    clearly less than 0.02 apart, it is [stable].  "Clearly" leaves room
    for the rounding of the two means and of their difference. *)
Theorem trend_of_separated_history (st : State) (a b : Q) :
  let history := performance_history (config st) in
  (2 <= length history)%nat ->
  0 <= a -> a <= b -> b <= 1 ->
  (rates_within 0 a (older_window_of history) ->
   rates_within b 1 (recent_window_of history) ->
   a + 0.02 + rounding <= b ->
   trend_of (get_performance_trend st) = Some improving)
  /\ (rates_within b 1 (older_window_of history) ->
      rates_within 0 a (recent_window_of history) ->
      a + 0.02 + rounding <= b ->
      trend_of (get_performance_trend st) = Some declining)
  /\ (rates_within a b history ->
      b - a + rounding <= 0.02 ->
      trend_of (get_performance_trend st) = Some stable).
Proof.
  intros history Hn _ _ _.
  destruct (get_performance_trend_eq st Hn) as (Hr & Ho & E).
  fold history in Hr, Ho, E. rewrite E. cbn [trend_of].
  assert (Hmap : forall lo hi w,
             w <> [] -> rates_within lo hi w ->
             lo <= mean (map positive_rate w) <= hi).
  { intros lo hi w Hw H. apply mean_bounds.
    - intro E'. apply map_eq_nil in E'. contradiction.
    - unfold rates_within in H. rewrite Forall_map. exact H. }
  destruct (label_of_cases
              (mean (map positive_rate (recent_window_of history))
               - mean (map positive_rate (older_window_of history))))
    as (L1 & L2 & L3).
  unfold rounding. repeat split.
  - intros Hold Hrec Hab. f_equal. apply L1.
    pose proof (Hmap _ _ _ Ho Hold). pose proof (Hmap _ _ _ Hr Hrec). lra.
  - intros Hold Hrec Hab. f_equal. apply L3.
    pose proof (Hmap _ _ _ Ho Hold). pose proof (Hmap _ _ _ Hr Hrec). lra.
  - intros Hflat Hab. f_equal. apply L2.
    assert (Hsub : forall w, incl w history -> rates_within a b w).
    { intros w Hw. unfold rates_within in *. rewrite Forall_forall in *.
      intros e He. apply Hflat, Hw, He. }
    pose proof (Hmap _ _ _ Ho (Hsub _ (prefix_incl _ history))).
    pose proof (Hmap _ _ _ Hr (Hsub _ (suffix_incl _ history))).
    lra.
Qed.

(** A history that rises from 0.2 to 0.8 is [improving], one that falls
    from 0.8 to 0.2 [declining], and one that stays between 0.5 and 0.51
    [stable]. *)
Lemma trend_of_separated_history_witness :
  let rising := with_history (started None 0%nat)
                  (snapshots [0.2; 0.2; 0.8; 0.8]) in
  let falling := with_history (started None 0%nat)
                   (snapshots [0.8; 0.8; 0.2; 0.2]) in
  let level := with_history (started None 0%nat)
                 (snapshots [0.5; 0.51; 0.5; 0.51]) in
  trend_of (get_performance_trend rising) = Some improving
  /\ trend_of (get_performance_trend falling) = Some declining
  /\ trend_of (get_performance_trend level) = Some stable.
Proof.
  cbv zeta.
  assert (Hn : forall rates : list Q,
             length rates = 4%nat ->
             (2 <= length
                     (performance_history
                        (config (with_history (started None 0%nat)
                                   (snapshots rates)))))%nat).
  { intros rates E. cbn [with_history]. simpl. unfold snapshots.
    rewrite length_map, E. lia. }
  assert (Hgap : 0.2 + 0.02 + rounding <= 0.8) by (vm_compute; discriminate).
  assert (Hnear : 0.51 - 0.5 + rounding <= 0.02)
    by (vm_compute; discriminate).
  split; [|split].
  - refine (proj1 (trend_of_separated_history
                     (with_history (started None 0%nat)
                        (snapshots [0.2; 0.2; 0.8; 0.8]))
                     0.2 0.8 (Hn [0.2; 0.2; 0.8; 0.8] eq_refl) _ _ _)
              _ _ Hgap);
      try (vm_compute; discriminate);
      repeat constructor; vm_compute; discriminate.
  - refine (proj1 (proj2 (trend_of_separated_history
                            (with_history (started None 0%nat)
                               (snapshots [0.8; 0.8; 0.2; 0.2]))
                            0.2 0.8 (Hn [0.8; 0.8; 0.2; 0.2] eq_refl)
                            _ _ _)) _ _ Hgap);
      try (vm_compute; discriminate);
      repeat constructor; vm_compute; discriminate.
  - refine (proj2 (proj2 (trend_of_separated_history
                            (with_history (started None 0%nat)
                               (snapshots [0.5; 0.51; 0.5; 0.51]))
                            0.5 0.51 (Hn [0.5; 0.51; 0.5; 0.51] eq_refl)
                            _ _ _)) _ Hnear);
      try (vm_compute; discriminate);
      repeat constructor; vm_compute; discriminate.
Defined.

End TrendOfHistories.

(* ================================================================== *)
(** ** Fusion: the document that leads both lists *)
(* ================================================================== *)

Section FusionTop.
Import HybridSearch Spec More.

Lemma reciprocal_pos (n : Z) : (0 < n)%Z -> 0 < 1 / inject_Z n.
Proof.
  intro H. apply Qlt_shift_div_l.
  - change 0 with (inject_Z 0). now rewrite <- Zlt_Qlt.
  - lra.
Qed.

Lemma reciprocal_antitone (a b : Z) :
  (0 < a)%Z -> (a <= b)%Z -> 1 / inject_Z b <= 1 / inject_Z a.
Proof.
  intros Ha Hab.
  assert (HA : 0 < inject_Z a)
    by (change 0 with (inject_Z 0); rewrite <- Zlt_Qlt; lia).
  assert (HB : 0 < inject_Z b)
    by (change 0 with (inject_Z 0); rewrite <- Zlt_Qlt; lia).
  assert (HAB : inject_Z a <= inject_Z b) by (rewrite <- Zle_Qle; lia).
  apply Qle_shift_div_r; [exact HB|].
  assert (E : 1 / inject_Z a * inject_Z b == inject_Z b / inject_Z a)
    by (field; lra).
  rewrite E. apply Qle_shift_div_l; [exact HA | lra].
Qed.

Lemma reciprocal_strict (a : Z) :
  (0 < a)%Z -> 1 / inject_Z (a + 1) < 1 / inject_Z a.
Proof.
  intros Ha.
  assert (HA : 0 < inject_Z a)
    by (change 0 with (inject_Z 0); rewrite <- Zlt_Qlt; lia).
  assert (HB : 0 < inject_Z (a + 1))
    by (change 0 with (inject_Z 0); rewrite <- Zlt_Qlt; lia).
  assert (HAB : inject_Z a < inject_Z (a + 1)) by (rewrite <- Zlt_Qlt; lia).
  apply Qlt_shift_div_r; [exact HB|].
  assert (E : 1 / inject_Z a * inject_Z (a + 1)
              == inject_Z (a + 1) / inject_Z a) by (field; lra).
  rewrite E. apply Qlt_shift_div_l; [exact HA | lra].
Qed.

Lemma rank_sum_nonneg (k : Z) (l : list ranked) (d : doc_id) :
  (0 <= k)%Z -> forall rank, (0 < rank)%Z -> 0 <= rank_sum k rank l d.
Proof.
  intro Hk. induction l as [|[x s] l IH]; intros rank Hr; simpl.
  - apply Qle_refl.
  - pose proof (IH (rank + 1)%Z ltac:(lia)).
    pose proof (reciprocal_pos (k + rank) ltac:(lia)).
    destruct (x =? d)%Z; lra.
Qed.

Lemma rank_sum_absent (k : Z) (l : list ranked) (d : doc_id) :
  ~ In d (map fst l) -> forall rank, rank_sum k rank l d == 0.
Proof.
  induction l as [|[x s] l IH]; intros Hd rank; simpl; [reflexivity|].
  simpl in Hd. destruct (x =? d)%Z eqn:E.
  - apply Z.eqb_eq in E. tauto.
  - rewrite IH by tauto. ring.
Qed.

(** In a list without repeated documents a document holds one rank at
    most. *)
Lemma rank_sum_le (k : Z) (l : list ranked) (d : doc_id) :
  (0 <= k)%Z -> NoDup (map fst l) ->
  forall rank, (0 < rank)%Z -> rank_sum k rank l d <= 1 / inject_Z (k + rank).
Proof.
  intro Hk. induction l as [|[x s] l IH]; intros Hnd rank Hr; simpl.
  - apply Qlt_le_weak, reciprocal_pos. lia.
  - simpl in Hnd. inversion Hnd as [|? ? Hx Hl]; subst.
    destruct (x =? d)%Z eqn:E.
    + apply Z.eqb_eq in E. subst x. rewrite rank_sum_absent by exact Hx. lra.
    + pose proof (IH Hl (rank + 1)%Z ltac:(lia)) as H1.
      pose proof (reciprocal_antitone (k + rank) (k + (rank + 1))
                    ltac:(lia) ltac:(lia)).
      lra.
Qed.

(** X9. A document that is first of both lists, neither list repeating a
    document, is first of the fusion, with score [2/(k+1)]. *)
Theorem leader_of_both_lists_leads
    (d : doc_id) (scoreA scoreB : Q) (restA restB : list ranked) (k : Z) :
  (0 <= k)%Z ->
  NoDup (d :: map fst restA) ->
  NoDup (d :: map fst restB) ->
  exists s rest,
    reciprocal_rank_fusion ((d, scoreA) :: restA) ((d, scoreB) :: restB) k
    = Ok ((d, s) :: rest)
    /\ s == 1 / inject_Z (k + 1) + 1 / inject_Z (k + 1).
Proof.
  intros Hk HA HB.
  set (listA := (d, scoreA) :: restA). set (listB := (d, scoreB) :: restB).
  destruct (reciprocal_rank_fusion_spec listA listB k Hk)
    as (out & Hout & Hperm & Hval & Hsorted & _).
  inversion HA as [|? ? HdA HndA]; subst.
  inversion HB as [|? ? HdB HndB]; subst.
  assert (Htop : rrf_total k listA listB d
                 == 1 / inject_Z (k + 1) + 1 / inject_Z (k + 1)).
  { unfold rrf_total, listA, listB. simpl. rewrite Z.eqb_refl.
    rewrite !rank_sum_absent by assumption. ring. }
  assert (Hother : forall d', d' <> d ->
             rrf_total k listA listB d'
             < 1 / inject_Z (k + 1) + 1 / inject_Z (k + 1)).
  { intros d' Hd'. unfold rrf_total, listA, listB. simpl.
    destruct (d =? d')%Z eqn:E; [apply Z.eqb_eq in E; congruence|].
    pose proof (rank_sum_le k restA d' Hk HndA 2%Z ltac:(lia)).
    pose proof (rank_sum_le k restB d' Hk HndB 2%Z ltac:(lia)).
    pose proof (reciprocal_strict (k + 1) ltac:(lia)) as Hs.
    replace (k + 1 + 1)%Z with (k + 2)%Z in Hs by lia.
    lra. }
  assert (Hin : In d (map fst out)).
  { eapply Permutation_in; [apply Permutation_sym, Hperm|].
    unfold scan, listA. simpl. now left. }
  destruct out as [|[d0 s0] rest]; [destruct Hin|].
  destruct (Z.eq_dec d0 d) as [-> | Hne].
  - exists s0, rest. split; [exact Hout|].
    rewrite (Hval d s0 (or_introl eq_refl)). exact Htop.
  - exfalso. destruct Hin as [E | Hin]; [simpl in E; congruence|].
    apply in_map_iff in Hin. destruct Hin as ([d1 s1] & E & Hin1).
    simpl in E. subst d1.
    inversion Hsorted as [|? ? _ Hall]; subst.
    rewrite Forall_forall in Hall. specialize (Hall _ Hin1). simpl in Hall.
    pose proof (Hval d s1 (or_intror Hin1)) as E1.
    pose proof (Hval d0 s0 (or_introl eq_refl)) as E0.
    pose proof (Hother d0 Hne). lra.
Qed.

Lemma leader_of_both_lists_leads_witness :
  (0 <= 60)%Z
  /\ NoDup (3%Z :: map fst [(1%Z, 0.8); (2%Z, 0.7)])
  /\ NoDup (3%Z :: map fst [(4%Z, 6); (1%Z, 5)])
  /\ exists s rest,
       reciprocal_rank_fusion
         [(3%Z, 0.9); (1%Z, 0.8); (2%Z, 0.7)] [(3%Z, 7); (4%Z, 6); (1%Z, 5)] 60
       = Ok ((3%Z, s) :: rest)
       /\ s == 1 / inject_Z (60 + 1) + 1 / inject_Z (60 + 1).
Proof.
  assert (N1 : NoDup (3%Z :: map fst [(1%Z, 0.8); (2%Z, 0.7)]))
    by (repeat constructor; simpl; intuition discriminate).
  assert (N2 : NoDup (3%Z :: map fst [(4%Z, 6); (1%Z, 5)]))
    by (repeat constructor; simpl; intuition discriminate).
  split; [lia|]. split; [exact N1|]. split; [exact N2|].
  apply (leader_of_both_lists_leads 3%Z 0.9 7 [(1%Z, 0.8); (2%Z, 0.7)]
           [(4%Z, 6); (1%Z, 5)] 60%Z ltac:(lia) N1 N2).
Defined.

End FusionTop.

(* ================================================================== *)
(** ** RLConfig.get *)
(* ================================================================== *)

Section DottedGetFacts.
Import RL Spec More DottedGet.
#[local] Open Scope string_scope.

Lemma item_or_find (d : list (string * pyval)) (key : string) (default : pyval) :
  item_or d key default
  = match dict_find String.eqb d key with
    | Some v => v
    | None => default
    end.
Proof.
  induction d as [|[k v] d IH]; [reflexivity|].
  simpl. destruct (String.eqb k key); [reflexivity | exact IH].
Qed.

Lemma walk_default (keys : list string) (default : pyval) :
  is_dict default = false -> walk default keys default = default.
Proof.
  intro H. destruct keys as [|k keys]; [reflexivity|].
  destruct default; try reflexivity. discriminate.
Qed.

(** With a default that is not a dictionary, the loop of [get] returns the
    nested item when every key of the path is there, and the default as soon
    as a key is missing or an item on the way is not a dictionary. *)
Lemma walk_item_at (value : pyval) (keys : list string) (default : pyval) :
  is_dict default = false ->
  walk value keys default
  = match item_at value keys with
    | Some v => v
    | None => default
    end.
Proof.
  intro Hd. revert value. induction keys as [|k keys IH]; intro value;
    [reflexivity|].
  simpl. destruct value; try reflexivity.
  rewrite item_or_find.
  destruct (dict_find String.eqb d k) as [v|]; [apply IH|].
  now apply walk_default.
Qed.

(** X11. [get] with a default that is not a dictionary: the item the dotted path
    leads to, or the default when a segment is missing or an item on the way
    is not a dictionary. *)
Theorem get_follows_path (config : pyval) (key : string) (default : pyval) :
  is_dict default = false ->
  get config key default
  = match item_at config (split_dots key EmptyString) with
    | Some v => v
    | None => default
    end.
Proof. intro H. unfold get. now apply walk_item_at. Qed.

Lemma get_follows_path_witness :
  is_dict (PNum 0.7) = false
  /\ get (py_config (default_config_at 0%nat))
       "web_search.confidence_threshold" (PNum 0.7)
     = match item_at (py_config (default_config_at 0%nat))
               (split_dots "web_search.confidence_threshold" EmptyString) with
       | Some v => v
       | None => PNum 0.7
       end.
Proof.
  split; [reflexivity|].
  apply (get_follows_path (py_config (default_config_at 0%nat))
           "web_search.confidence_threshold" (PNum 0.7)).
  reflexivity.
Defined.

(** X12. What the optimizer reads through [get] is what the configuration holds:
    the dotted paths of its thresholds, with their defaults, and its
    top-level keys. *)
Theorem get_reads_the_configuration (st : State) :
  let c := py_config (config st) in
  get c "web_search.confidence_threshold" (PNum 0.7) = PNum (threshold st)
  /\ get c "web_search.judge_threshold" (PInt 5)
     = match judge_threshold (web_search (config st)) with
       | Some t => PNum t
       | None => PInt 5
       end
  /\ get c "learning_rate" (PNum 0.1) = PNum (learning_rate (config st))
  /\ get c "min_samples" (PInt 5) = PInt (min_samples (config st))
  /\ get c "confidence_weights" (PDict [])
     = py_confidence_weights (confidence_weights (config st))
  /\ get c "judge_weights" (PDict [])
     = py_metric_dict (judge_weights (config st))
  /\ get c "performance_history" (PList [])
     = PList (map py_performance_entry (performance_history (config st)))
  /\ get c "web_search.threshold" (PNum 0.7) = PNum 0.7
  /\ get c "learning_rate.value" (PNum 0.1) = PNum 0.1.
Proof.
  cbv zeta. unfold threshold.
  destruct (config st) as [v t [ct jt en] cw jw rr lr ms ph].
  destruct ct, jt, en; repeat split; reflexivity.
Qed.

End DottedGetFacts.

(* ================================================================== *)
(** ** HybridSearch.hybrid_search *)
(* ================================================================== *)

Section HybridSearchFacts.
Import HybridSearch Spec Rounding DottedGet Retrieval.
#[local] Open Scope string_scope.

Lemma list_item_valid {A} (l : list A) (i : Z) :
  valid_index (List.length l) i -> exists d, list_item l i = Some d.
Proof.
  unfold valid_index, list_item. intros [Hlo Hhi]. cbv zeta.
  destruct ((0 <=? i) && (i <? Z.of_nat (List.length l)))%Z eqn:E.
  - apply andb_prop in E. destruct E as [E1 E2].
    apply Z.leb_le in E1. apply Z.ltb_lt in E2.
    destruct (nth_error l (Z.to_nat i)) as [d|] eqn:En; [now exists d|].
    apply nth_error_None in En. lia.
  - assert (Hneg : (i < 0)%Z).
    { apply andb_false_iff in E. destruct E as [E | E];
        [apply Z.leb_gt in E | apply Z.ltb_ge in E]; lia. }
    destruct ((- Z.of_nat (List.length l) <=? i) && (i <? 0))%Z eqn:E';
      [|apply andb_false_iff in E'; destruct E' as [E' | E'];
        [apply Z.leb_gt in E' | apply Z.ltb_ge in E']; lia].
    destruct (nth_error l (Z.to_nat (Z.of_nat (List.length l) + i)))
      as [d|] eqn:En; [now exists d|].
    apply nth_error_None in En. lia.
Qed.

Lemma list_item_In {A} (l : list A) (i : Z) (d : A) :
  list_item l i = Some d -> In d l.
Proof.
  unfold list_item. cbv zeta. intro H.
  destruct ((0 <=? i) && (i <? Z.of_nat (List.length l)))%Z;
    [now apply nth_error_In in H|].
  destruct ((- Z.of_nat (List.length l) <=? i) && (i <? 0))%Z;
    [now apply nth_error_In in H | discriminate].
Qed.

Lemma item_set (d : document) (k k' : string) (v : pyval) :
  dict_find String.eqb (dict_set String.eqb d k v) k'
  = if String.eqb k k' then Some v else dict_find String.eqb d k'.
Proof.
  induction d as [|[k0 v0] d IH]; simpl; [reflexivity|].
  destruct (String.eqb k0 k) eqn:E; simpl.
  - apply String.eqb_eq in E. subst k0. now destruct (String.eqb k k').
  - rewrite IH. destruct (String.eqb k0 k') eqn:E'; [|reflexivity].
    apply String.eqb_eq in E'. subst k0. now rewrite String.eqb_sym, E.
Qed.

(** The log lines raise nothing when the ids are valid and the documents
    have texts as titles. *)
Lemma titles_ok (documents : list document) (results : list ranked) :
  Forall has_title documents ->
  Forall (fun r => valid_index (List.length documents) (fst r)) results ->
  titles documents results = Returns tt.
Proof.
  intros Ht. induction results as [|[id score] rest IH]; intro H;
    [reflexivity|].
  inversion H as [|? ? Hid Hrest]; subst.
  destruct (list_item_valid documents id Hid) as [d Hd].
  simpl. rewrite Hd.
  assert (Hd' : has_title d).
  { rewrite Forall_forall in Ht. apply Ht. eapply list_item_In, Hd. }
  destruct Hd' as (title & -> & ->). now apply IH.
Qed.

(** The loop over the top results, when every index is valid. *)
Lemma retrieve_ok (documents : list document)
    (top_results : list (doc_id * Q)) :
  Forall (fun r => valid_index (List.length documents) (fst r)) top_results ->
  exists retrieved,
    retrieve documents top_results = Returns retrieved
    /\ Forall2 (scored_copy documents) retrieved top_results.
Proof.
  induction top_results as [|[id score] rest IH]; intro H.
  - exists []. split; constructor.
  - inversion H as [|? ? Hid Hrest]; subst.
    destruct (list_item_valid documents id Hid) as [d Hd].
    destruct (IH Hrest) as (retrieved & Hr & Hall).
    simpl. rewrite Hd, Hr. eexists. split; [reflexivity|].
    constructor; [|exact Hall].
    exists d. cbn [fst snd]. split; [exact Hd|].
    split; [now rewrite item_set, String.eqb_refl|].
    split; [rewrite !item_set; reflexivity|].
    intros key H1 H2. rewrite !item_set.
    destruct (String.eqb "doc_id" key) eqn:E1;
      [apply String.eqb_eq in E1; congruence|].
    destruct (String.eqb "rrf_score" key) eqn:E2;
      [apply String.eqb_eq in E2; congruence|].
    reflexivity.
Qed.

Lemma NoDup_prefix {A} (n : nat) (l : list A) : NoDup l -> NoDup (firstn n l).
Proof.
  intro H. rewrite <- (firstn_skipn n l) in H.
  now apply NoDup_app_remove_r in H.
Qed.

Lemma sorted_prefix {A} (R : A -> A -> Prop) (n : nat) (l : list A) :
  StronglySorted R l -> StronglySorted R (firstn n l).
Proof.
  revert n. induction l as [|x l IH]; intros n H.
  - rewrite firstn_nil. constructor.
  - destruct n as [|n]; [constructor|].
    inversion H as [|? ? Hs Hall]; subst. simpl.
    constructor; [now apply IH|].
    rewrite Forall_forall in *. intros y Hy. apply Hall.
    now apply (prefix_incl n l).
Qed.

Lemma slice_to_incl {A} (j : Z) (l : list A) : incl (slice_to j l) l.
Proof.
  unfold slice_to. cbv zeta. destruct (j <? 0)%Z; apply prefix_incl.
Qed.

(** X10. [hybrid_search] returns the first [top_k] documents of the fusion.
    When [top_k >= 0], every document id the two searches return is a valid
    index of [documents] (negative ones count from the end) and every
    document has a text as its title, the call returns one document for
    each of the first [top_k] results of a fusion of the two rankings
    (constant 60), in their order: the stored document of that id with
    [doc_id] and [rrf_score] set and every other item unchanged.  There are
    at most [top_k] of them (all distinct ids if these are fewer), no id
    twice, in descending order of fused score. *)
Theorem hybrid_search_returns_top_of_fusion
    (documents : list document) (self_top_k : Z)
    (semantic_search keyword_search : Z -> list ranked) (top_k : option Z) :
  let k := match top_k with Some k => k | None => self_top_k end in
  (0 <= k)%Z ->
  Forall has_title documents ->
  Forall (fun r => valid_index (List.length documents) (fst r))
    (semantic_search k ++ keyword_search k) ->
  exists retrieved fused,
    fusion_of 60 (semantic_search k) (keyword_search k) fused
    /\ hybrid_search documents self_top_k semantic_search keyword_search
         top_k = Returns retrieved
    /\ Forall2 (scored_copy documents) retrieved (firstn (Z.to_nat k) fused)
    /\ List.length retrieved
       = Nat.min (Z.to_nat k)
           (List.length
              (first_seen (scan (semantic_search k) (keyword_search k))))
    /\ NoDup (map fst (firstn (Z.to_nat k) fused))
    /\ StronglySorted (fun a b => snd b <= snd a) (firstn (Z.to_nat k) fused).
Proof.
  intros k Hk Htitles Hvalid.
  destruct (reciprocal_rank_fusion_fuses (semantic_search k)
              (keyword_search k) 60)
    as (fused & Hfused & Hfusion); [lia|].
  pose proof Hfusion as (Hperm & _ & Hsorted & _).
  assert (Hslice : slice_to k fused = firstn (Z.to_nat k) fused).
  { rewrite <- (Z2Nat.id k) at 1 by exact Hk. apply slice_to_nonneg. }
  assert (Hids : Forall (fun r => valid_index (List.length documents) (fst r))
                   (firstn (Z.to_nat k) fused)).
  { rewrite Forall_forall in *. intros r Hr.
    apply (prefix_incl _ fused) in Hr.
    assert (Hin : In (fst r)
                    (map fst (semantic_search k ++ keyword_search k))).
    { apply (first_seen_In (fst r)).
      eapply Permutation_in; [exact Hperm | now apply in_map]. }
    apply in_map_iff in Hin. destruct Hin as (r' & E & Hr').
    rewrite <- E. now apply Hvalid. }
  destruct (retrieve_ok documents _ Hids) as (retrieved & Hr & Hall).
  apply Forall_app in Hvalid. destruct Hvalid as [Hsem Hkw].
  exists retrieved, fused. split; [exact Hfusion|].
  split.
  { unfold hybrid_search. fold k. cbv zeta.
    rewrite (titles_ok documents (slice_to 3 (semantic_search k)) Htitles)
      by (eapply incl_Forall; [apply slice_to_incl | exact Hsem]).
    rewrite (titles_ok documents (slice_to 3 (keyword_search k)) Htitles)
      by (eapply incl_Forall; [apply slice_to_incl | exact Hkw]).
    rewrite Hfused, Hslice. exact Hr. }
  split; [exact Hall|].
  assert (Hndf : NoDup (map fst fused)).
  { eapply Permutation_NoDup; [apply Permutation_sym, Hperm|].
    apply first_seen_NoDup. }
  split.
  { rewrite (Forall2_length Hall), length_firstn.
    rewrite <- (Permutation_length Hperm), length_map. reflexivity. }
  split.
  { rewrite <- firstn_map. now apply NoDup_prefix. }
  now apply sorted_prefix.
Qed.

Lemma hybrid_search_returns_top_of_fusion_witness :
  (0 <= 2)%Z
  /\ Forall has_title example_index
  /\ Forall (fun r => valid_index (List.length example_index) (fst r))
       (example_semantic 2 ++ example_keyword 2)
  /\ exists retrieved fused,
       fusion_of 60 (example_semantic 2) (example_keyword 2) fused
       /\ hybrid_search example_index 20 example_semantic example_keyword
            (Some 2%Z) = Returns retrieved
       /\ Forall2 (scored_copy example_index) retrieved
            (firstn (Z.to_nat 2) fused)
       /\ List.length retrieved
          = Nat.min (Z.to_nat 2)
              (List.length
                 (first_seen
                    (scan (example_semantic 2) (example_keyword 2))))
       /\ NoDup (map fst (firstn (Z.to_nat 2) fused))
       /\ StronglySorted (fun a b => snd b <= snd a)
            (firstn (Z.to_nat 2) fused).
Proof.
  assert (H1 : (0 <= 2)%Z) by lia.
  assert (H2 : Forall has_title example_index)
    by (repeat constructor; eexists; split; reflexivity).
  assert (H3 : Forall
                 (fun r => valid_index (List.length example_index) (fst r))
                 (example_semantic 2 ++ example_keyword 2))
    by (repeat constructor; simpl; lia).
  split; [exact H1|]. split; [exact H2|]. split; [exact H3|].
  exact (hybrid_search_returns_top_of_fusion example_index 20
           example_semantic example_keyword (Some 2%Z) H1 H2 H3).
Defined.

End HybridSearchFacts.

(* ================================================================== *)
(** ** Runs over complete and incomplete feedback *)
(* ================================================================== *)

Section CompleteFeedback.
Import RL Spec More.

Lemma forallb_filter {A} (p q : A -> bool) (l : list A) :
  forallb p l = true -> forallb p (filter q l) = true.
Proof.
  intro H. rewrite (forallb_partition p q l) in H.
  now apply andb_prop in H.
Qed.

Lemma metric_samples_ok (m : metric) (batch : list Feedback) :
  forallb has_feedback_type batch = true ->
  exists samples, metric_samples m batch = Ok samples.
Proof.
  induction batch as [|f rest IH]; intro H; [now eexists|].
  simpl in H. apply andb_prop in H. destruct H as [Hf Hrest].
  destruct (IH Hrest) as [samples Hs]. simpl.
  destruct (dict_find metric_eqb (get_or (judge_scores f) []) m);
    [|now exists samples].
  unfold item_feedback_type. unfold has_feedback_type in Hf.
  destruct (feedback_type f); [|discriminate].
  simpl. rewrite Hs. now eexists.
Qed.

Lemma correlate_ok (ms : list metric) (batch : list Feedback)
    (correlations : dict metric npfloat) :
  forallb has_feedback_type batch = true ->
  exists c, correlate ms batch correlations = Ok c.
Proof.
  intro H. revert correlations.
  induction ms as [|m ms IH]; intro c; [now eexists|].
  simpl. destruct (metric_samples_ok m batch H) as [samples ->]. simpl.
  destruct (10 <=? len samples)%Z; apply IH.
Qed.

(** With every [feedback_type] there, a step that can only raise the
    [KeyError] returns. *)
Lemma web_analysis_complete (batch : list Feedback) (st : State) :
  forallb has_feedback_type batch = true ->
  exists a, fst (_analyze_web_search_performance batch st) = Ok a.
Proof.
  intro H. rewrite web_analysis_eq, H.
  destruct (_ || _); [now eexists|]. cbv zeta.
  destruct (Qltb _ _); [now eexists|].
  destruct (Qltb _ _); now eexists.
Qed.

Lemma calibration_complete (batch : list Feedback) (st : State) :
  forallb has_feedback_type batch = true ->
  exists a, fst (_analyze_confidence_calibration batch st) = Ok a.
Proof.
  intro H. unfold _analyze_confidence_calibration. cbv zeta.
  destruct (3 <=? _)%Z eqn:E3; [|now eexists].
  apply Z.leb_le in E3.
  rewrite (count_positive_ok _ (forallb_filter _ _ _ H)). mstep.
  rewrite int_div_ok by lia. mstep.
  destruct (Qltb _ 0.6); now eexists.
Qed.

Lemma judge_analysis_complete (batch : list Feedback) (st : State) :
  forallb has_feedback_type batch = true ->
  weights_sound (config st) ->
  exists a, fst (_analyze_judge_correlation batch st) = Ok a.
Proof.
  intros H Hs.
  destruct (judge_analysis_sound batch st Hs) as [Hexn _].
  destruct (fst (_analyze_judge_correlation batch st)) as [a | e] eqn:E;
    [now exists a|].
  exfalso. specialize (Hexn e eq_refl). subst e.
  revert E. unfold _analyze_judge_correlation.
  destruct (len batch <? 10)%Z; [discriminate|].
  destruct (correlate_ok metrics batch [] H) as [corr ->].
  rewrite bind_lift_ok.
  destruct corr as [|kv corr]; [discriminate|].
  rewrite bind_gets.
  destruct (total_correlation (kv :: corr)); [|discriminate].
  destruct (Qltb 0 q); [|discriminate]. cbv zeta.
  unfold normalise. destruct (Qeq_bool _ 0).
  - rewrite bind_lift_raise. discriminate.
  - rewrite bind_lift_ok. destruct (Qltb 0.05 _); [|discriminate].
    rewrite bind_update. discriminate.
Qed.

Lemma record_complete (batch : list Feedback) (st : State) :
  forallb has_feedback_type batch = true ->
  exists u, fst (_record_performance batch st) = Ok u.
Proof.
  intro H. destruct (fst (_record_performance batch st)) as [u | e] eqn:E;
    [now exists u|].
  exfalso. pose proof (record_exn batch st e E) as ->.
  revert E. destruct batch as [|f rest]; [discriminate|].
  set (batch := f :: rest) in *.
  assert (Hlen : (len batch <> 0)%Z) by (unfold len; simpl; lia).
  change (_record_performance batch st)
    with (bind (lift (count_positive batch)) (fun positive =>
          bind (lift (int_div positive (len batch))) (fun positive_rate =>
          bind datetime_now (fun now =>
          bind (lift (int_div (web_search_count batch) (len batch)))
            (fun web_search_usage =>
          bind (append_history
                  {| timestamp := now;
                     total_feedback := length batch;
                     positive_rate := positive_rate;
                     avg_confidence :=
                       np_mean (map (fun f => get_or (confidence f) 0) batch);
                     web_search_usage := web_search_usage |}) (fun _ =>
          bind (gets (fun st => performance_history (config st)))
            (fun history =>
          update
            [performance_history_is
               (if (50 <? len history)%Z then slice_from (-50) history
                else history)])))))) st).
  rewrite (count_positive_ok _ H). mstep.
  rewrite int_div_ok by exact Hlen. rewrite bind_lift_ok, bind_datetime_now.
  rewrite int_div_ok by exact Hlen. rewrite bind_lift_ok.
  unfold bind at 1. unfold append_history, modify.
  rewrite bind_gets, update_eq. discriminate.
Qed.

(** A run over entries that all have their [feedback_type], from sound
    weights, returns. *)
Lemma run_complete (batch : list Feedback) (st : State) :
  forallb has_feedback_type batch = true ->
  weights_sound (config st) ->
  exists r, fst (update_from_feedback batch st) = Ok r.
Proof.
  intros H Hs.
  destruct (Z.lt_ge_cases (len batch) (min_samples (config st))) as [Hlt | Hge].
  { rewrite (run_insufficient _ _ Hlt). now eexists. }
  rewrite (run_eq _ _ Hge). unfold bind.
  destruct (web_analysis_complete batch (tick st) H) as [a1 X1].
  pose proof (keeps_weights_sound _
                (web_analysis_keeps_judge_weights batch)
                (web_analysis_keeps_learning_rate batch) (tick st) Hs) as S1.
  destruct (_analyze_web_search_performance batch (tick st))
    as [[b1 | e1] st1]; simpl in *; [|discriminate].
  destruct (calibration_complete batch st1 H) as [a2 X2].
  pose proof (keeps_weights_sound _
                (calibration_keeps_judge_weights batch)
                (calibration_keeps_learning_rate batch) st1 S1) as S2.
  destruct (_analyze_confidence_calibration batch st1)
    as [[b2 | e2] st2]; simpl in *; [|discriminate].
  destruct (judge_analysis_complete batch st2 H S2) as [a3 X3].
  destruct (_analyze_judge_correlation batch st2)
    as [[b3 | e3] st3]; simpl in *; [|discriminate].
  destruct (record_complete batch st3 H) as [u X4].
  destruct (_record_performance batch st3) as [[v | e4] st4]; simpl in *;
    [now eexists | discriminate].
Qed.

(** A qualifying run over entries one of which has no [feedback_type], from
    sound weights, raises the [KeyError]. *)
Lemma run_incomplete (batch : list Feedback) (st : State) :
  forallb has_feedback_type batch = false ->
  (min_samples (config st) <= len batch)%Z ->
  weights_sound (config st) ->
  fst (update_from_feedback batch st) = Raise (KeyError "feedback_type").
Proof.
  intros H Hge Hs.
  destruct (run_sound batch st Hs) as [Hexn _].
  destruct (update_from_feedback batch st) as [[r | e] st'] eqn:E;
    [|simpl in *; now rewrite (Hexn e eq_refl)].
  exfalso. destruct r as [ms n | t changes].
  { rewrite (run_eq _ _ Hge) in E. unfold bind in E.
    repeat match type of E with
           | context [match ?x with _ => _ end] => destruct x
           end; discriminate. }
  apply run_inv in E.
  destruct E as (_ & a1 & a2 & a3 & st1 & st2 & st3 & u & _ & _ & _ & E4 & _).
  revert E4. destruct batch as [|f rest]; [discriminate|].
  unfold _record_performance.
  rewrite (count_positive_raise _ H), bind_lift_raise. discriminate.
Qed.

End CompleteFeedback.

(* ================================================================== *)
(** ** FeedbackService.submit_feedback *)
(* ================================================================== *)

Section SubmitFeedback.
Import RL Spec More DottedGet FeedbackService.

Lemma tuned_sound (st : State) : tuned st -> weights_sound (config st).
Proof.
  intros (_ & Hw & Hr & _). split; [|exact Hr]. rewrite Hw.
  intro m. destruct m; simpl; eexists; (split; [reflexivity|]);
    vm_compute; reflexivity.
Qed.

(** What a run that returns leaves of the history. *)
Lemma run_history (batch : list Feedback) (st : State) :
  (min_samples (config st) <= len batch)%Z ->
  batch <> [] ->
  is_ok (fst (update_from_feedback batch st)) = true ->
  exists now,
    performance_history (config (snd (update_from_feedback batch st)))
    = last_n 50 (performance_history (config st) ++ [snapshot_of batch now]).
Proof.
  intros Hge Hne Hok.
  destruct (update_from_feedback batch st) as [[r | e] st'] eqn:E;
    [|discriminate].
  destruct r as [ms n | t changes].
  { exfalso. rewrite (run_eq _ _ Hge) in E. unfold bind in E.
    repeat match type of E with
           | context [match ?x with _ => _ end] => destruct x
           end; discriminate. }
  apply run_inv in E.
  destruct E as (_ & a1 & a2 & a3 & st1 & st2 & st3 & u
                 & E1 & E2 & E3 & E4 & _).
  pose proof (web_analysis_keeps_history batch (tick st)) as K1.
  pose proof (calibration_keeps_history batch st1) as K2.
  pose proof (judge_analysis_keeps_history batch st2) as K3.
  rewrite E1 in K1. rewrite E2 in K2. rewrite E3 in K3.
  simpl snd in *.
  destruct (record_ok batch st3 st' u Hne E4) as (Hh & _).
  exists (clock st3). simpl snd. rewrite Hh, K3, K2, K1. reflexivity.
Qed.

Lemma last_n_app_length {A} (l : list A) (x : A) :
  length (last_n 50 (l ++ [x])) = Nat.min 50 (S (length l)).
Proof.
  unfold last_n. rewrite length_skipn, length_app. cbn [length]. lia.
Qed.

Lemma numbered_app (l : list Entry) (f : Entry) :
  numbered l -> entry_number f = Some (len l + 1)%Z -> numbered (l ++ [f]).
Proof.
  unfold numbered. intros Hl Hf.
  rewrite map_app, length_app, Hl. simpl length.
  rewrite Nat.add_1_r, seq_S, map_app. simpl. rewrite Hf.
  do 3 f_equal. unfold len. lia.
Qed.

(** [submit_feedback] on a readable file, with the default [min_samples]. *)
Lemma submit_eq (l : list Entry) (sv : Service)
    (response_id query answer : string) (sources : list pyval)
    (feedback_type : string) (confidence : Q) (judge_scores : dict metric Q)
    (retrieval_method : string) (web_search_triggered : bool)
    (comment : option string) :
  _load_feedback sv = l ->
  min_samples (config (rl_optimizer sv)) = 5%Z ->
  let now := clock (rl_optimizer sv) in
  let e :=
    feedback_entry (len l + 1) now (S now) response_id query answer sources
      feedback_type confidence judge_scores retrieval_method
      web_search_triggered comment in
  let st := tick (tick (rl_optimizer sv)) in
  let saved := {| feedback_file := Some (Entries (l ++ [e]));
                  rl_optimizer := st |} in
  submit_feedback response_id query answer sources feedback_type confidence
    judge_scores retrieval_method web_search_triggered comment sv
  = if ((5 <=? len (l ++ [e])) && (len (l ++ [e]) mod 5 =? 0))%Z then
      match update_from_feedback (map seen (l ++ [e])) st with
      | (Ok _, st') => (Ok (fb (len l + 1) now), with_optimizer st' saved)
      | (Raise x, st') => (Raise x, with_optimizer st' saved)
      end
    else (Ok (fb (len l + 1) now), saved).
Proof.
  intros Hl Hms. cbv zeta. unfold submit_feedback. rewrite Hl.
  unfold now_of, _save_feedback, with_optimizer.
  cbn [fst snd feedback_file rl_optimizer].
  change (min_samples (config (tick (tick (rl_optimizer sv)))))
    with (min_samples (config (rl_optimizer sv))).
  rewrite Hms. change (5 =? 0)%Z with false.
  destruct (5 <=? _)%Z; [|reflexivity]. simpl andb.
  destruct (_ mod 5 =? 0)%Z; reflexivity.
Qed.

Lemma div5_same (n : nat) :
  ((5 <=? Z.of_nat (S n)) && (Z.of_nat (S n) mod 5 =? 0))%Z = false ->
  (S n / 5 = n / 5)%nat.
Proof.
  intro H.
  assert (Hm : (Z.of_nat (S n) mod 5 <> 0)%Z).
  { intro E. rewrite E in H. simpl in H. rewrite andb_true_r in H.
    apply Z.leb_gt in H.
    assert (Z.of_nat (S n) = 0)%Z
      by (rewrite <- (Z.mod_small (Z.of_nat (S n)) 5) by lia; exact E).
    lia. }
  apply Nat2Z.inj. rewrite !Nat2Z.inj_div. change (Z.of_nat 5) with 5%Z.
  rewrite Nat2Z.inj_succ in *.
  Z.to_euclidean_division_equations. lia.
Qed.

Lemma div5_next (n : nat) :
  ((5 <=? Z.of_nat (S n)) && (Z.of_nat (S n) mod 5 =? 0))%Z = true ->
  (S n / 5 = S (n / 5))%nat.
Proof.
  intro H. apply andb_prop in H. destruct H as [_ H]. apply Z.eqb_eq in H.
  apply Nat2Z.inj. rewrite Nat2Z.inj_succ, !Nat2Z.inj_div.
  change (Z.of_nat 5) with 5%Z. rewrite Nat2Z.inj_succ in *.
  Z.to_euclidean_division_equations. lia.
Qed.

(** The invariant of the reachable services. *)
Lemma reachable_inv (now : time) (sv : Service) :
  reachable now sv ->
  exists l,
    feedback_file sv = Some (Entries l)
    /\ typed l = true /\ numbered l /\ in_step sv l.
Proof.
  induction 1 as [|sv rid q a srcs ft conf js rm web cm Hr IH].
  - exists []. split; [reflexivity|]. split; [reflexivity|].
    split; [reflexivity|]. split; [reflexivity|].
    split; [apply started_store|].
    split; [apply started_settled | apply started_tuned].
  - destruct IH as (l & Hfile & Htyped & Hnum & Hlen & Hstore & Hset & Htuned).
    assert (Hload : _load_feedback sv = l)
      by (unfold _load_feedback; now rewrite Hfile).
    pose proof Hset as (_ & _ & Hms).
    rewrite (submit_eq l sv rid q a srcs ft conf js rm web cm Hload Hms).
    cbv zeta.
    set (e := feedback_entry _ _ _ rid q a srcs ft conf js rm web cm).
    set (st := tick (tick (rl_optimizer sv))).
    exists (l ++ [e]).
    assert (Htyped' : typed (l ++ [e]) = true).
    { unfold typed in *. rewrite map_app, forallb_app, Htyped. reflexivity. }
    assert (Hnum' : numbered (l ++ [e])) by (now apply numbered_app).
    assert (Hlast : length (l ++ [e]) = S (length l))
      by (rewrite length_app; simpl; lia).
    destruct ((5 <=? len (l ++ [e])) && (len (l ++ [e]) mod 5 =? 0))%Z
      eqn:Etrig; unfold len in Etrig; rewrite Hlast in Etrig.
    + assert (Hsound : weights_sound (config st))
        by (now apply tuned_sound).
      destruct (run_complete (map seen (l ++ [e])) st Htyped' Hsound)
        as [r Hrun].
      assert (Hge : (min_samples (config st) <= len (map seen (l ++ [e])))%Z).
      { change (config st) with (config (rl_optimizer sv)). rewrite Hms.
        apply andb_prop in Etrig. destruct Etrig as [E5 _].
        apply Z.leb_le in E5. unfold len. now rewrite length_map, Hlast. }
      assert (Hne : map seen (l ++ [e]) <> [])
        by (intro E; apply (f_equal (@length _)) in E;
            rewrite length_map, Hlast in E; discriminate).
      destruct (run_history _ st Hge Hne) as [t Hhist];
        [now rewrite Hrun|].
      pose proof (run_store (map seen (l ++ [e])) st Hstore) as Hstore'.
      pose proof (run_settled (map seen (l ++ [e])) st Hset) as Hset'.
      pose proof (run_tuned (map seen (l ++ [e])) st Htuned) as Htuned'.
      destruct (update_from_feedback (map seen (l ++ [e])) st)
        as [[r' | x] st'] eqn:Erun; [|discriminate].
      cbn [fst snd] in *.
      split; [reflexivity|]. split; [exact Htyped'|].
      split; [exact Hnum'|].
      unfold in_step, with_optimizer. cbn [rl_optimizer].
      split; [|split; [exact Hstore' | split; [exact Hset' | exact Htuned']]].
      rewrite Hhist, last_n_app_length.
      change (performance_history (config st))
        with (performance_history (config (rl_optimizer sv))).
      rewrite Hlen, Hlast, (div5_next _ Etrig). lia.
    + cbn [fst snd]. split; [reflexivity|]. split; [exact Htyped'|].
      split; [exact Hnum'|].
      unfold in_step. cbn [rl_optimizer].
      split; [|split; [exact Hstore | split; [exact Hset | exact Htuned]]].
      change (performance_history (config st))
        with (performance_history (config (rl_optimizer sv))).
      rewrite Hlen, Hlast, (div5_same _ Etrig). reflexivity.
Qed.

(** X13. From a first start (no feedback file, no configuration file), every
    [submit_feedback] returns its confirmation: the entry is appended to the
    file, after the entries already there, and numbered by its position. *)
Theorem submit_succeeds_after_first_start (now : time) (sv : Service)
    (response_id query answer : string) (sources : list pyval)
    (feedback_type : string) (confidence : Q) (judge_scores : dict metric Q)
    (retrieval_method : string) (web_search_triggered : bool)
    (comment : option string) :
  reachable now sv ->
  let r := submit_feedback response_id query answer sources feedback_type
             confidence judge_scores retrieval_method web_search_triggered
             comment sv in
  let t := clock (rl_optimizer sv) in
  exists l,
    feedback_file sv = Some (Entries l)
    /\ fst r = Ok (fb (len l + 1) t)
    /\ feedback_file (snd r)
       = Some (Entries
                 (l ++ [feedback_entry (len l + 1) t (S t) response_id query
                          answer sources feedback_type confidence
                          judge_scores retrieval_method web_search_triggered
                          comment])).
Proof.
  intro Hr. cbv zeta.
  destruct (reachable_inv now sv Hr)
    as (l & Hfile & Htyped & Hnum & Hlen & Hstore & Hset & Htuned).
  assert (Hload : _load_feedback sv = l)
    by (unfold _load_feedback; now rewrite Hfile).
  pose proof Hset as (_ & _ & Hms).
  exists l. split; [exact Hfile|].
  rewrite (submit_eq l sv response_id query answer sources feedback_type
             confidence judge_scores retrieval_method web_search_triggered
             comment Hload Hms).
  cbv zeta.
  set (e := feedback_entry _ _ _ response_id query answer sources
              feedback_type confidence judge_scores retrieval_method
              web_search_triggered comment).
  set (st := tick (tick (rl_optimizer sv))).
  destruct (_ && _); [|split; reflexivity].
  assert (Htyped' : forallb has_feedback_type (map seen (l ++ [e])) = true).
  { unfold typed in Htyped. rewrite map_app, forallb_app, Htyped.
    reflexivity. }
  destruct (run_complete (map seen (l ++ [e])) st Htyped'
              (tuned_sound st Htuned)) as [r Hrun].
  destruct (update_from_feedback (map seen (l ++ [e])) st)
    as [[r' | x] st']; [split; reflexivity | discriminate].
Qed.

Lemma submit_succeeds_after_first_start_witness :
  reachable 0%nat (fresh 0%nat)
  /\ exists l,
       feedback_file (fresh 0%nat) = Some (Entries l)
       /\ fst (submit_feedback "resp_123" "Test query" "Test answer" []
                 "positive" 0.8 even_scores "hybrid" false None
                 (fresh 0%nat))
          = Ok (fb (len l + 1) (clock (rl_optimizer (fresh 0%nat))))
       /\ feedback_file
            (snd (submit_feedback "resp_123" "Test query" "Test answer" []
                    "positive" 0.8 even_scores "hybrid" false None
                    (fresh 0%nat)))
          = Some (Entries
                    (l ++ [feedback_entry (len l + 1)
                             (clock (rl_optimizer (fresh 0%nat)))
                             (S (clock (rl_optimizer (fresh 0%nat))))
                             "resp_123" "Test query" "Test answer" []
                             "positive" 0.8 even_scores "hybrid" false
                             None])).
Proof.
  split; [constructor|].
  apply (submit_succeeds_after_first_start 0%nat (fresh 0%nat) "resp_123"
           "Test query" "Test answer" [] "positive" 0.8 even_scores "hybrid"
           false None).
  constructor.
Defined.

(** X14. After a first start and any series of submissions the file holds the
    submitted entries, numbered 1, 2, ... and each with its
    [feedback_type]; the optimizer has taken one snapshot for every fifth
    submission (the 50 latest are kept), its file is in step with its
    configuration, its threshold is within [0.5, 0.9] and [min_samples] is
    still 5. *)
Theorem optimizer_runs_on_every_fifth_submission (now : time) (sv : Service) :
  reachable now sv ->
  exists l,
    feedback_file sv = Some (Entries l)
    /\ typed l = true
    /\ numbered l
    /\ length (performance_history (config (rl_optimizer sv)))
       = Nat.min 50 (length l / 5)
    /\ store_sound (rl_optimizer sv)
    /\ 0.5 <= threshold (rl_optimizer sv) <= 0.9
    /\ min_samples (config (rl_optimizer sv)) = 5%Z.
Proof.
  intro Hr.
  destruct (reachable_inv now sv Hr)
    as (l & Hfile & Htyped & Hnum & Hlen & Hstore & (Ht & _ & Hms) & _).
  exists l.
  exact (conj Hfile (conj Htyped (conj Hnum (conj Hlen
           (conj Hstore (conj Ht Hms)))))).
Qed.

Lemma optimizer_runs_on_every_fifth_submission_witness :
  let sv :=
    snd (submit_feedback "resp_123" "Test query" "Test answer" [] "positive"
           0.8 even_scores "hybrid" false None (fresh 0%nat)) in
  reachable 0%nat sv
  /\ exists l,
       feedback_file sv = Some (Entries l)
       /\ typed l = true
       /\ numbered l
       /\ length (performance_history (config (rl_optimizer sv)))
          = Nat.min 50 (length l / 5)
       /\ store_sound (rl_optimizer sv)
       /\ 0.5 <= threshold (rl_optimizer sv) <= 0.9
       /\ min_samples (config (rl_optimizer sv)) = 5%Z.
Proof.
  cbv zeta.
  assert (H : reachable 0%nat
                (snd (submit_feedback "resp_123" "Test query" "Test answer"
                        [] "positive" 0.8 even_scores "hybrid" false None
                        (fresh 0%nat))))
    by (constructor; constructor).
  split; [exact H|].
  exact (optimizer_runs_on_every_fifth_submission 0%nat _ H).
Defined.

(** X15. [submit_feedback] saves before it learns.  When an entry of the file
    has no [feedback_type] and the new count is a multiple of [min_samples]
    (at least 1), with positive judge weights and the default learning rate,
    the call raises the optimizer's [KeyError]; the file nonetheless holds
    the new entry after the old ones. *)
Theorem submit_raises_after_saving (sv : Service)
    (response_id query answer : string) (sources : list pyval)
    (feedback_type : string) (confidence : Q) (judge_scores : dict metric Q)
    (retrieval_method : string) (web_search_triggered : bool)
    (comment : option string) :
  let l := _load_feedback sv in
  let ms := min_samples (config (rl_optimizer sv)) in
  let t := clock (rl_optimizer sv) in
  let r := submit_feedback response_id query answer sources feedback_type
             confidence judge_scores retrieval_method web_search_triggered
             comment sv in
  typed l = false ->
  (1 <= ms)%Z ->
  ((len l + 1) mod ms = 0)%Z ->
  weights_sound (config (rl_optimizer sv)) ->
  fst r = Raise (KeyError "feedback_type")
  /\ feedback_file (snd r)
     = Some (Entries
               (l ++ [feedback_entry (len l + 1) t (S t) response_id query
                        answer sources feedback_type confidence judge_scores
                        retrieval_method web_search_triggered comment])).
Proof.
  cbv zeta. intros Htyped Hms Hmod Hsound.
  unfold submit_feedback, now_of, _save_feedback, with_optimizer.
  cbn [fst snd feedback_file rl_optimizer].
  change (min_samples (config (tick (tick (rl_optimizer sv)))))
    with (min_samples (config (rl_optimizer sv))).
  set (l := _load_feedback sv) in *.
  set (ms := min_samples (config (rl_optimizer sv))) in *.
  set (e := feedback_entry _ _ _ response_id query answer sources
              feedback_type confidence judge_scores retrieval_method
              web_search_triggered comment).
  assert (Hlen : len (l ++ [e]) = (len l + 1)%Z)
    by (unfold len; rewrite length_app; simpl; lia).
  rewrite Hlen.
  assert (Hge : (ms <= len l + 1)%Z).
  { assert (0 <= len l)%Z by (unfold len; lia).
    destruct (Z.eq_dec (len l + 1) 0) as [E | E]; [lia|].
    apply Z.mod_divide in Hmod; [|lia].
    apply Z.divide_pos_le in Hmod; lia. }
  destruct (ms <=? len l + 1)%Z eqn:E1; [|apply Z.leb_gt in E1; lia].
  destruct (ms =? 0)%Z eqn:E0; [apply Z.eqb_eq in E0; lia|].
  rewrite Hmod. change (0 =? 0)%Z with true. cbv iota.
  assert (Hbad : forallb has_feedback_type (map seen (l ++ [e])) = false).
  { unfold typed in Htyped. rewrite map_app, forallb_app, Htyped.
    reflexivity. }
  pose proof (run_incomplete (map seen (l ++ [e]))
                (tick (tick (rl_optimizer sv))) Hbad) as Hrun.
  change (config (tick (tick (rl_optimizer sv))))
    with (config (rl_optimizer sv)) in Hrun.
  fold ms in Hrun.
  assert (Hge' : (ms <= len (map seen (l ++ [e])))%Z)
    by (unfold len in *; rewrite length_map; lia).
  specialize (Hrun Hge' Hsound).
  destruct (update_from_feedback (map seen (l ++ [e]))
              (tick (tick (rl_optimizer sv)))) as [[r | x] st'];
    simpl in Hrun; [discriminate|].
  injection Hrun as ->. split; reflexivity.
Qed.

Lemma submit_raises_after_saving_witness :
  let sv := damaged_service in
  let l := _load_feedback sv in
  let r := submit_feedback "r5" "q5" "a5" [] "positive" 0.7 [] "hybrid"
             false None sv in
  typed l = false
  /\ (1 <= min_samples (config (rl_optimizer sv)))%Z
  /\ ((len l + 1) mod min_samples (config (rl_optimizer sv)) = 0)%Z
  /\ weights_sound (config (rl_optimizer sv))
  /\ fst r = Raise (KeyError "feedback_type")
  /\ feedback_file (snd r)
     = Some (Entries
               (l ++ [feedback_entry (len l + 1) (clock (rl_optimizer sv))
                        (S (clock (rl_optimizer sv))) "r5" "q5" "a5" []
                        "positive" 0.7 [] "hybrid" false None])).
Proof.
  cbv zeta.
  assert (H1 : typed (_load_feedback damaged_service) = false)
    by reflexivity.
  assert (H2 : (1 <= min_samples (config (rl_optimizer damaged_service)))%Z)
    by (vm_compute; discriminate).
  assert (H3 : ((len (_load_feedback damaged_service) + 1)
                mod min_samples (config (rl_optimizer damaged_service))
                = 0)%Z) by reflexivity.
  assert (H4 : weights_sound (config (rl_optimizer damaged_service)))
    by (apply started_sound).
  split; [exact H1|]. split; [exact H2|]. split; [exact H3|].
  split; [exact H4|].
  exact (submit_raises_after_saving damaged_service "r5" "q5" "a5" []
           "positive" 0.7 [] "hybrid" false None H1 H2 H3 H4).
Defined.

End SubmitFeedback.

(* ================================================================== *)
(** ** FeedbackService.get_feedback_stats *)
(* ================================================================== *)

Section FeedbackStats.
Import RL Spec More DottedGet FeedbackService.

Lemma count_type_ok (cond : Entry -> bool) (t : string) (l : list Entry)
    (n : Z) :
  count_type cond t l = Ok n ->
  n = how_many (fun f => cond f && is_type t f) l.
Proof.
  unfold how_many. revert n. induction l as [|f l IH]; intros n H.
  - now injection H as <-.
  - simpl in H. simpl filter. unfold is_type at 1.
    destruct (cond f); simpl andb; [|now apply IH].
    unfold type_of, item_feedback_type in H.
    destruct (feedback_type (seen f)) as [t'|]; [|discriminate].
    simpl in H. destruct (count_type cond t l) as [m|]; [|discriminate].
    simpl in H. injection H as <-. rewrite (IH m eq_refl).
    destruct (String.eqb t' t); unfold len; simpl length; lia.
Qed.

Lemma range_item_set {A} (ranges : Ranges A) (k k' : range_key) (a : A) :
  range_item (set_range_item ranges k a) k'
  = if range_key_eqb k k' then a else range_item ranges k'.
Proof. destruct k, k'; reflexivity. Qed.

Lemma tally_ok (l : list Entry) (ranges r : Ranges (Z * Z)) :
  tally l ranges = Ok r ->
  forall k,
    range_item r k
    = ((fst (range_item ranges k)
        + how_many (fun f => in_range k f && is_type "positive" f) l)%Z,
       (snd (range_item ranges k) + how_many (in_range k) l)%Z).
Proof.
  unfold how_many. revert ranges.
  induction l as [|f l IH]; intros ranges H k.
  - injection H as <-. unfold len. simpl.
    rewrite !Z.add_0_r. now destruct (range_item ranges k).
  - simpl in H.
    destruct (range_item ranges (range_of (get_or (confidence (seen f)) 0.5)))
      as [p t] eqn:Eitem.
    unfold type_of, item_feedback_type in H.
    assert (Ein : in_range k f
                  = range_key_eqb
                      (range_of (get_or (confidence (seen f)) 0.5)) k)
      by reflexivity.
    assert (Ety : is_type "positive" f
                  = match feedback_type (seen f) with
                    | Some t' => String.eqb t' "positive"
                    | None => false
                    end) by reflexivity.
    simpl filter. rewrite Ein, Ety. clear Ein Ety.
    destruct (feedback_type (seen f)) as [t'|]; [|discriminate].
    simpl in H. rewrite (IH _ H k), range_item_set.
    destruct (range_key_eqb _ k) eqn:Ek; [|reflexivity].
    assert (range_of (get_or (confidence (seen f)) 0.5) = k)
      by (destruct (range_of _), k; discriminate || reflexivity).
    subst k. rewrite Eitem. simpl fst. simpl snd. simpl andb.
    destruct (String.eqb t' "positive"); unfold len; simpl length;
      f_equal; lia.
Qed.

(** Counting by a condition and by its negation. *)
Lemma how_many_split (q p : Entry -> bool) (l : list Entry) :
  (how_many (fun f => q f && p f) l
   + how_many (fun f => negb (q f) && p f) l)%Z
  = how_many p l.
Proof.
  unfold how_many, len. induction l as [|f l IH]; [reflexivity|].
  cbn [filter]. destruct (q f), (p f); cbn [andb negb length]; lia.
Qed.

Lemma how_many_ranges (p : Entry -> bool) (l : list Entry) :
  (how_many (fun f => in_range Low f && p f) l
   + how_many (fun f => in_range Medium f && p f) l
   + how_many (fun f => in_range High f && p f) l)%Z
  = how_many p l.
Proof.
  unfold how_many, len, in_range. induction l as [|f l IH]; [reflexivity|].
  cbn [filter]. destruct (range_of _), (p f);
    cbn [range_key_eqb andb length]; lia.
Qed.

Lemma how_many_ext (p q : Entry -> bool) (l : list Entry) :
  (forall f, p f = q f) -> how_many p l = how_many q l.
Proof.
  intro H. unfold how_many. now rewrite (filter_ext _ _ H).
Qed.

Lemma how_many_bounds (p : Entry -> bool) (l : list Entry) :
  (0 <= how_many p l <= len l)%Z.
Proof.
  unfold how_many, len. pose proof (filter_length_le p l). lia.
Qed.

Lemma how_many_disjoint (l : list Entry) :
  (how_many (is_type "positive") l + how_many (is_type "negative") l
   <= len l)%Z.
Proof.
  unfold how_many, len. induction l as [|f l IH]; [simpl; lia|].
  cbn [filter].
  assert (E : is_type "positive" f && is_type "negative" f = false).
  { unfold is_type. destruct (feedback_type (seen f)) as [t|]; [|reflexivity].
    destruct (String.eqb t "positive") eqn:E; [|reflexivity].
    apply String.eqb_eq in E. now subst t. }
  destruct (is_type "positive" f), (is_type "negative" f);
    try discriminate; cbn [length]; lia.
Qed.

Lemma stats_eq (sv : Service) :
  let l := _load_feedback sv in
  l <> [] ->
  get_feedback_stats sv
  = (positive <- count_type always "positive" l ;;
     negative <- count_type always "negative" l ;;
     positive_rate <- int_div positive (len l) ;;
     web_search_feedback <- _analyze_web_search_feedback l ;;
     confidence_correlation <- _analyze_confidence_correlation l ;;
     Ok {| Overall.total_feedback := len l;
           Overall.positive := positive;
           Overall.negative := negative;
           Overall.positive_rate := positive_rate;
           Overall.web_search_feedback := Some web_search_feedback;
           Overall.confidence_correlation :=
             Some confidence_correlation |})%py.
Proof.
  cbv zeta. unfold get_feedback_stats.
  destruct (_load_feedback sv); [congruence | reflexivity].
Qed.

Lemma correlation_eq (l : list Entry) :
  l <> [] ->
  _analyze_confidence_correlation l
  = (ranges <- tally l {| low := (0%Z, 0%Z); medium := (0%Z, 0%Z);
                          high := (0%Z, 0%Z) |} ;;
     Ok (by_range
           {| low := counts_of (fst (low ranges)) (snd (low ranges));
              medium := counts_of (fst (medium ranges)) (snd (medium ranges));
              high := counts_of (fst (high ranges)) (snd (high ranges)) |}))%py.
Proof. destruct l; [congruence | reflexivity]. Qed.

(** X16. The statistics add up.  When the file holds feedback and
    [get_feedback_stats] returns, the total is the number of entries,
    [positive] and [negative] count the entries of these types (so together
    at most the total), the positive rate is their share and lies in
    [0, 1]; the web-search and the internal counts add up to the overall
    ones, and so do the counts of the three confidence ranges. *)
Theorem stats_add_up (sv : Service) (s : Overall.Stats) :
  _load_feedback sv <> [] ->
  get_feedback_stats sv = Ok s ->
  let l := _load_feedback sv in
  exists w r,
    Overall.web_search_feedback s = Some w
    /\ Overall.confidence_correlation s = Some (by_range r)
    /\ Overall.total_feedback s = len l
    /\ Overall.positive s = how_many (is_type "positive") l
    /\ Overall.negative s = how_many (is_type "negative") l
    /\ (Overall.positive s + Overall.negative s <= Overall.total_feedback s)%Z
    /\ Overall.positive_rate s
       == inject_Z (Overall.positive s) / inject_Z (Overall.total_feedback s)
    /\ 0 <= Overall.positive_rate s <= 1
    /\ (total (web_search w) + total (internal_kb w)
        = Overall.total_feedback s)%Z
    /\ (positive (web_search w) + positive (internal_kb w)
        = Overall.positive s)%Z
    /\ (total (low r) + total (medium r) + total (high r)
        = Overall.total_feedback s)%Z
    /\ (positive (low r) + positive (medium r) + positive (high r)
        = Overall.positive s)%Z.
Proof.
  intros Hne H. cbv zeta. rewrite (stats_eq sv Hne) in H.
  set (l := _load_feedback sv) in *.
  assert (Hlen : (0 < len l)%Z)
    by (unfold len; destruct l; [congruence | simpl length; lia]).
  destruct (count_type always "positive" l) as [p|] eqn:Ep; [|discriminate].
  destruct (count_type always "negative" l) as [n|] eqn:En; [|discriminate].
  simpl rbind in H. rewrite int_div_ok in H by lia. simpl rbind in H.
  unfold _analyze_web_search_feedback in H.
  destruct (count_type by_web "positive" l) as [wp|] eqn:Ewp;
    [|discriminate].
  destruct (count_type (fun f => negb (by_web f)) "positive" l) as [ip|]
    eqn:Eip; [|discriminate].
  simpl rbind in H. rewrite (correlation_eq l Hne) in H.
  destruct (tally l _) as [ranges|] eqn:Et; [|discriminate].
  simpl rbind in H. injection H as <-.
  apply count_type_ok in Ep, En, Ewp, Eip.
  rewrite (how_many_ext _ (is_type "positive")) in Ep by reflexivity.
  rewrite (how_many_ext _ (is_type "negative")) in En by reflexivity.
  pose proof (tally_ok _ _ _ Et) as Hr.
  pose proof (Hr Low) as HL. pose proof (Hr Medium) as HM.
  pose proof (Hr High) as HH. cbn [range_item low medium high fst snd] in *.
  pose proof (how_many_bounds (is_type "positive") l) as Bp.
  pose proof (how_many_bounds (is_type "negative") l) as Bn.
  pose proof (how_many_disjoint l) as Hd.
  eexists _, _. cbn [Overall.web_search_feedback Overall.confidence_correlation
    Overall.total_feedback Overall.positive Overall.negative
    Overall.positive_rate web_search internal_kb total positive counts_of
    low medium high].
  split; [reflexivity|]. split; [reflexivity|]. split; [reflexivity|].
  split; [exact Ep|]. split; [exact En|].
  split; [lia|]. split; [reflexivity|].
  split.
  { assert (H0 : 0 < inject_Z (len l))
      by (change 0 with (inject_Z 0); rewrite <- Zlt_Qlt; exact Hlen).
    split.
    - apply Qle_shift_div_l; [exact H0|]. rewrite Qmult_0_l.
      change 0 with (inject_Z 0). rewrite <- Zle_Qle. lia.
    - apply Qle_shift_div_r; [exact H0|]. rewrite Qmult_1_l.
      rewrite <- Zle_Qle. lia. }
  pose proof (how_many_split by_web always l) as Hw.
  pose proof (how_many_split by_web (is_type "positive") l) as Hwp.
  pose proof (how_many_ranges always l) as Hra.
  pose proof (how_many_ranges (is_type "positive") l) as Hrp.
  rewrite (how_many_ext (fun f => by_web f && always f) by_web) in Hw
    by (intro; apply andb_true_r).
  rewrite (how_many_ext (fun f => negb (by_web f) && always f)
             (fun f => negb (by_web f))) in Hw
    by (intro; apply andb_true_r).
  rewrite (how_many_ext (fun f => in_range Low f && always f)
             (in_range Low)) in Hra by (intro; apply andb_true_r).
  rewrite (how_many_ext (fun f => in_range Medium f && always f)
             (in_range Medium)) in Hra by (intro; apply andb_true_r).
  rewrite (how_many_ext (fun f => in_range High f && always f)
             (in_range High)) in Hra by (intro; apply andb_true_r).
  assert (Hall : how_many always l = len l).
  { unfold how_many, always.
    now rewrite (forallb_filter_id _ l) by (now apply forallb_forall). }
  cbn [web_search internal_kb total positive counts_of low medium high].
  rewrite HL, HM, HH. cbn [fst snd].
  fold (how_many by_web l). fold (how_many (fun f => negb (by_web f)) l).
  repeat split; lia.
Qed.

Lemma stats_add_up_witness :
  let sv := small_service in
  let s := small_stats in
  let l := _load_feedback sv in
  _load_feedback sv <> []
  /\ get_feedback_stats sv = Ok s
  /\ exists w r,
       Overall.web_search_feedback s = Some w
       /\ Overall.confidence_correlation s = Some (by_range r)
       /\ Overall.total_feedback s = len l
       /\ Overall.positive s = how_many (is_type "positive") l
       /\ Overall.negative s = how_many (is_type "negative") l
       /\ (Overall.positive s + Overall.negative s
           <= Overall.total_feedback s)%Z
       /\ Overall.positive_rate s
          == inject_Z (Overall.positive s)
             / inject_Z (Overall.total_feedback s)
       /\ 0 <= Overall.positive_rate s <= 1
       /\ (total (web_search w) + total (internal_kb w)
           = Overall.total_feedback s)%Z
       /\ (positive (web_search w) + positive (internal_kb w)
           = Overall.positive s)%Z
       /\ (total (low r) + total (medium r) + total (high r)
           = Overall.total_feedback s)%Z
       /\ (positive (low r) + positive (medium r) + positive (high r)
           = Overall.positive s)%Z.
Proof.
  cbv zeta.
  assert (H1 : _load_feedback small_service <> []) by discriminate.
  assert (H2 : get_feedback_stats small_service = Ok small_stats)
    by (vm_compute; reflexivity).
  split; [exact H1|]. split; [exact H2|].
  exact (stats_add_up small_service small_stats H1 H2).
Defined.

End FeedbackStats.

(* ================================================================== *)
(** ** FeedbackService.get_adjustment_recommendations and the optimizer *)
(* ================================================================== *)

Section Recommendations.
Import RL Spec More DottedGet FeedbackService.

Lemma count_always_typed (t : string) (l : list Entry) (n : Z) :
  count_type always t l = Ok n -> typed l = true.
Proof.
  unfold typed. revert n. induction l as [|f l IH]; intros n H;
    [reflexivity|].
  simpl in H. unfold type_of, item_feedback_type in H.
  simpl. unfold has_feedback_type at 1.
  destruct (feedback_type (seen f)); [|discriminate].
  simpl in H. destruct (count_type always t l) as [m|] eqn:E;
    [|discriminate].
  now apply (IH m).
Qed.

Lemma filter_map_length {A B} (g : A -> B) (p : B -> bool) (l : list A) :
  length (filter p (map g l)) = length (filter (fun x => p (g x)) l).
Proof.
  induction l as [|x l IH]; [reflexivity|].
  simpl. destruct (p (g x)); simpl; now rewrite IH.
Qed.

Lemma part_length (c : Feedback -> bool) (l : list Entry) :
  len (filter c (map seen l)) = how_many (fun f => c (seen f)) l.
Proof. unfold how_many, len. now rewrite filter_map_length. Qed.

Lemma part_positive (c : Feedback -> bool) (l : list Entry) :
  len (filter is_positive (filter c (map seen l)))
  = how_many (fun f => c (seen f) && is_type "positive" f) l.
Proof.
  unfold how_many, len. now rewrite filter_filter, filter_map_length.
Qed.

(** What the recommendations are made of. *)
Lemma recommendations_inv (sv : Service) (n : Z)
    (recs : list recommendation) :
  get_adjustment_recommendations sv = Ok (recommended n recs) ->
  let l := _load_feedback sv in
  typed l = true
  /\ (10 <= len l)%Z
  /\ recs
     = threshold_advice (counts_where by_web l)
         (counts_where (fun f => negb (by_web f)) l)
       ++ calibration_advice (counts_where (in_range High) l).
Proof.
  cbv zeta. unfold get_adjustment_recommendations.
  destruct (len (_load_feedback sv) <? 10)%Z eqn:E10; [discriminate|].
  apply Z.ltb_ge in E10.
  assert (Hne : _load_feedback sv <> [])
    by (intro E; rewrite E in E10; unfold len in E10; simpl in E10; lia).
  rewrite (stats_eq sv Hne).
  set (l := _load_feedback sv) in *.
  destruct (count_type always "positive" l) as [p|] eqn:Ep; [|discriminate].
  destruct (count_type always "negative" l) as [m|] eqn:En; [|discriminate].
  simpl rbind. rewrite int_div_ok by lia. simpl rbind.
  unfold _analyze_web_search_feedback.
  destruct (count_type by_web "positive" l) as [wp|] eqn:Ewp;
    [|discriminate].
  destruct (count_type (fun f => negb (by_web f)) "positive" l) as [ip|]
    eqn:Eip; [|discriminate].
  simpl rbind. rewrite (correlation_eq l Hne).
  destruct (tally l _) as [ranges|] eqn:Et; [|discriminate].
  simpl rbind.
  cbn [Overall.web_search_feedback Overall.confidence_correlation item
       web_search internal_kb high].
  apply count_type_ok in Ewp, Eip.
  pose proof (tally_ok _ _ _ Et High) as HH.
  cbn [range_item high fst snd] in HH. rewrite !Z.add_0_l in HH.
  rewrite HH. cbn [fst snd]. subst wp ip.
  fold (how_many by_web l). fold (how_many (fun f => negb (by_web f)) l).
  intro H. injection H as _ <-.
  split; [exact (count_always_typed _ _ _ Ep)|]. split; [exact E10|].
  unfold threshold_advice, calibration_advice, counts_where.
  cbn [total positive_rate counts_of].
  repeat match goal with
         | |- context [if ?c then _ else _] => destruct c
         end; reflexivity.
Qed.

Lemma rate_of_pos (p t : Z) :
  (0 < t)%Z -> rate_of p t = inject_Z p / inject_Z t.
Proof.
  intro H. unfold rate_of.
  destruct (0 <? t)%Z eqn:E; [reflexivity | apply Z.ltb_ge in E; lia].
Qed.

Lemma rate_nonneg (p : Entry -> bool) (l : list Entry) :
  0 <= positive_rate (counts_where p l) <= 1.
Proof.
  unfold counts_where, counts_of, rate_of. cbn [positive_rate].
  destruct (0 <? how_many p l)%Z eqn:E; [|split; discriminate].
  apply Z.ltb_lt in E.
  pose proof (how_many_bounds (fun f => p f && is_type "positive" f) l)
    as [B0 _].
  pose proof (how_many_split p (is_type "positive") l) as Hs.
  assert (B1 : (how_many (fun f => p f && is_type "positive" f) l
                <= how_many p l)%Z).
  { unfold how_many, len. apply inj_le. clear.
    induction l as [|f l IH]; [simpl; lia|].
    cbn [filter]. destruct (p f), (is_type "positive" f);
      cbn [andb length]; lia. }
  assert (H0 : 0 < inject_Z (how_many p l))
    by (change 0 with (inject_Z 0); rewrite <- Zlt_Qlt; exact E).
  split.
  - apply Qle_shift_div_l; [exact H0|]. rewrite Qmult_0_l.
    change 0 with (inject_Z 0). rewrite <- Zle_Qle. exact B0.
  - apply Qle_shift_div_r; [exact H0|]. rewrite Qmult_1_l.
    rewrite <- Zle_Qle. exact B1.
Qed.

(** X17. A threshold recommendation of the service is what its optimizer does
    on the same feedback.  When the recommendations include a change of the
    web-search threshold, the optimizer's web-search analysis of the stored
    entries, from a threshold within [0.5, 0.9] and a learning rate that is
    not negative, adjusts the threshold, in the recommended direction:
    [decrease] (suggested 0.6) never raises it, [increase] (suggested 0.9)
    never lowers it. *)
Theorem threshold_advice_agrees_with_optimizer
    (sv : Service) (st : State) (n : Z) (recs : list recommendation)
    (a : action) (suggested : Q) :
  get_adjustment_recommendations sv = Ok (recommended n recs) ->
  In (web_search_threshold a suggested) recs ->
  0.5 <= threshold st <= 0.9 ->
  0 <= learning_rate (config st) ->
  exists new,
    fst (_analyze_web_search_performance (map seen (_load_feedback sv)) st)
    = Ok (Some (threshold_adjustment (threshold st) new))
    /\ 0.5 <= new <= 0.9
    /\ match a with
       | decrease => suggested = 0.6 /\ new <= threshold st
       | increase => suggested = 0.9 /\ threshold st <= new
       | recalibrate => False
       end.
Proof.
  intros H Hin [Hlo Hhi] Hrate.
  apply recommendations_inv in H. cbv zeta in H.
  set (l := _load_feedback sv) in *.
  destruct H as (Htyped & _ & ->).
  apply in_app_or in Hin. destruct Hin as [Hin | Hin].
  2:{ unfold calibration_advice in Hin.
      destruct (3 <? _)%Z; [|contradiction].
      destruct (Qltb _ 0.6); [|contradiction].
      destruct Hin as [Hin | []]. discriminate. }
  unfold threshold_advice, counts_where in Hin.
  cbn [total positive_rate counts_of] in Hin.
  destruct ((5 <? how_many by_web l)
            && (5 <? how_many (fun f => negb (by_web f)) l))%Z eqn:E5;
    [|contradiction].
  apply andb_prop in E5. destruct E5 as [Ew Ei].
  apply Z.ltb_lt in Ew, Ei.
  rewrite !rate_of_pos in Hin by lia.
  rewrite web_analysis_eq.
  unfold web_part, internal_part, web_rate, internal_rate, fraction,
    web_part, internal_part.
  rewrite (part_length used_web l).
  rewrite (part_length (fun f => negb (used_web f)) l).
  rewrite (part_positive used_web l).
  rewrite (part_positive (fun f => negb (used_web f)) l).
  change (fun f => used_web (seen f)) with by_web.
  change (fun f => negb (used_web (seen f)))
    with (fun f => negb (by_web f)).
  change (fun f => used_web (seen f) && is_type "positive" f)
    with (fun f => by_web f && is_type "positive" f).
  change (fun f => negb (used_web (seen f)) && is_type "positive" f)
    with (fun f => negb (by_web f) && is_type "positive" f).
  unfold typed in Htyped. rewrite Htyped.
  destruct ((how_many by_web l <? 3)
            || (how_many (fun f => negb (by_web f)) l <? 3))%Z eqn:E3.
  { apply orb_prop in E3. destruct E3 as [E | E]; apply Z.ltb_lt in E; lia. }
  cbv zeta.
  set (web := inject_Z (how_many (fun f => by_web f && is_type "positive" f) l)
              / inject_Z (how_many by_web l)) in *.
  set (internal :=
         inject_Z
           (how_many (fun f => negb (by_web f) && is_type "positive" f) l)
         / inject_Z (how_many (fun f => negb (by_web f)) l)) in *.
  assert (Hmul : forall d, 0 <= d -> 0 <= d * learning_rate (config st))
    by (intros d Hd; now apply Qmult_le_0_compat).
  destruct (Qltb (internal + 0.2) web) eqn:Edec.
  - destruct Hin as [Hin | []]. injection Hin as <- <-.
    apply Qltb_lt in Edec.
    assert (E15 : Qltb (internal + 0.15) web = true)
      by (apply Qltb_lt; lra).
    rewrite E15. eexists. split; [reflexivity|].
    pose proof (Hmul (web - internal)) as Hd.
    assert (Hle : max2 0.5 (threshold st
                            - (web - internal) * learning_rate (config st))
                  <= threshold st)
      by (apply max2_upper; [exact Hlo | lra]).
    split; [split; [apply max2_lower | lra]|].
    split; [reflexivity | exact Hle].
  - destruct (Qltb (web + 0.2) internal) eqn:Einc; [|contradiction].
    destruct Hin as [Hin | []]. injection Hin as <- <-.
    apply Qltb_lt in Einc.
    assert (E15 : Qltb (internal + 0.15) web = false)
      by (apply Qltb_ge; lra).
    assert (E15' : Qltb (web + 0.15) internal = true)
      by (apply Qltb_lt; lra).
    rewrite E15, E15'. eexists. split; [reflexivity|].
    pose proof (Hmul (internal - web)) as Hd.
    assert (Hge : threshold st
                  <= min2 0.9 (threshold st
                               + (internal - web) * learning_rate (config st)))
      by (apply min2_lower; [exact Hhi | lra]).
    split; [split; [lra | apply min2_upper]|].
    split; [reflexivity | exact Hge].
Qed.

Lemma threshold_advice_agrees_with_optimizer_witness :
  let sv := lopsided_service in
  let st := started None 0%nat in
  let recs := [web_search_threshold decrease 0.6;
               confidence_calibration recalibrate] in
  get_adjustment_recommendations sv = Ok (recommended 12 recs)
  /\ In (web_search_threshold decrease 0.6) recs
  /\ 0.5 <= threshold st <= 0.9
  /\ 0 <= learning_rate (config st)
  /\ exists new,
       fst (_analyze_web_search_performance (map seen (_load_feedback sv)) st)
       = Ok (Some (threshold_adjustment (threshold st) new))
       /\ 0.5 <= new <= 0.9
       /\ 0.6 = 0.6 /\ new <= threshold st.
Proof.
  cbv zeta.
  assert (H1 : get_adjustment_recommendations lopsided_service
               = Ok (recommended 12
                       [web_search_threshold decrease 0.6;
                        confidence_calibration recalibrate]))
    by (vm_compute; reflexivity).
  assert (H2 : In (web_search_threshold decrease 0.6)
                 [web_search_threshold decrease 0.6;
                  confidence_calibration recalibrate])
    by (left; reflexivity).
  assert (H3 : 0.5 <= threshold (started None 0%nat) <= 0.9)
    by (split; vm_compute; discriminate).
  assert (H4 : 0 <= learning_rate (config (started None 0%nat)))
    by (vm_compute; discriminate).
  split; [exact H1|]. split; [exact H2|]. split; [exact H3|].
  split; [exact H4|].
  exact (threshold_advice_agrees_with_optimizer lopsided_service
           (started None 0%nat) 12 _ decrease 0.6 H1 H2 H3 H4).
Defined.

Lemma high_range (f : Entry) :
  in_range High f = Qle_bool 0.7 (get_or (confidence (seen f)) 0).
Proof.
  unfold in_range, range_of, Qltb.
  destruct (confidence (seen f)) as [c|]; [|reflexivity].
  cbn [get_or].
  destruct (Qle_bool 0.7 c) eqn:E7.
  - assert (E3 : Qle_bool 0.3 c = true).
    { apply Qle_bool_iff in E7. apply Qle_bool_iff. lra. }
    now rewrite E3.
  - cbn [negb]. now destruct (negb (Qle_bool 0.3 c)).
Qed.

(** X18. A calibration recommendation of the service is what its optimizer does
    on the same feedback: when the recommendations include [recalibrate],
    the optimizer's confidence calibration of the stored entries adjusts the
    confidence weights, by one step of the learning rate. *)
Theorem calibration_advice_agrees_with_optimizer
    (sv : Service) (st : State) (n : Z) (recs : list recommendation)
    (a : action) :
  get_adjustment_recommendations sv = Ok (recommended n recs) ->
  In (confidence_calibration a) recs ->
  let current := confidence_weights (config st) in
  a = recalibrate
  /\ fst (_analyze_confidence_calibration (map seen (_load_feedback sv)) st)
     = Ok (Some (confidence_weights_adjustment current
                   (calibrated current (learning_rate (config st))))).
Proof.
  intros H Hin. cbv zeta.
  apply recommendations_inv in H. cbv zeta in H.
  set (l := _load_feedback sv) in *.
  destruct H as (Htyped & _ & ->).
  apply in_app_or in Hin. destruct Hin as [Hin | Hin].
  { unfold threshold_advice in Hin.
    destruct (_ && _); [|contradiction].
    destruct (Qltb _ _); [destruct Hin as [Hin | []]; discriminate|].
    destruct (Qltb _ _); [destruct Hin as [Hin | []]; discriminate|].
    contradiction. }
  unfold calibration_advice, counts_where in Hin.
  cbn [total positive_rate counts_of] in Hin.
  destruct (3 <? how_many (in_range High) l)%Z eqn:E3; [|contradiction].
  apply Z.ltb_lt in E3. rewrite rate_of_pos in Hin by lia.
  destruct (Qltb _ 0.6) eqn:Erate; [|contradiction].
  destruct Hin as [Hin | []]. injection Hin as <-.
  split; [reflexivity|].
  unfold _analyze_confidence_calibration. cbv zeta.
  set (c := fun f : Feedback => Qle_bool 0.7 (get_or (confidence f) 0)).
  assert (Hhigh : how_many (fun f => c (seen f)) l
                  = how_many (in_range High) l)
    by (apply how_many_ext; intro f; symmetry; apply high_range).
  assert (Hpos : how_many (fun f => c (seen f) && is_type "positive" f) l
                 = how_many (fun f => in_range High f && is_type "positive" f)
                     l)
    by (apply how_many_ext; intro f; now rewrite high_range).
  rewrite (part_length c l), Hhigh.
  destruct (3 <=? how_many (in_range High) l)%Z eqn:E3';
    [|apply Z.leb_gt in E3'; lia].
  unfold typed in Htyped.
  rewrite (count_positive_ok _ (forallb_filter _ c _ Htyped)). mstep.
  rewrite (part_positive c l), Hpos.
  rewrite int_div_ok by lia.
  mstep. rewrite Erate.
  rewrite bind_gets, bind_update. reflexivity.
Qed.

Lemma calibration_advice_agrees_with_optimizer_witness :
  let sv := lopsided_service in
  let st := started None 0%nat in
  let recs := [web_search_threshold decrease 0.6;
               confidence_calibration recalibrate] in
  let current := confidence_weights (config st) in
  get_adjustment_recommendations sv = Ok (recommended 12 recs)
  /\ In (confidence_calibration recalibrate) recs
  /\ recalibrate = recalibrate
  /\ fst (_analyze_confidence_calibration (map seen (_load_feedback sv)) st)
     = Ok (Some (confidence_weights_adjustment current
                   (calibrated current (learning_rate (config st))))).
Proof.
  cbv zeta.
  assert (H1 : get_adjustment_recommendations lopsided_service
               = Ok (recommended 12
                       [web_search_threshold decrease 0.6;
                        confidence_calibration recalibrate]))
    by (vm_compute; reflexivity).
  assert (H2 : In (confidence_calibration recalibrate)
                 [web_search_threshold decrease 0.6;
                  confidence_calibration recalibrate])
    by (right; left; reflexivity).
  split; [exact H1|]. split; [exact H2|].
  exact (calibration_advice_agrees_with_optimizer lopsided_service
           (started None 0%nat) 12 _ recalibrate H1 H2).
Defined.

End Recommendations.

(* ================================================================== *)
(** ** FeedbackService.get_failed_queries *)
(* ================================================================== *)

Section FailedQueries.
Import RL Spec More DottedGet FeedbackService.

Lemma negative_feedback_ok (l : list Entry)
    (negatives : list Failed.FailedQuery) :
  negative_feedback l = Ok negatives ->
  length negatives = length (filter (is_type "negative") l)
  /\ Forall (fun x => exists f, In f l /\ made_of x f) negatives.
Proof.
  revert negatives. induction l as [|f l IH]; intros negatives H.
  - injection H as <-. split; [reflexivity | constructor].
  - simpl in H. unfold type_of, item_feedback_type in H.
    assert (Ety : is_type "negative" f
                  = match feedback_type (seen f) with
                    | Some t => String.eqb t "negative"
                    | None => false
                    end) by reflexivity.
    cbn [filter]. rewrite Ety.
    destruct (feedback_type (seen f)) as [t|] eqn:Et; [|discriminate].
    simpl in H. destruct (String.eqb t "negative") eqn:En.
    + destruct (query f) as [q|] eqn:Eq; [|discriminate].
      destruct (answer f) as [a|] eqn:Ea; [|discriminate].
      destruct (timestamp f) as [ts|] eqn:Ets; [|discriminate].
      simpl in H.
      destruct (negative_feedback l) as [rest|]; [|discriminate].
      simpl in H. injection H as <-.
      destruct (IH rest eq_refl) as [Hlen Hall].
      split; [simpl; now rewrite Hlen|].
      constructor.
      * exists f. split; [now left|].
        unfold made_of.
        cbn [Failed.query Failed.answer Failed.timestamp Failed.confidence
             Failed.judge_scores Failed.comment].
        rewrite Ety. repeat split; try reflexivity; assumption.
      * eapply Forall_impl; [|exact Hall].
        intros x (g & Hg & Hx). exists g. split; [now right | exact Hx].
    + destruct (IH negatives H) as [Hlen Hall].
      split; [exact Hlen|].
      eapply Forall_impl; [|exact Hall].
      intros x (g & Hg & Hx). exists g. split; [now right | exact Hx].
Qed.

Lemma sorted_weaken {A} (R R' : A -> A -> Prop) (l : list A) :
  (forall a b, R a b -> R' a b) ->
  StronglySorted R l -> StronglySorted R' l.
Proof.
  intros HR H. induction H as [|x l Hs IH Hall]; constructor;
    [exact IH|].
  eapply Forall_impl; [|exact Hall]. intros b Hb. now apply HR.
Qed.

Lemma sorted_app {A} (R : A -> A -> Prop) (l1 l2 : list A) :
  StronglySorted R (l1 ++ l2) -> Forall (fun x => Forall (R x) l2) l1.
Proof.
  induction l1 as [|x l1 IH]; intro H; [constructor|].
  simpl in H. inversion H as [|? ? Hs Hall]; subst.
  constructor; [|now apply IH].
  apply Forall_app in Hall. apply Hall.
Qed.

Lemma timestamp_key_le (x y : Failed.FailedQuery) :
  timestamp_key x <= timestamp_key y -> not_after x y.
Proof.
  unfold timestamp_key, not_after. rewrite <- Zle_Qle. lia.
Qed.

(** X19. [get_failed_queries(limit)] returns the latest negative feedback.
    When it returns, for [limit >= 0], every item is made of a stored entry
    of type [negative]; there are [limit] of them, or all negative entries
    if these are fewer; they come latest first; and every negative entry
    left out is not later than any returned one. *)
Theorem failed_queries_are_the_latest_negatives
    (limit : Z) (sv : Service) (out : list Failed.FailedQuery) :
  (0 <= limit)%Z ->
  get_failed_queries limit sv = Ok out ->
  let l := _load_feedback sv in
  exists negatives rest,
    negative_feedback l = Ok negatives
    /\ Permutation (out ++ rest) negatives
    /\ Forall (fun x => exists f, In f l /\ made_of x f) negatives
    /\ length out
       = Nat.min (Z.to_nat limit) (length (filter (is_type "negative") l))
    /\ StronglySorted (fun x y => not_after y x) out
    /\ Forall (fun x => Forall (fun y => not_after y x) rest) out.
Proof.
  intros Hlimit H. cbv zeta. unfold get_failed_queries in H.
  destruct (negative_feedback (_load_feedback sv)) as [negatives|] eqn:En;
    [|discriminate].
  simpl in H. injection H as <-.
  destruct (negative_feedback_ok _ _ En) as [Hlen Hall].
  rewrite <- (Z2Nat.id limit) by exact Hlimit. rewrite slice_to_nonneg.
  rewrite Z2Nat.id by exact Hlimit.
  set (sorted := sorted_desc timestamp_key negatives).
  pose proof (sorted_desc_perm timestamp_key negatives) as Hperm.
  pose proof (sorted_desc_sorted timestamp_key negatives) as Hsorted.
  fold sorted in Hperm, Hsorted.
  apply (sorted_weaken _ (fun x y => not_after y x)) in Hsorted;
    [|intros a b; apply timestamp_key_le].
  exists negatives, (skipn (Z.to_nat limit) sorted).
  split; [reflexivity|].
  split; [now rewrite firstn_skipn|].
  split; [exact Hall|].
  split.
  { rewrite length_firstn, (Permutation_length Hperm), Hlen. reflexivity. }
  rewrite <- (firstn_skipn (Z.to_nat limit) sorted) in Hsorted.
  split; [|now apply sorted_app].
  rewrite (firstn_skipn (Z.to_nat limit) sorted) in Hsorted.
  clear -Hsorted. revert Hsorted. generalize (Z.to_nat limit) as k.
  induction sorted as [|x s IH]; intros k H.
  - rewrite firstn_nil. constructor.
  - destruct k as [|k]; [constructor|].
    inversion H as [|? ? Hs Hall]; subst. simpl.
    constructor; [now apply IH|].
    rewrite Forall_forall in *. intros y Hy. apply Hall.
    now apply (prefix_incl k s).
Qed.

Lemma failed_queries_are_the_latest_negatives_witness :
  let sv := small_service in
  let out := small_failures in
  let l := _load_feedback sv in
  (0 <= 1)%Z
  /\ get_failed_queries 1 sv = Ok out
  /\ exists negatives rest,
       negative_feedback l = Ok negatives
       /\ Permutation (out ++ rest) negatives
       /\ Forall (fun x => exists f, In f l /\ made_of x f) negatives
       /\ length out
          = Nat.min (Z.to_nat 1) (length (filter (is_type "negative") l))
       /\ StronglySorted (fun x y => not_after y x) out
       /\ Forall (fun x => Forall (fun y => not_after y x) rest) out.
Proof.
  cbv zeta.
  assert (H1 : (0 <= 1)%Z) by lia.
  assert (H2 : get_failed_queries 1 small_service = Ok small_failures)
    by (vm_compute; reflexivity).
  split; [exact H1|]. split; [exact H2|].
  exact (failed_queries_are_the_latest_negatives 1 small_service
           small_failures H1 H2).
Defined.

End FailedQueries.

(* ================================================================== *)
(** ** Reranker.rerank and Reranker.rerank_with_threshold *)
(* ================================================================== *)

Section RerankerFacts.
Import DottedGet Retrieval Reranker.
Context (predict : pyval -> pyval -> Q).

Lemma doc_item_find (doc : document) (key : string) :
  dict_find String.eqb doc key <> None ->
  doc_item doc key = Ok (item_or doc key PNone).
Proof.
  intro H. unfold doc_item. rewrite item_or_find.
  now destruct (dict_find String.eqb doc key).
Qed.

Lemma doc_item_found (doc : document) (key : string) (v : pyval) :
  dict_find String.eqb doc key = Some v -> doc_item doc key = Ok v.
Proof. intro H. unfold doc_item. now rewrite H. Qed.

Lemma readable_keys (doc : document) :
  readable doc ->
  dict_find String.eqb doc "title"%string <> None
  /\ dict_find String.eqb doc "summary"%string <> None.
Proof.
  intros [(t & Ht & _) (s & Hs & _)]. rewrite Ht, Hs.
  split; discriminate.
Qed.

Lemma doc_texts_ok (documents : list document) :
  Forall readable documents ->
  doc_texts documents
  = Ok (map (fun d => (item_or d "title"%string PNone,
                       item_or d "summary"%string PNone)) documents).
Proof.
  induction 1 as [|doc rest Hdoc _ IH]; [reflexivity|].
  destruct (readable_keys doc Hdoc) as [Ht Hs].
  simpl. rewrite (doc_item_find _ _ Ht), (doc_item_find _ _ Hs), IH.
  reflexivity.
Qed.

(** The loop that prints the best documents raises nothing when they have
    their score and a title it can slice. *)
Lemma shown_ok (documents : list document) :
  Forall (fun doc =>
            dict_find String.eqb doc "rerank_score"%string <> None
            /\ exists title,
                 dict_find String.eqb doc "title"%string = Some title
                 /\ sliceable title = true) documents ->
  shown documents = Ok tt.
Proof.
  induction 1 as [|doc rest [Hscore (title & Ht & Hslice)] _ IH];
    [reflexivity|].
  cbn [shown]. rewrite (doc_item_find _ _ Hscore), (doc_item_found _ _ _ Ht).
  cbn [rbind]. now rewrite Hslice.
Qed.

Lemma scored_shown (documents : list document) (n : Z) :
  Forall readable documents ->
  shown (slice_to n (sorted_desc rerank_score (map (scored predict) documents)))
  = Ok tt.
Proof.
  intro H. apply shown_ok.
  eapply incl_Forall; [apply slice_to_incl|].
  eapply Permutation_Forall; [apply Permutation_sym, sorted_desc_perm|].
  rewrite Forall_map. eapply Forall_impl; [|exact H].
  intros doc [(title & Ht & Hslice) _]. unfold scored.
  rewrite !item_set. split; [discriminate|].
  exists title. split; [exact Ht | exact Hslice].
Qed.

Lemma scored_all (documents : list document) :
  map with_rerank_score
    (combine documents
       (map (fun p => predict (fst p) (snd p))
          (map (fun d => (item_or d "title"%string PNone,
                          item_or d "summary"%string PNone)) documents)))
  = map (scored predict) documents.
Proof.
  induction documents as [|doc rest IH]; [reflexivity|].
  simpl. now rewrite IH.
Qed.

(** [rerank] on readable documents. *)
Lemma rerank_eq (top_k_rerank : Z) (documents : list document)
    (top_k : option Z) :
  Forall readable documents ->
  rerank top_k_rerank predict documents top_k
  = Ok (slice_to (match top_k with Some k => k | None => top_k_rerank end)
          (sorted_desc rerank_score (map (scored predict) documents))).
Proof.
  intro H. unfold rerank. destruct documents as [|doc rest].
  - unfold slice_to. cbn [map sorted_desc fold_right length].
    destruct (_ <? 0)%Z; now rewrite firstn_nil.
  - rewrite (doc_texts_ok _ H). cbn [rbind]. rewrite scored_all.
    now rewrite (scored_shown _ 3 H).
Qed.

Lemma score_of_scored (doc : document) :
  rerank_score (scored predict doc) = predicted predict doc.
Proof.
  unfold rerank_score, scored. rewrite item_or_find, item_set.
  reflexivity.
Qed.

(** In a list sorted by descending key, the items at or above a threshold
    are a prefix. *)
Lemma filter_sorted_prefix {A} (key : A -> Q) (t : Q) (l : list A) :
  StronglySorted (fun x y => key y <= key x) l ->
  exists n,
    filter (fun d => Qle_bool t (key d)) l = firstn n l
    /\ Forall (fun d => key d < t) (skipn n l).
Proof.
  induction 1 as [|x l Hs IH Hall].
  - exists 0%nat. split; [reflexivity | constructor].
  - simpl. destruct (Qle_bool t (key x)) eqn:E.
    + destruct IH as (n & Hf & Hrest). exists (S n). simpl.
      now rewrite Hf.
    + exists 0%nat.
      assert (Hx : key x < t).
      { apply Qnot_le_lt. intro Hle. apply Qle_bool_iff in Hle.
        congruence. }
      assert (Hl : Forall (fun d => key d < t) l).
      { eapply Forall_impl; [|exact Hall].
        intros d Hd. simpl in Hd. eapply Qle_lt_trans; eassumption. }
      split; [|simpl; now constructor].
      simpl. clear -Hl. induction Hl as [|d l Hd _ IH]; [reflexivity|].
      simpl. destruct (Qle_bool t (key d)) eqn:E; [|exact IH].
      apply Qle_bool_iff in E. exfalso.
      apply (Qlt_not_le _ _ Hd E).
Qed.

(** X20. [rerank] returns the best-scored documents.  For [top_k >= 0] and
    documents that have a title and a summary, both texts (or lists: values
    that can be sliced), the call returns [top_k] documents, or all if there are fewer, each an input document with its
    [rerank_score] set to the cross-encoder's score, best first; no document
    left out scores higher than a returned one. *)
Theorem rerank_returns_the_best (top_k_rerank : Z)
    (documents : list document) (top_k : option Z) :
  let k := match top_k with Some k => k | None => top_k_rerank end in
  (0 <= k)%Z ->
  Forall readable documents ->
  exists out rest,
    rerank top_k_rerank predict documents top_k = Ok out
    /\ Permutation (out ++ rest) (map (scored predict) documents)
    /\ Forall (fun doc => rerank_score (scored predict doc)
                          = predicted predict doc) documents
    /\ length out = Nat.min (Z.to_nat k) (length documents)
    /\ StronglySorted (fun x y => not_above y x) out
    /\ Forall (fun x => Forall (fun y => not_above y x) rest) out.
Proof.
  intros k Hk Hread. rewrite (rerank_eq _ _ _ Hread). fold k.
  rewrite <- (Z2Nat.id k) by exact Hk. rewrite slice_to_nonneg.
  rewrite Z2Nat.id by exact Hk.
  set (sorted := sorted_desc rerank_score (map (scored predict) documents)).
  pose proof (sorted_desc_perm rerank_score (map (scored predict) documents))
    as Hperm.
  pose proof (sorted_desc_sorted rerank_score
                (map (scored predict) documents)) as Hsorted.
  fold sorted in Hperm, Hsorted.
  exists (firstn (Z.to_nat k) sorted), (skipn (Z.to_nat k) sorted).
  split; [reflexivity|].
  split; [now rewrite firstn_skipn|].
  split; [apply Forall_forall; intros doc _; apply score_of_scored|].
  split.
  { now rewrite length_firstn, (Permutation_length Hperm), length_map. }
  split; [now apply sorted_prefix|].
  apply sorted_app. now rewrite firstn_skipn.
Qed.

(** X21. [rerank_with_threshold] keeps a prefix of what [rerank] returns,
    for [top_k >= 0] and documents that have a title and a summary, both
    texts (or lists: values that can be sliced): the documents that score at
    least the threshold come first in the ranking, so filtering cuts the
    ranking at one place; every document after the cut scores below the
    threshold. *)
Theorem threshold_cuts_the_ranking (top_k_rerank : Z)
    (documents : list document) (threshold : Q) (top_k : option Z) :
  let k := match top_k with Some k => k | None => top_k_rerank end in
  (0 <= k)%Z ->
  Forall readable documents ->
  exists reranked n,
    rerank top_k_rerank predict documents top_k = Ok reranked
    /\ rerank_with_threshold top_k_rerank predict documents threshold top_k
       = Ok (firstn n reranked)
    /\ Forall (fun doc => threshold <= rerank_score doc) (firstn n reranked)
    /\ Forall (fun doc => rerank_score doc < threshold) (skipn n reranked).
Proof.
  intros k Hk Hread. unfold rerank_with_threshold.
  rewrite (rerank_eq _ _ _ Hread). fold k. cbn [rbind].
  rewrite <- (Z2Nat.id k) by exact Hk. rewrite slice_to_nonneg.
  pose proof (sorted_desc_sorted rerank_score
                (map (scored predict) documents)) as Hsorted.
  apply (sorted_prefix _ (Z.to_nat k)) in Hsorted.
  destruct (filter_sorted_prefix rerank_score threshold _ Hsorted)
    as (n & Hf & Hrest).
  eexists _, n. split; [reflexivity|].
  split; [now rewrite Hf|].
  split; [|exact Hrest].
  rewrite <- Hf. apply Forall_forall. intros doc Hdoc.
  apply filter_In in Hdoc. destruct Hdoc as [_ Hdoc].
  now apply Qle_bool_iff in Hdoc.
Qed.

End RerankerFacts.

Section RerankerExamples.
Import DottedGet Retrieval Reranker.

Lemma rerank_returns_the_best_witness :
  (0 <= 2)%Z
  /\ Forall readable example_articles
  /\ exists out rest,
       rerank 5 by_title example_articles (Some 2%Z) = Ok out
       /\ Permutation (out ++ rest) (map (scored by_title) example_articles)
       /\ Forall (fun doc => rerank_score (scored by_title doc)
                             = predicted by_title doc) example_articles
       /\ length out = Nat.min (Z.to_nat 2) (length example_articles)
       /\ StronglySorted (fun x y => not_above y x) out
       /\ Forall (fun x => Forall (fun y => not_above y x) rest) out.
Proof.
  assert (H1 : (0 <= 2)%Z) by lia.
  assert (H2 : Forall readable example_articles)
    by (repeat constructor; eexists; split; reflexivity).
  split; [exact H1|]. split; [exact H2|].
  exact (rerank_returns_the_best by_title 5 example_articles (Some 2%Z)
           H1 H2).
Defined.

Lemma threshold_cuts_the_ranking_witness :
  (0 <= 2)%Z
  /\ Forall readable example_articles
  /\ exists reranked n,
       rerank 5 by_title example_articles (Some 2%Z) = Ok reranked
       /\ rerank_with_threshold 5 by_title example_articles 6 (Some 2%Z)
          = Ok (firstn n reranked)
       /\ Forall (fun doc => 6 <= rerank_score doc) (firstn n reranked)
       /\ Forall (fun doc => rerank_score doc < 6) (skipn n reranked).
Proof.
  assert (H1 : (0 <= 2)%Z) by lia.
  assert (H2 : Forall readable example_articles)
    by (repeat constructor; eexists; split; reflexivity).
  split; [exact H1|]. split; [exact H2|].
  exact (threshold_cuts_the_ranking by_title 5 example_articles 6
           (Some 2%Z) H1 H2).
Defined.

End RerankerExamples.

(* ================================================================== *)
(** ** RAGService.process_query *)
(* ================================================================== *)

Section PipelineFacts.
Import RL Spec More Rounding DottedGet Retrieval Reranker Pipeline.

(** What a response is made of. *)
Lemma process_query_inv (self : RAGService) (world : Answers)
    (enable_web_search : bool) (r : Response) :
  process_query self world enable_web_search = Ok r ->
  exists reranked c,
    selected self world = Ok reranked
    /\ judged_confidence world = Some c
    /\ web_search_triggered r
       = enable_web_search
         && (judge_asks self world c
             || should_trigger_web_search (rl_optimizer self) (c / 10) c)
         && has_results world
    /\ sources r
       = internal_sources reranked
         ++ (if web_search_triggered r then map web_source (web_results world)
             else [])
    /\ confidence r
       = calculate_weighted_confidence (rl_optimizer self) c
           (calculate_weighted_judge_score (rl_optimizer self)
              (Judge.scores
                 (Judge.evaluate_answer_quality (judged_answer world))))
    /\ map snd (judge_scores r)
       = map (fun m =>
                dict_get metric_eqb
                  (Judge.scores
                     (Judge.evaluate_answer_quality (judged_answer world)))
                  m 5) metrics.
Proof.
  unfold process_query. fold (selected self world).
  destruct (selected self world) as [reranked|]; [|discriminate].
  cbn [rbind]. unfold Judge.evaluate_retrieval_adequacy.
  destruct (Judge.doc_summaries (slice_to 3 reranked)); [|discriminate].
  cbn [rbind]. unfold judged_confidence, judge_asks.
  destruct (judged_retrieval world) as [[c|]|];
    cbn [rbind Judge.confidence Judge.needs_web_search get_or];
    [|discriminate|].
  all: unfold has_results.
  all: destruct (enable_web_search && _) eqn:Ego; cbn [rbind fst snd];
    [destruct (web_results world) as [|w ws] eqn:Ew;
     [|destruct (web_titles (w :: ws)); [|discriminate]]|];
    cbn [rbind fst snd];
    (destruct (context_parts reranked); [|discriminate]);
    cbn [rbind];
    (destruct (web_parts _); [|discriminate]);
    cbn [rbind]; intro H; injection H as <-;
    eexists reranked, _;
    cbn [web_search_triggered sources confidence judge_scores map];
    rewrite ?Ego; cbn [andb];
    rewrite ?andb_false_r, ?andb_true_r, ?app_nil_r;
    repeat split; reflexivity.
Qed.

(** X22. Whether the pipeline searches the web is decided by the judge's
    confidence, the judge's threshold and the learned threshold.  When the
    optimizer's judge threshold does not exceed the judge's own (5 against
    6 by default), a response reports a web search exactly when searching
    is enabled, the search gave results, and the judge's confidence is
    below the judge's threshold, or a tenth of it (as the float division
    gives it: up to rounding, relative to its size) is below the learned
    confidence threshold, or the judge's model failed; the optimizer's
    judge threshold plays no part. *)
Theorem web_search_is_decided_by_the_judge (self : RAGService)
    (world : Answers) (enable_web_search : bool) (r : Response) :
  process_query self world enable_web_search = Ok r ->
  get_or (RL.judge_threshold (web_search (config (rl_optimizer self)))) 5
  <= judge_threshold self ->
  exists c prelim_confidence,
    judged_confidence world = Some c
    /\ about_scaled (1 + Qabs c) (c / 10) prelim_confidence
    /\ web_search_triggered r
       = enable_web_search
         && (judge_asks self world c
             || Qltb prelim_confidence (threshold (rl_optimizer self)))
         && has_results world.
Proof.
  intros H Hjt.
  destruct (process_query_inv _ _ _ _ H)
    as (reranked & c & _ & Hc & Ht & _).
  exists c, (c / 10). split; [exact Hc|].
  split.
  { apply about_exact; [|reflexivity].
    pose proof (Qabs_nonneg c). lra. }
  rewrite Ht.
  unfold should_trigger_web_search. cbv zeta.
  fold (threshold (rl_optimizer self)).
  destruct (Qltb c (get_or (RL.judge_threshold
                              (web_search (config (rl_optimizer self)))) 5))
    eqn:E; [|now rewrite orb_false_r].
  apply Qltb_lt in E.
  assert (Hasks : judge_asks self world c = true).
  { unfold judge_asks. destruct (judged_retrieval world); [|reflexivity].
    apply Qltb_lt. lra. }
  now rewrite Hasks.
Qed.

(** With a judge that is fairly confident the learned threshold decides:
    the judge does not ask for a search, and the pipeline searches. *)
Lemma web_search_is_decided_by_the_judge_witness :
  let self := default_service in
  let world := confident_judge in
  let r := confident_judge_response in
  process_query self world true = Ok r
  /\ get_or (RL.judge_threshold (web_search (config (rl_optimizer self)))) 5
     <= judge_threshold self
  /\ judge_asks self world 6.5 = false
  /\ web_search_triggered r = true
  /\ exists c prelim_confidence,
       judged_confidence world = Some c
       /\ about_scaled (1 + Qabs c) (c / 10) prelim_confidence
       /\ web_search_triggered r
          = true
            && (judge_asks self world c
                || Qltb prelim_confidence (threshold (rl_optimizer self)))
            && has_results world.
Proof.
  cbv zeta.
  assert (H1 : process_query default_service confident_judge true
               = Ok confident_judge_response) by (vm_compute; reflexivity).
  assert (H2 : get_or (RL.judge_threshold
                         (web_search
                            (config (rl_optimizer default_service)))) 5
               <= judge_threshold default_service)
    by (vm_compute; discriminate).
  split; [exact H1|]. split; [exact H2|].
  split; [reflexivity|]. split; [reflexivity|].
  exact (web_search_is_decided_by_the_judge default_service confident_judge
           true confident_judge_response H1 H2).
Defined.

(** X23. When the judge's model fails on both calls, the pipeline still
    answers: with the default judge weights and confidence weights that sum
    to 1, the reported confidence is exactly one half, every judge score is
    5, and a web search is reported whenever searching is enabled and gave
    results. *)
Theorem failed_judge_gives_half_confidence (self : RAGService)
    (world : Answers) (enable_web_search : bool) (r : Response) :
  process_query self world enable_web_search = Ok r ->
  judged_retrieval world = None ->
  judged_answer world = None ->
  tuned (rl_optimizer self) ->
  confidence r == 0.5
  /\ map snd (judge_scores r) = [5; 5; 5]
  /\ web_search_triggered r = enable_web_search && has_results world.
Proof.
  intros H Hr Ha (_ & Hw & _ & cr & ca & Ecw & Hsum & Hb).
  destruct (process_query_inv _ _ _ _ H)
    as (reranked & c & _ & Hc & Ht & _ & Hconf & Hscores).
  unfold judged_confidence in Hc. rewrite Hr in Hc. injection Hc as <-.
  unfold judge_asks in Ht. rewrite Hr in Ht. rewrite Ha in Hconf, Hscores.
  split; [|split; [exact Hscores | now rewrite Ht, andb_true_r]].
  rewrite Hconf. unfold calculate_weighted_confidence.
  rewrite Ecw. cbn [retrieval_eval answer_quality get_or].
  unfold calculate_weighted_judge_score. rewrite Hw.
  cbn [Judge.evaluate_answer_quality Judge.scores].
  set (x := 5 / 10).
  set (y := max2 0 (min2 10 _) / 10).
  assert (Hx : x == 0.5) by reflexivity.
  assert (Hy : y == 0.5) by (vm_compute; reflexivity).
  clearbody x y.
  assert (E : cr * x + ca * y == 0.5) by (rewrite Hx, Hy; lra).
  rewrite clamp_inside; rewrite E; [reflexivity|].
  split; vm_compute; discriminate.
Qed.

Lemma failed_judge_gives_half_confidence_witness :
  let self := default_service in
  let world := failing_judge in
  let r := failing_judge_response in
  process_query self world true = Ok r
  /\ judged_retrieval world = None
  /\ judged_answer world = None
  /\ tuned (rl_optimizer self)
  /\ confidence r == 0.5
  /\ map snd (judge_scores r) = [5; 5; 5]
  /\ web_search_triggered r = true && has_results world.
Proof.
  cbv zeta.
  assert (H1 : process_query default_service failing_judge true
               = Ok failing_judge_response) by (vm_compute; reflexivity).
  assert (H4 : tuned (rl_optimizer default_service))
    by (apply started_tuned).
  split; [exact H1|]. split; [reflexivity|]. split; [reflexivity|].
  split; [exact H4|].
  exact (failed_judge_gives_half_confidence default_service failing_judge
           true failing_judge_response H1 eq_refl eq_refl H4).
Defined.

Lemma readable_set (doc : document) (v : pyval) :
  readable doc ->
  readable (dict_set String.eqb doc "rerank_score"%string v).
Proof.
  unfold readable. now rewrite !item_set.
Qed.

Lemma readable_dummy (doc : document) :
  readable doc -> readable (dummy_score doc).
Proof.
  intro H. unfold dummy_score.
  destruct (dict_find String.eqb doc "rerank_score"%string);
    [exact H | now apply readable_set].
Qed.

(** The documents the pipeline goes on with are readable if the retrieved
    ones are. *)
Lemma selected_readable (self : RAGService) (world : Answers) :
  Forall readable (retrieved_docs world) ->
  exists reranked,
    selected self world = Ok reranked /\ Forall readable reranked.
Proof.
  intro H. unfold selected. destruct (enable_reranker self).
  - rewrite (rerank_eq _ _ _ _ H). eexists. split; [reflexivity|].
    eapply incl_Forall; [apply slice_to_incl|].
    eapply Permutation_Forall;
      [apply Permutation_sym, sorted_desc_perm|].
    rewrite Forall_map. eapply Forall_impl; [|exact H].
    intros doc Hdoc. now apply readable_set.
  - eexists. split; [reflexivity|].
    rewrite Forall_map. eapply incl_Forall; [apply slice_to_incl|].
    eapply Forall_impl; [|exact H]. apply readable_dummy.
Qed.

(** The judge can read the documents that are readable. *)
Lemma doc_summaries_ok (documents : list document) :
  Forall readable documents -> Judge.doc_summaries documents = Ok tt.
Proof.
  induction 1 as [|doc rest [(t & Ht & _) (s & Hs & Hslice)] _ IH];
    [reflexivity|].
  cbn [Judge.doc_summaries].
  rewrite (doc_item_found _ _ _ Ht), (doc_item_found _ _ _ Hs).
  cbn [rbind]. now rewrite Hslice.
Qed.

(** X24. A judge answer without [confidence] breaks the pipeline.  When the
    retrieved documents have a title and a summary, both texts (or lists:
    values that can be sliced), and the judge's model answers without a
    [confidence], the judge settles adequacy with the default 5 but the
    pipeline raises [KeyError('confidence')], whether the reranker and the
    web search are enabled or not. *)
Theorem judge_without_confidence_raises (self : RAGService)
    (world : Answers) (enable_web_search : bool) :
  Forall readable (retrieved_docs world) ->
  judged_retrieval world = Some None ->
  process_query self world enable_web_search
  = Raise (KeyError "confidence")
  /\ exists reranked,
       selected self world = Ok reranked
       /\ Judge.evaluate_retrieval_adequacy (judge_threshold self) reranked
            (judged_retrieval world)
          = Ok {| Judge.is_adequate := Some (Qle_bool (judge_threshold self) 5);
                  Judge.confidence := None;
                  Judge.needs_web_search :=
                    Some (Qltb 5 (judge_threshold self)) |}.
Proof.
  intros H Hj.
  destruct (selected_readable self world H) as (reranked & Hsel & Hread).
  assert (Hp : Judge.doc_summaries (slice_to 3 reranked) = Ok tt).
  { apply doc_summaries_ok.
    eapply incl_Forall; [apply slice_to_incl | exact Hread]. }
  split.
  - unfold process_query. fold (selected self world). rewrite Hsel.
    cbn [rbind]. unfold Judge.evaluate_retrieval_adequacy.
    rewrite Hp, Hj. reflexivity.
  - exists reranked. split; [exact Hsel|].
    unfold Judge.evaluate_retrieval_adequacy. rewrite Hp, Hj. reflexivity.
Qed.

Lemma judge_without_confidence_raises_witness :
  Forall readable (retrieved_docs silent_judge)
  /\ judged_retrieval silent_judge = Some None
  /\ process_query default_service silent_judge true
     = Raise (KeyError "confidence")
  /\ exists reranked,
       selected default_service silent_judge = Ok reranked
       /\ Judge.evaluate_retrieval_adequacy (judge_threshold default_service)
            reranked (judged_retrieval silent_judge)
          = Ok {| Judge.is_adequate :=
                    Some (Qle_bool (judge_threshold default_service) 5);
                  Judge.confidence := None;
                  Judge.needs_web_search :=
                    Some (Qltb 5 (judge_threshold default_service)) |}.
Proof.
  assert (H1 : Forall readable (retrieved_docs silent_judge))
    by (repeat constructor; eexists; split; reflexivity).
  split; [exact H1|]. split; [reflexivity|].
  exact (judge_without_confidence_raises default_service silent_judge true
           H1 eq_refl).
Defined.

Lemma fold_flat (f : Q -> Q -> Q) (v : Q) {A} (l : list A) :
  f v v = v -> fold_left f (map (fun _ => v) l) v = v.
Proof.
  intro H. induction l as [|x l IH]; [reflexivity|].
  simpl. now rewrite H.
Qed.

Lemma dummy_unscored (doc : document) :
  unscored doc ->
  as_number (item_or (dummy_score doc) "rerank_score"%string (PInt 0)) = 0.5.
Proof.
  intros [Hr Hs]. unfold dummy_score. rewrite Hr.
  rewrite !item_or_find, item_set, Hs. reflexivity.
Qed.

(** The sources of documents that all carry the score 0.5. *)
Lemma internal_sources_flat (docs : list document) :
  Forall (fun d => as_number (item_or d "rerank_score"%string (PInt 0)) = 0.5)
    docs ->
  internal_sources docs
  = map (fun _ => {| type := internal; relevance_score := flat_relevance |})
      docs.
Proof.
  intro H. unfold internal_sources. cbv zeta.
  assert (E : map (fun doc =>
                     as_number (item_or doc "rerank_score"%string (PInt 0)))
                docs
              = map (fun _ => 0.5) docs).
  { apply map_ext_in. intros d Hd. rewrite Forall_forall in H.
    now apply H. }
  rewrite E. destruct docs as [|d docs]; [reflexivity|].
  change (map (fun _ : document => 0.5) (d :: docs))
    with (0.5 :: map (fun _ : document => 0.5) docs).
  cbv beta iota. unfold min_of, max_of.
  rewrite !fold_flat by reflexivity.
  apply map_ext_in. intros doc Hdoc. rewrite Forall_forall in H.
  rewrite (H doc Hdoc). reflexivity.
Qed.

(** What [hybrid_search] returns of an index without scores has none
    either: it only adds [rrf_score] and [doc_id]. *)
Lemma hybrid_search_unscored (documents : list document) (self_top_k : Z)
    (semantic_search keyword_search : Z -> list HybridSearch.ranked)
    (top_k : option Z) (retrieved : list document) :
  Forall unscored documents ->
  hybrid_search documents self_top_k semantic_search keyword_search top_k
  = Returns retrieved ->
  Forall unscored retrieved.
Proof.
  intros Hun. unfold hybrid_search. cbv zeta.
  destruct (titles documents _); try discriminate.
  destruct (titles documents _); try discriminate.
  destruct (HybridSearch.reciprocal_rank_fusion _ _ 60) as [fused|];
    [|discriminate].
  generalize (slice_to (match top_k with Some k => k | None => self_top_k end)
                fused) as tops.
  intro tops. revert retrieved.
  induction tops as [|[id score] tops IH]; intros retrieved H.
  - injection H as <-. constructor.
  - simpl in H. destruct (list_item documents id) as [d|] eqn:Ed;
      [|discriminate].
    destruct (retrieve documents tops) as [rest| |]; try discriminate.
    injection H as <-. constructor; [|now apply IH].
    assert (Hd : unscored d).
    { rewrite Forall_forall in Hun. apply Hun. eapply list_item_In, Ed. }
    destruct Hd as [H1 H2]. unfold unscored. now rewrite !item_set.
Qed.

(** X25. Without the reranker every internal source has relevance 0.  When the
    reranker is disabled (the default) and no retrieved document has a
    [rerank_score] or a [score] (those of [hybrid_search] carry an
    [rrf_score]), every document gets the dummy score 0.5, the scores have
    no range, and the response lists the first five documents as internal
    sources with a relevance score of 0. *)
Theorem unreranked_sources_have_relevance_zero (self : RAGService)
    (world : Answers) (enable_web_search : bool) (r : Response) :
  process_query self world enable_web_search = Ok r ->
  enable_reranker self = false ->
  Forall unscored (retrieved_docs world) ->
  Forall (fun s => is_internal s = true -> relevance_score s == 0)
    (sources r)
  /\ length (filter is_internal (sources r))
     = Nat.min 5 (length (retrieved_docs world)).
Proof.
  intros H Hoff Hun.
  destruct (process_query_inv _ _ _ _ H)
    as (reranked & c & Hsel & _ & _ & Hsrc & _).
  unfold selected in Hsel. rewrite Hoff in Hsel. injection Hsel as <-.
  change (slice_to 5 (retrieved_docs world))
    with (firstn 5 (retrieved_docs world)) in Hsrc.
  assert (Hflat : Forall
                    (fun d => as_number
                                (item_or d "rerank_score"%string (PInt 0))
                              = 0.5)
                    (map dummy_score (firstn 5 (retrieved_docs world)))).
  { rewrite Forall_map. eapply incl_Forall; [apply prefix_incl|].
    eapply Forall_impl; [|exact Hun]. apply dummy_unscored. }
  rewrite (internal_sources_flat _ Hflat), map_map in Hsrc.
  rewrite Hsrc. split.
  - apply Forall_app. split.
    + rewrite Forall_map. apply Forall_forall. intros d _ _. reflexivity.
    + destruct (web_search_triggered r); [|constructor].
      rewrite Forall_map. apply Forall_forall. intros d _ Hd. discriminate.
  - rewrite filter_app.
    assert (E1 : forall l : list document,
               filter is_internal
                 (map (fun _ => {| type := internal;
                                   relevance_score := flat_relevance |}) l)
               = map (fun _ => {| type := internal;
                                  relevance_score := flat_relevance |}) l)
      by (induction l as [|x l IH]; [reflexivity | simpl; now rewrite IH]).
    assert (E2 : forall l : list document,
               filter is_internal (map web_source l) = [])
      by (induction l as [|x l IH]; [reflexivity | exact IH]).
    rewrite E1. destruct (web_search_triggered r);
      [rewrite E2|]; rewrite app_nil_r, length_map, length_firstn;
      reflexivity.
Qed.

Lemma unreranked_sources_have_relevance_zero_witness :
  let self := default_service in
  let world := failing_judge in
  let r := failing_judge_response in
  process_query self world true = Ok r
  /\ enable_reranker self = false
  /\ Forall unscored (retrieved_docs world)
  /\ Forall (fun s => is_internal s = true -> relevance_score s == 0)
       (sources r)
  /\ length (filter is_internal (sources r))
     = Nat.min 5 (length (retrieved_docs world)).
Proof.
  cbv zeta.
  assert (H1 : process_query default_service failing_judge true
               = Ok failing_judge_response) by (vm_compute; reflexivity).
  assert (H3 : Forall unscored (retrieved_docs failing_judge))
    by (repeat constructor).
  split; [exact H1|]. split; [reflexivity|]. split; [exact H3|].
  exact (unreranked_sources_have_relevance_zero default_service failing_judge
           true failing_judge_response H1 eq_refl H3).
Defined.

End PipelineFacts.
